(** * A shallow embedding of the resumable PTT crawl engine

    Source: [src/文章數量統計.py], class [PTTCrawler].

    The crawler walks a board's posts from the newest index down to 1,
    counts posts per calendar day, appends one spreadsheet row per finished
    day and logs out at the end.  The embedding keeps the Python control
    structure: a state-and-exception monad for the object's fields, the
    locals of [crawl], the workbook file and the log; an oracle for the
    remote board and the file system; [try/except] and [try/finally]
    combinators with Python's semantics.

    Left out: the set-up of the logger (log lines are kept, as events), the
    [tqdm] progress bar, which only draws, and the inside of the workbook
    file, which is taken as the list of its rows. *)

From stdpp Require Import gmap strings list sorting pretty.
From Stdlib Require Import ZArith Lia.

Local Open Scope Z_scope.

(** ** Python values *)

(** [datetime.date]: compared field by field, year first. *)
Record date := Date { year : Z; month : Z; day : Z }.

#[global] Instance date_eq_dec : EqDecision date.
Proof. solve_decision. Defined.

#[global] Program Instance date_countable : Countable date :=
  inj_countable' (fun d => (year d, month d, day d))
                 (fun t => Date t.1.1 t.1.2 t.2) _.
Next Obligation. by intros []. Qed.

Definition date_leb (a b : date) : bool :=
  if decide (year a = year b) then
    if decide (month a = month b) then bool_decide (day a <= day b)
    else bool_decide (month a < month b)
  else bool_decide (year a < year b).

Definition date_le (a b : date) : Prop := date_leb a b = true.

(** The values that reach the fields [start_date], [start_index] and the
    spreadsheet cells: [None], [str], [int] and [date].  These are the
    cells of a table the crawler wrote, or of one edited by hand with
    texts, whole numbers and dates.  A sheet can hold other cells ([float],
    [bool]); they are outside this embedding, and no statement below is
    about them -- with a [float] in the index cell, [start_index -= 1] is a
    number again and the loop of [crawl] runs on it. *)
Inductive pyval :=
| VNone
| VStr (s : string)
| VInt (z : Z)
| VDate (d : date).

#[global] Instance pyval_eq_dec : EqDecision pyval.
Proof. solve_decision. Defined.

(** Python truth value, as used by [and], [or] and [if]. *)
Definition truthy (v : pyval) : bool :=
  match v with
  | VNone => false
  | VStr s => negb (bool_decide (s = EmptyString))
  | VInt z => negb (z =? 0)
  | VDate _ => true
  end.

(** [a or b] *)
Definition py_or (a b : pyval) : pyval := if truthy a then a else b.

(** The exceptions the crawler can meet; all derive from [Exception]. *)
Inductive exn :=
| KeyError
| TypeError
| ValueError
| IndexError
| AttributeError
| Failure (tag : string).

#[global] Instance exn_eq_dec : EqDecision exn.
Proof. solve_decision. Defined.

(** ** Configuration, rows, the outside world *)

Record CrawlerConfig := {
  ptt_id : string;
  ptt_pwd : string;
  board_name : string;
  file_name : string;
  max_retries : Z;
  retry_delay : Z
}.

(** A worksheet row as [iter_rows(values_only=True)] yields it. *)
Definition row := list pyval.

Definition header : row :=
  [VStr "日期"; VStr "文章數量"; VStr "最早文章索引"].

(** What is at [config.file_name]: a workbook, taken as the list of its
    rows, or a file that [openpyxl.load_workbook] cannot read -- what a
    save that broke off after opening its target leaves behind; [e] is the
    exception loading it raises ([zipfile.BadZipFile] for a file cut
    short). *)
Inductive file :=
| Workbook (rows : list row)
| Torn (e : exn).

(** What [get_post] returns is only read through [post.get('date')]. *)
Record post := Post { post_get_date : pyval }.

Inductive call :=
| Login (id pwd : string)
| GetNewestIndex (board : string)
| GetPost (board : string) (index : Z)
| Logout
| SaveWorkbook (path : string) (rows : list row).

#[global] Instance call_eq_dec : EqDecision call.
Proof. solve_decision. Defined.

Inductive level := INFO | WARNING | ERROR.

Inductive message :=
| MsgResume (d : date) (index : pyval)
| MsgDayDone (d : date) (count index : Z)
| MsgRetry (delay : Z) (e : exn)
| MsgLoggedIn
| MsgLatest (latest : option Z)
| MsgIndexFailed (index : Z) (e : exn)
| MsgAllSaved (path : string)
| MsgCrawlFailed (e : exn)
| MsgLoggedOut
| MsgLogoutFailed (e : exn).

(** Everything the program does to the outside, in the order it happens. *)
Inductive event :=
| Called (c : call) (failure : option exn)
| Slept (secs : Z)
| Logged (lv : level) (m : message).

Inductive reply (A : Type) :=
| Return (a : A)
| Throw (e : exn).
Arguments Return {A} a.
Arguments Throw {A} e.

(** The remote board and the file system: each call answers from the
    history of events so far, so an operation may fail twice and then
    succeed, or fail for good.  [save_leaves h path rows old] is what a
    save that raised leaves at [path], where [old] was: [old] itself when
    the failure came before the target was opened, [Some (Torn _)] when the
    write broke off -- [Workbook.save] opens its target for writing, which
    empties it, before it writes. *)
Record remote := {
  login_reply : list event -> string -> string -> reply unit;
  newest_reply : list event -> string -> reply Z;
  post_reply : list event -> string -> Z -> reply post;
  logout_reply : list event -> reply unit;
  save_reply : list event -> string -> list row -> reply unit;
  save_leaves : list event -> string -> list row -> option file -> option file
}.

(** The date formats of [datetime]: ['%Y-%m-%d'] written to and read from
    the sheet, and ['%a %b %d %H:%M:%S %Y'] read from a post.  [None] is
    [ValueError]. *)
Record datetime := {
  strftime_ymd : date -> string;
  strptime_ymd : string -> option date;
  strptime_post : string -> option date
}.

(** ** Machine state *)

Record state := mkState {
  disk : option file;            (* what is at [config.file_name] *)
  sheet : list row;              (* [self.sheet] of [self.workbook] *)
  start_date : pyval;            (* [self.start_date] *)
  start_index : pyval;           (* [self.start_index] *)
  daily_count : gmap date Z;     (* local of [crawl] *)
  current_date : option date;    (* local of [crawl] *)
  current_index : Z;             (* local of [crawl] *)
  trace : list event
}.

Definition set_disk v s :=
  mkState v (sheet s) (start_date s) (start_index s) (daily_count s)
          (current_date s) (current_index s) (trace s).
Definition set_sheet v s :=
  mkState (disk s) v (start_date s) (start_index s) (daily_count s)
          (current_date s) (current_index s) (trace s).
Definition set_start_date v s :=
  mkState (disk s) (sheet s) v (start_index s) (daily_count s)
          (current_date s) (current_index s) (trace s).
Definition set_start_index v s :=
  mkState (disk s) (sheet s) (start_date s) v (daily_count s)
          (current_date s) (current_index s) (trace s).
Definition set_daily_count v s :=
  mkState (disk s) (sheet s) (start_date s) (start_index s) v
          (current_date s) (current_index s) (trace s).
Definition set_current_date v s :=
  mkState (disk s) (sheet s) (start_date s) (start_index s) (daily_count s)
          v (current_index s) (trace s).
Definition set_current_index v s :=
  mkState (disk s) (sheet s) (start_date s) (start_index s) (daily_count s)
          (current_date s) v (trace s).
Definition set_trace v s :=
  mkState (disk s) (sheet s) (start_date s) (start_index s) (daily_count s)
          (current_date s) (current_index s) v.

(** A new [PTTCrawler] next to a file system holding the workbook [d], if
    any; the sheet is assigned by [load_progress] before its first use. *)
Definition init_state (d : option (list row)) : state :=
  mkState (option_map Workbook d) [] VNone VNone ∅ None 0 [].

(** ** The monad *)

Inductive result (A : Type) :=
| Ok (a : A)
| Raise (e : exn)
| OutOfFuel.
Arguments Ok {A} a.
Arguments Raise {A} e.
Arguments OutOfFuel {A}.

Definition M (A : Type) : Type := state -> result A * state.

Definition ret {A} (a : A) : M A := fun s => (Ok a, s).

Definition bind {A B} (m : M A) (k : A -> M B) : M B :=
  fun s =>
    match m s with
    | (Ok a, s') => k a s'
    | (Raise e, s') => (Raise e, s')
    | (OutOfFuel, s') => (OutOfFuel, s')
    end.

Definition raise {A} (e : exn) : M A := fun s => (Raise e, s).

(** [try: m  except Exception as e: h e] *)
Definition try_except {A} (m : M A) (h : exn -> M A) : M A :=
  fun s =>
    match m s with
    | (Raise e, s') => h e s'
    | r => r
    end.

(** [try: m  finally: f] -- an exception of [f] replaces the outcome of [m]. *)
Definition try_finally {A} (m : M A) (f : M unit) : M A :=
  fun s =>
    match m s with
    | (OutOfFuel, s') => (OutOfFuel, s')
    | (r, s') =>
        match f s' with
        | (Ok _, s'') => (r, s'')
        | (Raise e, s'') => (Raise e, s'')
        | (OutOfFuel, s'') => (OutOfFuel, s'')
        end
    end.

Definition gets {A} (f : state -> A) : M A := fun s => (Ok (f s), s).
Definition modify (f : state -> state) : M unit := fun s => (Ok tt, f s).

Declare Scope py_scope.
Delimit Scope py_scope with py.
Notation "x <- m ;; k" := (bind m (fun x => k))
  (at level 100, m at next level, right associativity) : py_scope.
Notation "m ;; k" := (bind m (fun _ => k))
  (at level 100, right associativity) : py_scope.
Local Open Scope py_scope.

Definition emit (ev : event) : M unit :=
  modify (fun s => set_trace (trace s ++ [ev]) s).

(** [self.logger.<level>(...)] *)
Definition log (lv : level) (m : message) : M unit := emit (Logged lv m).

(** [time.sleep(secs)] -- a negative length is a [ValueError]. *)
Definition sleep (secs : Z) : M unit :=
  if secs <? 0 then raise ValueError else emit (Slept secs).

(** A call to the outside: the oracle answers from the history, and the
    call with its outcome joins the history. *)
Definition invoke {A} (c : call) (answer : list event -> reply A) : M A :=
  fun s =>
    match answer (trace s) with
    | Return a => (Ok a, set_trace (trace s ++ [Called c None]) s)
    | Throw e => (Raise e, set_trace (trace s ++ [Called c (Some e)]) s)
    end.

Section Crawler.

Variable R : remote.
Variable T : datetime.
Variable config : CrawlerConfig.

(** ** [retry_operation] *)

(** The [for attempt in range(max_retries)] loop; falling off the end of
    the range returns [None]. *)
Fixpoint retry_loop {A} (operation : M A) (n : nat) (attempt : Z)
  : M (option A) :=
  match n with
  | O => ret None
  | S n' =>
      r <- try_except
             (a <- operation ;; ret (Some a))
             (fun e =>
                if attempt =? max_retries config - 1 then raise e
                else
                  log WARNING (MsgRetry (retry_delay config) e) ;;
                  sleep (retry_delay config) ;;
                  ret None) ;;
      match r with
      | Some a => ret (Some a)
      | None => retry_loop operation n' (attempt + 1)
      end
  end.

Definition retry_operation {A} (operation : M A) : M (option A) :=
  retry_loop operation (Z.to_nat (max_retries config)) 0.

(** ** The remote calls and the workbook *)

Definition ptt_login : M unit :=
  invoke (Login (ptt_id config) (ptt_pwd config))
         (fun h => login_reply R h (ptt_id config) (ptt_pwd config)).

Definition ptt_get_newest_index : M Z :=
  invoke (GetNewestIndex (board_name config))
         (fun h => newest_reply R h (board_name config)).

Definition ptt_get_post (index : Z) : M post :=
  invoke (GetPost (board_name config) index)
         (fun h => post_reply R h (board_name config) index).

Definition ptt_logout : M unit :=
  invoke Logout (logout_reply R).

(** [self.workbook.save(self.config.file_name)].  A save that returns has
    written the whole sheet; a save that raises leaves at the path what the
    file system says, and the exception goes on to the caller. *)
Definition workbook_save : M unit :=
  rows <- gets sheet ;;
  h <- gets trace ;;
  old <- gets disk ;;
  try_except
    (invoke (SaveWorkbook (file_name config) rows)
            (fun h => save_reply R h (file_name config) rows))
    (fun e =>
       modify (set_disk (save_leaves R h (file_name config) rows old)) ;;
       raise e) ;;
  modify (set_disk (Some (Workbook rows))).

(** [self.sheet.append(r)] *)
Definition sheet_append (r : row) : M unit :=
  modify (fun s => set_sheet (sheet s ++ [r]) s).

(** ** [load_progress] *)

(** [row[i]] *)
Definition getitem (r : row) (i : nat) : M pyval :=
  match r !! i with
  | Some v => ret v
  | None => raise IndexError
  end.

(** The [for row in ...: if row[0] and row[2]: dates.append(...)] loop. *)
Fixpoint scan_rows (rows : list row) (dates : list (pyval * pyval))
  : M (list (pyval * pyval)) :=
  match rows with
  | [] => ret dates
  | r :: rest =>
      c0 <- getitem r 0 ;;
      if truthy c0 then
        c2 <- getitem r 2 ;;
        if truthy c2 then scan_rows rest (dates ++ [(c0, c2)])
        else scan_rows rest dates
      else scan_rows rest dates
  end.

(** [datetime.strptime(v, fmt).date()] *)
Definition strptime (parse : string -> option date) (v : pyval) : M date :=
  match v with
  | VStr s =>
      match parse s with
      | Some d => ret d
      | None => raise ValueError
      end
  | _ => raise TypeError
  end.

(** [v - 1] *)
Definition minus_one (v : pyval) : M pyval :=
  match v with
  | VInt z => ret (VInt (z - 1))
  | VNone | VStr _ | VDate _ => raise TypeError
  end.

(** [openpyxl.load_workbook] raises on a file that is no workbook. *)
Definition load_progress : M unit :=
  d <- gets disk ;;
  match d with
  | Some (Torn e) => raise e
  | Some (Workbook rows) =>
      modify (set_sheet rows) ;;
      dates <- scan_rows (drop 1 rows) [] ;;
      match last dates with
      | Some (c0, c2) =>
          modify (set_start_date c0) ;;
          modify (set_start_index c2) ;;
          sd <- strptime (strptime_ymd T) c0 ;;
          modify (set_start_date (VDate sd)) ;;
          si <- minus_one c2 ;;
          modify (set_start_index si) ;;
          log INFO (MsgResume sd si)
      | None =>
          modify (set_start_date VNone) ;;
          modify (set_start_index VNone)
      end
  | None =>
      modify (set_sheet []) ;;
      sheet_append header ;;
      workbook_save
  end.

(** ** [save_daily_count] *)

Definition tally_row (d : date) (count index : Z) : row :=
  [VStr (strftime_ymd T d); VInt count; VInt index].

Definition save_daily_count (d : date) (count index : Z) : M unit :=
  sheet_append (tally_row d count index) ;;
  workbook_save ;;
  log INFO (MsgDayDone d count index).

(** ** [crawl] *)

(** [daily_count[d]] *)
Definition dict_getitem (m : gmap date Z) (d : date) : M Z :=
  match m !! d with
  | Some c => ret c
  | None => raise KeyError
  end.

(** The first half of the [try] inside the [while] loop: fetch the post
    at [current_index] and parse its date. *)
Definition fetch_post_date : M date :=
  ci <- gets current_index ;;
  fetched <- retry_operation (ptt_get_post ci) ;;
  post_date_str <- match fetched with
                   | Some p => ret (post_get_date p)
                   | None => raise AttributeError
                   end ;;
  strptime (strptime_post T) post_date_str.

(** The second half: count the post, flushing the day that just ended.
    After the first [if], [current_date] is a date; the [None] branches
    below say what Python would raise and are never taken. *)
Definition tally_post (post_date : date) : M unit :=
  cd <- gets current_date ;;
  match cd with
  | None => modify (set_current_date (Some post_date))
  | Some _ => ret tt
  end ;;
  cd <- gets current_date ;;
  if negb (bool_decide (Some post_date = cd)) then
    dc <- gets daily_count ;;
    count <- match cd with
             | Some cur => dict_getitem dc cur
             | None => raise KeyError
             end ;;
    ci <- gets current_index ;;
    match cd with
    | Some cur => save_daily_count cur count (ci + 1)
    | None => raise AttributeError
    end ;;
    modify (set_current_date (Some post_date)) ;;
    modify (fun s => set_daily_count (<[post_date := 1]> (daily_count s)) s)
  else
    modify (fun s =>
      set_daily_count
        (<[post_date := default 0 (daily_count s !! post_date) + 1]>
           (daily_count s)) s).

(** The body of the [try] inside the [while] loop. *)
Definition process_index : M unit :=
  post_date <- fetch_post_date ;;
  tally_post post_date.

(** One turn of the [while] loop: the [try] with its handler, then
    [current_index -= 1]. *)
Definition iteration : M unit :=
  try_except process_index
    (fun e => ci <- gets current_index ;; log ERROR (MsgIndexFailed ci e)) ;;
  modify (fun s => set_current_index (current_index s - 1) s).

(** [while current_index > 0: ...] *)
Fixpoint while_loop (fuel : nat) : M unit :=
  fun s =>
    if current_index s >? 0 then
      match fuel with
      | O => (OutOfFuel, s)
      | S fuel' => (iteration ;; while_loop fuel') s
      end
    else (Ok tt, s).

(** [if current_date: self.save_daily_count(...)] after the loop; a [date]
    is always true, so the test is [current_date is not None]. *)
Definition final_flush : M unit :=
  cd <- gets current_date ;;
  match cd with
  | Some cur =>
      dc <- gets daily_count ;;
      count <- dict_getitem dc cur ;;
      ci <- gets current_index ;;
      save_daily_count cur count (ci + 1)
  | None => ret tt
  end.

(** From [daily_count = {}] to the end of the [while] loop.
    [while current_index > 0] raises [TypeError] at its first test when
    [index] is not an [int], before anything else is done with it. *)
Definition walk_down (fuel : nat) (index : pyval) : M unit :=
  modify (set_daily_count ∅) ;;
  modify (set_current_date None) ;;
  match index with
  | VInt z => modify (set_current_index z) ;; while_loop fuel
  | _ => raise TypeError
  end.

(** The traversal: the loop, the last flush and the closing log line. *)
Definition traverse (fuel : nat) (index : pyval) : M unit :=
  walk_down fuel index ;;
  final_flush ;;
  log INFO (MsgAllSaved (file_name config)).

Definition opt_int (o : option Z) : pyval :=
  match o with
  | Some z => VInt z
  | None => VNone
  end.

(** [index = self.start_index or latest_index] *)
Definition choose_start (si : pyval) (latest_index : option Z) : pyval :=
  py_or si (opt_int latest_index).

(** The outer [try] up to and including
    [index = self.start_index or latest_index]. *)
Definition crawl_setup : M pyval :=
  load_progress ;;
  retry_operation ptt_login ;;
  log INFO MsgLoggedIn ;;
  latest_index <- retry_operation ptt_get_newest_index ;;
  log INFO (MsgLatest latest_index) ;;
  si <- gets start_index ;;
  ret (choose_start si latest_index).

(** The body of the outer [try]. *)
Definition crawl_body (fuel : nat) : M unit :=
  index <- crawl_setup ;;
  traverse fuel index.

(** The outer [try] with its [except Exception: log; raise]. *)
Definition crawl_guarded (fuel : nat) : M unit :=
  try_except (crawl_body fuel)
             (fun e => log ERROR (MsgCrawlFailed e) ;; raise e).

(** The [finally] block. *)
Definition close_session : M unit :=
  try_except (ptt_logout ;; log INFO MsgLoggedOut)
             (fun e => log ERROR (MsgLogoutFailed e)).

Definition crawl (fuel : nat) : M unit :=
  try_finally (crawl_guarded fuel) close_session.

(** The state one turn of the loop body leaves. *)
Definition turn (s : state) : state := (iteration s).2.

End Crawler.

(** ** Observations on histories and tables *)

Definition is_call (c : call) (ev : event) : bool :=
  match ev with
  | Called c' _ => bool_decide (c' = c)
  | _ => false
  end.

(** How often [c] was invoked in the history [h]. *)
Definition calls_to (c : call) (h : list event) : nat :=
  length (List.filter (is_call c) h).

(** No invocation of [c] in [evs] returned normally. *)
Definition all_failed (c : call) (evs : list event) : Prop :=
  Forall (fun ev => ev <> Called c None) evs.

Definition is_fetch (ev : event) : bool :=
  match ev with
  | Called (GetPost _ _) _ => true
  | _ => false
  end.

Definition is_save (ev : event) : bool :=
  match ev with
  | Called (SaveWorkbook _ _) _ => true
  | _ => false
  end.

Definition is_logout (ev : event) : bool :=
  match ev with
  | Called Logout _ => true
  | _ => false
  end.

(** [n; n-1; ...; 1] *)
Fixpoint countdown (n : nat) : list Z :=
  match n with
  | O => []
  | S n' => Z.of_nat (S n') :: countdown n'
  end.

(** The indices of the posts asked for in a history, in order, one entry
    per call. *)
Definition fetched_at (evs : list event) : list Z :=
  omap (fun ev => match ev with
                  | Called (GetPost _ i) _ => Some i
                  | _ => None
                  end) evs.

(** A list with each run of equal neighbours reduced to one element: the
    calls of one index, retries included, count as one visit. *)
Fixpoint squash (l : list Z) : list Z :=
  match l with
  | [] => []
  | x :: l' =>
      match squash l' with
      | [] => [x]
      | y :: r => if decide (x = y) then y :: r else x :: y :: r
      end
  end.

(** ** Frame relations between the state before and after a computation *)

(** [m] relates every start state to its end state by [Rel]. *)
Definition keeps {A} (Rel : relation state) (m : M A) : Prop :=
  forall s, Rel s (m s).2.

(** [m] never runs out of fuel. *)
Definition total {A} (m : M A) : Prop :=
  forall s, (m s).1 <> OutOfFuel.

(** Nothing but the history changed. *)
Definition only_trace (s s' : state) : Prop :=
  s' = set_trace (trace s') s.

Definition same_index (s s' : state) : Prop :=
  current_index s' = current_index s.

(** The history grew by events that all satisfy [P]. *)
Definition grows_by (P : event -> bool) (s s' : state) : Prop :=
  exists evs, trace s' = trace s ++ evs /\ forallb P evs = true.

(** [Rel] lets any event satisfying [P] join the history. *)
Definition accepts (Rel : relation state) (P : event -> bool) : Prop :=
  forall s ev, P ev = true -> Rel s (set_trace (trace s ++ [ev]) s).

(** ** A pure account of the day counting *)

(** A finished day: its date, its count and its earliest index. *)
Definition tally : Type := date * Z * Z.

(** The day being counted and its count so far; [None] before the first
    post. *)
Definition active : Type := option (date * Z).

(** What one visit does: [o] is the date of the post at index [i], or
    [None] when the index was skipped. *)
Definition step_active (o : option date) (act : active) (i : Z)
  : list tally * active :=
  match o, act with
  | None, _ => ([], act)
  | Some d, None => ([], Some (d, 1))
  | Some d, Some (cur, c) =>
      if decide (d = cur) then ([], Some (cur, c + 1))
      else ([(cur, c, i + 1)], Some (d, 1))
  end.

(** The visits of a whole walk; [l] lists the outcomes in visiting order,
    and its head has index [length l]. *)
Fixpoint tallies (l : list (option date)) (act : active) : list tally * active :=
  match l with
  | [] => ([], act)
  | o :: l' =>
      let '(f1, a1) := step_active o act (Z.of_nat (length l)) in
      let '(f2, a2) := tallies l' a1 in
      (f1 ++ f2, a2)
  end.

(** The flush after a walk that ended at index 0. *)
Definition last_tally (act : active) : list tally :=
  match act with
  | Some (d, c) => [(d, c, 1)]
  | None => []
  end.

(** The state holds the active day [act]. *)
Definition agrees (s : state) (act : active) : Prop :=
  match act with
  | None => current_date s = None /\ daily_count s = ∅
  | Some (d, c) => current_date s = Some d /\ daily_count s !! d = Some c
  end.

(** The row [save_daily_count] writes for a finished day. *)
Definition row_of (T : datetime) (t : tally) : row :=
  tally_row T t.1.1 t.1.2 t.2.

(** Everything a walk from [length l] down to 1 writes, last flush
    included. *)
Definition all_tallies (l : list (option date)) (act : active) : list tally :=
  (tallies l act).1 ++ last_tally (tallies l act).2.

(** ** The ground truth of an archive

    An archive is the list of the dates of the posts 1, 2, ..., N. *)

(** The number of indices that carry the date [d]. *)
Definition count_of (d : date) (archive : list date) : Z :=
  Z.of_nat (length (filter (fun x => x = d) archive)).

(** [e] is the least index that carries the date [d]. *)
Definition earliest_at (archive : list date) (d : date) (e : Z) : Prop :=
  1 <= e /\
  archive !! Z.to_nat (e - 1) = Some d /\
  forall j : nat, archive !! j = Some d -> e <= Z.of_nat j + 1.

Definition histogram_row (archive : list date) (t : tally) : Prop :=
  t.1.2 = count_of t.1.1 archive /\ earliest_at archive t.1.1 t.2.

(** The posts sum of the rows of a table whose date cell reads [key]. *)
Definition row_count (key : string) (r : row) : Z :=
  match r with
  | VStr s :: VInt c :: _ => if decide (s = key) then c else 0
  | _ => 0
  end.

Definition persisted_count (key : string) (rows : list row) : Z :=
  foldr (fun r acc => row_count key r + acc) 0 rows.

(** The posts of a walk whose date is written [key], and the share of the
    active day in them. *)
Definition seen (T : datetime) (key : string) (l : list (option date)) : Z :=
  foldr (fun o acc =>
           match o with
           | Some d => if decide (strftime_ymd T d = key) then 1 + acc else acc
           | None => acc
           end) 0 l.

Definition active_count (T : datetime) (key : string) (act : active) : Z :=
  match act with
  | Some (d, c) => if decide (strftime_ymd T d = key) then c else 0
  | None => 0
  end.

(** The count of the active day is in [daily_count]: [daily_count[current_date]]
    cannot raise [KeyError]. *)
Definition tally_ready (s : state) : Prop :=
  match current_date s with
  | Some d => is_Some (daily_count s !! d)
  | None => True
  end.

(** In the history [h], a post is fetched after the save of a table with
    a day row (a save made by [save_daily_count]) has failed. *)
Fixpoint fetch_after_failed_save (h : list event) : bool :=
  match h with
  | [] => false
  | Called (SaveWorkbook _ (_ :: _ :: _)) (Some _) :: rest =>
      existsb is_fetch rest || fetch_after_failed_save rest
  | _ :: rest => fetch_after_failed_save rest
  end.

(** The test of [load_progress] on a data row: date and index both
    present. *)
Definition valid_row (r : row) : bool :=
  match r !! 0%nat, r !! 2%nat with
  | Some a, Some b => truthy a && truthy b
  | _, _ => false
  end.

(** The pair [load_progress] keeps of a row. *)
Definition cells (r : row) : pyval * pyval :=
  (default VNone (r !! 0%nat), default VNone (r !! 2%nat)).

(** ** States named in the step equations *)

(** The events of one failed attempt that is followed by another. *)
Definition retry_events (config : CrawlerConfig) (c : call) (e : exn)
  : list event :=
  [Called c (Some e); Logged WARNING (MsgRetry (retry_delay config) e);
   Slept (retry_delay config)].

(** The state after a successful [save_daily_count]. *)
Definition flushed (T : datetime) (config : CrawlerConfig)
    (d : date) (c i : Z) (s : state) : state :=
  let rows := sheet s ++ [tally_row T d c i] in
  mkState (Some (Workbook rows)) rows (start_date s) (start_index s) (daily_count s)
          (current_date s) (current_index s)
          (trace s ++ [Called (SaveWorkbook (file_name config) rows) None;
                       Logged INFO (MsgDayDone d c i)]).

(** The state after a [save_daily_count] whose save raised [e]. *)
Definition unflushed (R : remote) (T : datetime) (config : CrawlerConfig)
    (d : date) (c i : Z) (e : exn) (s : state) : state :=
  let rows := sheet s ++ [tally_row T d c i] in
  mkState (save_leaves R (trace s) (file_name config) rows (disk s)) rows (start_date s) (start_index s) (daily_count s)
          (current_date s) (current_index s)
          (trace s ++ [Called (SaveWorkbook (file_name config) rows) (Some e)]).

(** The state after [daily_count[d] = daily_count.get(d, 0) + 1]. *)
Definition counted (d : date) (s : state) : state :=
  set_daily_count (<[d := default 0 (daily_count s !! d) + 1]> (daily_count s)) s.

(** ** A board on paper

    Concrete stand-ins for the remote board, the file system and the date
    formats, on which the crawler can be run. *)

Definition iso (d : date) : string :=
  pretty (year d) +:+ "-" +:+ pretty (month d) +:+ "-" +:+ pretty (day d).

(** Reads back the dates of the calendar [cal]; anything else is a
    [ValueError]. *)
Definition parse_in (cal : list date) (s : string) : option date :=
  head (filter (fun d => iso d = s) cal).

Definition paper_datetime (cal : list date) : datetime :=
  {| strftime_ymd := iso; strptime_ymd := parse_in cal; strptime_post := parse_in cal |}.

Definition saves_in (h : list event) : nat := length (List.filter is_save h).

(** The board holds the posts of [archive]; the indices in [broken] cannot
    be fetched; the save fails when the number of earlier saves is in
    [save_fails], and a save that fails leaves a torn file. *)
Definition paper_board (archive : list date) (broken : Z -> bool)
    (save_fails : nat -> bool) : remote :=
  {| login_reply _ _ _ := Return tt;
     newest_reply _ _ := Return (Z.of_nat (length archive));
     post_reply _ _ i :=
       if broken i then Throw (Failure "timeout")
       else if 1 <=? i then
         match archive !! Z.to_nat (i - 1) with
         | Some d => Return (Post (VStr (iso d)))
         | None => Throw (Failure "no such post")
         end
       else Throw (Failure "no such post");
     logout_reply _ := Return tt;
     save_reply h _ _ :=
       if save_fails (saves_in h) then Throw (Failure "disk full") else Return tt;
     save_leaves _ _ _ _ := Some (Torn (Failure "BadZipFile")) |}.

Definition paper_config (retries delay : Z) : CrawlerConfig :=
  {| ptt_id := "ID"; ptt_pwd := "PW"; board_name := "Stock";
     file_name := "ptt_data.xlsx"; max_retries := retries; retry_delay := delay |}.

Definition jan1 : date := Date 2024 1 1.
Definition jan2 : date := Date 2024 1 2.
Definition january : list date := [jan1; jan2].

(** Three posts: two on the first of January, one on the second. *)
Definition three_posts : list date := [jan1; jan1; jan2].

Definition never {A} (_ : A) : bool := false.

(** A call that fails on its first two invocations. *)
Definition flaky_call : call := GetPost "Stock" 7.
Definition flaky (h : list event) : reply Z :=
  if (calls_to flaky_call h <? 2)%nat then Throw (Failure "timeout") else Return 42.

(** A crawler that has loaded a table holding the header only. *)
Definition loaded : state :=
  mkState (Some (Workbook [header])) [header] VNone VNone ∅ None 0 [].

(** Half-way down [three_posts]: post 3 is counted, index 2 is next. *)
Definition midway : state :=
  mkState (Some (Workbook [header])) [header] VNone VNone {[jan2 := 1]} (Some jan2) 2 [].

(** A finished table: its last row has the earliest index 1. *)
Definition finished_table : list row :=
  [header; [VStr "2024-1-2"; VInt 1; VInt 3]; [VStr "2024-1-1"; VInt 2; VInt 1]].

(** ** Further observations *)

Definition is_sleep (ev : event) : bool :=
  match ev with
  | Slept _ => true
  | _ => false
  end.

(** Any post fetched by [ev] has its index between [lo] and [hi]. *)
Definition fetch_within (lo hi : Z) (ev : event) : bool :=
  match ev with
  | Called (GetPost _ i) _ => (lo <=? i) && (i <=? hi)
  | _ => true
  end.

(** The sum of the count cells of a table. *)
Definition total_count (rows : list row) : Z :=
  foldr (fun r acc =>
           match r with
           | _ :: VInt c :: _ => c + acc
           | _ => acc
           end) 0 rows.

(** The number of posts a walk fetched. *)
Definition fetched (l : list (option date)) : Z :=
  Z.of_nat (length (List.filter
                      (fun o : option date =>
                         match o with Some _ => true | None => false end) l)).

(** Finished days as the loop writes them: every count at least 1, every
    earliest index between [lo] and [hi], and the indices going down. *)
Definition sound_rows (lo hi : Z) (ts : list tally) : Prop :=
  Forall (fun t : tally => 1 <= t.1.2 /\ lo <= t.2 <= hi) ts /\
  StronglySorted (fun t t' : tally => t'.2 < t.2) ts.

(** What the loop keeps true on its way down from [hi]; [n] is the index
    of the next visit and [base] the sheet the loop started with. *)
Definition walk_sound (T : datetime) (hi : Z) (base : list row) (n : Z)
    (s : state) : Prop :=
  (exists ts, sheet s = base ++ map (row_of T) ts /\
              sound_rows (Z.max 1 (n + 2)) hi ts) /\
  map_Forall (fun (_ : date) (c : Z) => 1 <= c) (daily_count s) /\
  n <= hi /\
  (is_Some (current_date s) -> 0 <= n < hi).

(** The sheet and the file are as they were. *)
Definition same_table (s s' : state) : Prop :=
  sheet s' = sheet s /\ disk s' = disk s.

(** Between two days nothing is pending: while no day is being counted,
    the file holds the sheet. *)
Definition in_step (s : state) : Prop :=
  current_date s = None -> disk s = Some (Workbook (sheet s)).

(** The history grew, with at most [n] invocations of [c]. *)
Definition grows_counting (c : call) (n : nat) (s s' : state) : Prop :=
  exists evs, trace s' = trace s ++ evs /\ (calls_to c evs <= n)%nat.

(** ** More of the paper board *)

(** A board that lets nobody in. *)
Definition closed_board : remote :=
  {| login_reply _ _ _ := Throw (Failure "no route");
     newest_reply _ _ := Return 3;
     post_reply _ _ _ := Throw (Failure "no such post");
     logout_reply _ := Return tt;
     save_reply _ _ _ := Return tt;
     save_leaves _ _ _ old := old |}.

(** The table of a run that stopped after its first day row. *)
Definition interrupted_table : list row :=
  [header; [VStr "2024-1-2"; VInt 1; VInt 3]].

(** A table whose cursor row carries a date that does not parse. *)
Definition garbled_table : list row :=
  [header; [VStr "yesterday"; VInt 1; VInt 3]].

(** Post 2 of [three_posts] cannot be fetched. *)
Definition without_second (i : Z) : option date :=
  if i =? 2 then None else three_posts !! Z.to_nat (i - 1).

(** * Facts

    ** Counting calls; the retry loop *)

Lemma calls_to_app c h1 h2 : calls_to c (h1 ++ h2) = (calls_to c h1 + calls_to c h2)%nat.
Proof. unfold calls_to. by rewrite List.filter_app, length_app. Qed.

Lemma calls_to_called c o : calls_to c [Called c o] = 1%nat.
Proof. unfold calls_to. simpl. by rewrite bool_decide_true. Qed.

Lemma calls_to_cons c ev h :
  calls_to c (ev :: h) = ((if is_call c ev then 1 else 0) + calls_to c h)%nat.
Proof. unfold calls_to. simpl. by destruct (is_call c ev). Qed.

Lemma is_call_same c o : is_call c (Called c o) = true.
Proof. simpl. by rewrite bool_decide_true. Qed.

Ltac count_calls :=
  repeat (rewrite calls_to_app || rewrite calls_to_cons || rewrite is_call_same);
  change (calls_to _ []) with 0%nat; simpl.

Lemma set_trace_same s : set_trace (trace s) s = s.
Proof. by destruct s. Qed.

Section RetryFacts.
Variable config : CrawlerConfig.
Context {A : Type} (c : call) (answer : list event -> reply A).

Local Abbreviation quiet := (all_failed c).

Lemma retry_loop_return n attempt s a :
  answer (trace s) = Return a ->
  retry_loop config (invoke c answer) (S n) attempt s
  = (Ok (Some a), set_trace (trace s ++ [Called c None]) s).
Proof.
  intros Ha. simpl. unfold bind, try_except, invoke. rewrite Ha. reflexivity.
Qed.

Lemma retry_loop_give_up n attempt s e :
  answer (trace s) = Throw e ->
  attempt = max_retries config - 1 ->
  retry_loop config (invoke c answer) (S n) attempt s
  = (Raise e, set_trace (trace s ++ [Called c (Some e)]) s).
Proof.
  intros Ha Hl. simpl. unfold bind, try_except, invoke. rewrite Ha.
  apply Z.eqb_eq in Hl. rewrite Hl. reflexivity.
Qed.

Lemma retry_loop_bad_delay n attempt s e :
  answer (trace s) = Throw e ->
  attempt <> max_retries config - 1 ->
  retry_delay config < 0 ->
  retry_loop config (invoke c answer) (S n) attempt s
  = (Raise ValueError,
     set_trace (trace s ++ [Called c (Some e);
                            Logged WARNING (MsgRetry (retry_delay config) e)]) s).
Proof.
  intros Ha Hl Hd. simpl. unfold bind, try_except, invoke. rewrite Ha.
  apply Z.eqb_neq in Hl. rewrite Hl.
  unfold log, emit, modify, sleep. apply Z.ltb_lt in Hd. rewrite Hd.
  unfold raise. simpl. by rewrite <- app_assoc.
Qed.

Lemma retry_loop_again n attempt s e :
  answer (trace s) = Throw e ->
  attempt <> max_retries config - 1 ->
  0 <= retry_delay config ->
  retry_loop config (invoke c answer) (S n) attempt s
  = retry_loop config (invoke c answer) n (attempt + 1)
      (set_trace (trace s ++ retry_events config c e) s).
Proof.
  intros Ha Hl Hd. simpl. unfold bind at 1, try_except, bind at 1, invoke. rewrite Ha.
  apply Z.eqb_neq in Hl. rewrite Hl.
  unfold bind, log, emit, modify, sleep. apply Z.ltb_ge in Hd. rewrite Hd.
  unfold ret. simpl. by rewrite <- !app_assoc.
Qed.

Lemma calls_to_retry_events e : calls_to c (retry_events config c e) = 1%nat.
Proof.
  unfold retry_events. by rewrite calls_to_cons, is_call_same.
Qed.

Lemma quiet_retry_events e : quiet (retry_events config c e).
Proof. repeat constructor; congruence. Qed.

Lemma retry_loop_spec n : forall attempt s,
  attempt + Z.of_nat n = max_retries config ->
  exists evs,
    (retry_loop config (invoke c answer) n attempt s).2 = set_trace (trace s ++ evs) s /\
    (calls_to c evs <= n)%nat /\
    match (retry_loop config (invoke c answer) n attempt s).1 with
    | Ok (Some a) =>
        exists pre, evs = pre ++ [Called c None] /\
                    answer (trace s ++ pre) = Return a /\ quiet pre
    | Ok None => n = 0%nat
    | Raise e =>
        quiet evs /\
        ((last evs = Some (Called c (Some e)) /\ calls_to c evs = n /\ n <> 0%nat) \/
         (retry_delay config < 0 /\ (calls_to c evs < n)%nat))
    | OutOfFuel => False
    end.
Proof.
  induction n as [|n IH]; intros attempt s Hm.
  - exists []. simpl. unfold ret. simpl. rewrite app_nil_r, set_trace_same.
    split_and!; done.
  - destruct (answer (trace s)) as [a|e] eqn:Ha.
    { rewrite (retry_loop_return _ _ _ _ Ha). simpl.
      exists [Called c None]. split; [done|]. rewrite calls_to_called. split; [lia|].
      exists []. rewrite app_nil_r. split_and!; [done|done|constructor]. }
    destruct (decide (attempt = max_retries config - 1)) as [Hl|Hl].
    { rewrite (retry_loop_give_up _ _ _ _ Ha Hl). simpl.
      exists [Called c (Some e)]. split; [done|]. rewrite calls_to_called. split; [lia|].
      split; [repeat constructor; congruence|]. left. split_and!; [done|lia|lia]. }
    destruct (decide (retry_delay config < 0)) as [Hd|Hd].
    { rewrite (retry_loop_bad_delay _ _ _ _ Ha Hl Hd). simpl.
      eexists. split; [done|].
      count_calls. split; [lia|].
      split; [repeat constructor; congruence|]. right. split; [done|lia]. }
    assert (Hd' : 0 <= retry_delay config) by lia.
    rewrite (retry_loop_again _ _ _ _ Ha Hl Hd').
    set (s1 := set_trace _ s).
    destruct (IH (attempt + 1) s1 ltac:(lia)) as (evs & Hst & Hc & Hr).
    exists (retry_events config c e ++ evs). rewrite Hst. split.
    { subst s1. simpl. by rewrite <- !app_assoc. }
    rewrite calls_to_app, calls_to_retry_events. split; [lia|].
    destruct (retry_loop config (invoke c answer) n (attempt + 1) s1).1 as [[a|]|e'|].
    + destruct Hr as (pre & -> & Hans & Hq). exists (retry_events config c e ++ pre).
      rewrite <- !app_assoc. split; [done|].
      subst s1. simpl in Hans. rewrite <- app_assoc in Hans.
      split; [done|]. apply Forall_app. split; [apply quiet_retry_events|done].
    + subst n. lia.
    + destruct Hr as [Hq Hr]. split.
      { apply Forall_app. split; [apply quiet_retry_events|done]. }
      destruct Hr as [(Hl' & Hn & Hn0)|[Hd'' Hlt]].
      * left. split; [|lia]. rewrite last_app, Hl'. done.
      * right. split; [done|lia].
    + done.
Qed.

(** A retry loop with a turn left begins with a call. *)
Lemma retry_loop_starts n attempt s :
  attempt + Z.of_nat (S n) = max_retries config ->
  exists o evs,
    (retry_loop config (invoke c answer) (S n) attempt s).2
    = set_trace (trace s ++ Called c o :: evs) s.
Proof.
  intros Hm. destruct (answer (trace s)) as [a|e] eqn:Ha.
  { rewrite (retry_loop_return _ _ _ _ Ha). by exists None, []. }
  destruct (decide (attempt = max_retries config - 1)) as [Hl|Hl].
  { rewrite (retry_loop_give_up _ _ _ _ Ha Hl). by exists (Some e), []. }
  destruct (decide (retry_delay config < 0)) as [Hd|Hd].
  { rewrite (retry_loop_bad_delay _ _ _ _ Ha Hl Hd). by eexists (Some e), _. }
  assert (Hd' : 0 <= retry_delay config) by lia.
  rewrite (retry_loop_again _ _ _ _ Ha Hl Hd').
  destruct (retry_loop_spec n (attempt + 1)
              (set_trace (trace s ++ retry_events config c e) s) ltac:(lia))
    as (evs & Hst & _).
  rewrite Hst. simpl. rewrite <- app_assoc.
  by exists (Some e), ([Logged WARNING (MsgRetry (retry_delay config) e);
                        Slept (retry_delay config)] ++ evs).
Qed.

(** An operation that fails [k] times and then returns [v]. *)
Lemma retry_loop_after_failures k : forall n attempt s v,
  attempt + Z.of_nat n = max_retries config ->
  ((0 < k)%nat -> 0 <= retry_delay config) ->
  (k < n)%nat ->
  (forall h, (calls_to c h < calls_to c (trace s) + k)%nat -> exists e, answer h = Throw e) ->
  (forall h, calls_to c h = (calls_to c (trace s) + k)%nat -> answer h = Return v) ->
  exists evs,
    retry_loop config (invoke c answer) n attempt s
    = (Ok (Some v), set_trace (trace s ++ evs) s) /\
    calls_to c evs = S k /\
    last evs = Some (Called c None) /\
    length (List.filter is_sleep evs) = k.
Proof.
  induction k as [|k IH]; intros n attempt s v Hm Hd Hk Hfail Hok.
  - destruct n as [|n]; [lia|].
    rewrite (retry_loop_return _ _ _ v).
    + exists [Called c None]. split; [done|]. by rewrite calls_to_called.
    + apply Hok. lia.
  - destruct n as [|n]; [lia|].
    destruct (Hfail (trace s)) as [e He]; [lia|].
    rewrite (retry_loop_again _ _ _ _ He) by lia.
    set (s1 := set_trace _ s).
    assert (Hc1 : calls_to c (trace s1) = S (calls_to c (trace s))).
    { subst s1. simpl. rewrite calls_to_app, calls_to_retry_events. lia. }
    destruct (IH n (attempt + 1) s1 v) as (evs & Hr & Hc & Hl & Hs); [lia|lia|lia| | |].
    { intros h Hh. apply Hfail. lia. }
    { intros h Hh. apply Hok. lia. }
    rewrite Hr. exists (retry_events config c e ++ evs). split.
    { subst s1. simpl. by rewrite <- app_assoc. }
    rewrite calls_to_app, calls_to_retry_events, Hc. split; [done|].
    split; [by rewrite last_app, Hl|].
    rewrite List.filter_app, length_app, Hs. done.
Qed.

(** An operation that fails at each of the [n] turns left. *)
Lemma retry_loop_all_fail n : forall attempt s,
  attempt + Z.of_nat n = max_retries config ->
  (1 <= n)%nat ->
  ((2 <= n)%nat -> 0 <= retry_delay config) ->
  (forall h, (calls_to c h < calls_to c (trace s) + n)%nat -> exists e, answer h = Throw e) ->
  exists evs e,
    retry_loop config (invoke c answer) n attempt s
    = (Raise e, set_trace (trace s ++ evs) s) /\
    calls_to c evs = n /\
    last evs = Some (Called c (Some e)).
Proof.
  induction n as [|n IH]; intros attempt s Hm Hn Hd Hfail; [lia|].
  destruct (Hfail (trace s)) as [e He]; [lia|].
  destruct n as [|n].
  - rewrite (retry_loop_give_up _ _ _ _ He) by lia.
    exists [Called c (Some e)], e. split; [done|]. by rewrite calls_to_called.
  - rewrite (retry_loop_again _ _ _ _ He) by lia.
    set (s1 := set_trace _ s).
    assert (Hc1 : calls_to c (trace s1) = S (calls_to c (trace s))).
    { subst s1. simpl. rewrite calls_to_app, calls_to_retry_events. lia. }
    destruct (IH (attempt + 1) s1) as (evs & e' & Hr & Hc & Hl); [lia|lia|lia| |].
    { intros h Hh. apply Hfail. lia. }
    rewrite Hr. exists (retry_events config c e ++ evs), e'. split.
    { subst s1. simpl. by rewrite <- app_assoc. }
    rewrite calls_to_app, calls_to_retry_events, Hc. split; [done|].
    by rewrite last_app, Hl.
Qed.

(** C5. [retry_operation] invokes the operation at most [max_retries]
    times, and a value it returns is the value of a successful call that
    was the last call made.  Forward, for what the operation does: when
    attempt [k + 1] is the first to succeed ([k < max_retries]), its value
    is returned after exactly [k + 1] invocations, the successful one last;
    when the operation fails at each of [max_retries] attempts, it is
    invoked exactly [max_retries] times and the exception of the last
    attempt is raised.  (A retry sleeps [retry_delay] seconds, so an attempt
    after the first needs [retry_delay >= 0].)  With [max_retries = 3] and
    [retry_delay = 0], an operation that fails twice and then succeeds is
    invoked exactly three times and its value is returned. *)
Theorem retry_operation_attempts (s : state) :
  1 <= max_retries config ->
  let out := retry_operation config (invoke c answer) s in
  exists evs,
    out.2 = set_trace (trace s ++ evs) s /\
    Z.of_nat (calls_to c evs) <= max_retries config /\
    (forall r, out.1 = Ok r ->
       exists a pre, r = Some a /\ evs = pre ++ [Called c None] /\
                     answer (trace s ++ pre) = Return a /\ all_failed c pre) /\
    (forall (k : nat) (v : A),
       Z.of_nat k < max_retries config ->
       ((0 < k)%nat -> 0 <= retry_delay config) ->
       (forall h, (calls_to c h < calls_to c (trace s) + k)%nat ->
                  exists e, answer h = Throw e) ->
       (forall h, calls_to c h = (calls_to c (trace s) + k)%nat ->
                  answer h = Return v) ->
       out.1 = Ok (Some v) /\ calls_to c evs = S k /\ last evs = Some (Called c None)) /\
    ((2 <= max_retries config -> 0 <= retry_delay config) ->
     (forall h, Z.of_nat (calls_to c h) < Z.of_nat (calls_to c (trace s)) + max_retries config ->
                exists e, answer h = Throw e) ->
     exists e,
       out.1 = Raise e /\
       Z.of_nat (calls_to c evs) = max_retries config /\
       last evs = Some (Called c (Some e))) /\
    (max_retries config = 3 -> retry_delay config = 0 ->
     forall v,
       (forall h, (calls_to c h < calls_to c (trace s) + 2)%nat ->
                  exists e, answer h = Throw e) ->
       (forall h, calls_to c h = (calls_to c (trace s) + 2)%nat ->
                  answer h = Return v) ->
       out.1 = Ok (Some v) /\ calls_to c evs = 3%nat).
Proof.
  intros Hm out. subst out. unfold retry_operation.
  destruct (retry_loop_spec (Z.to_nat (max_retries config)) 0 s ltac:(lia))
    as (evs & Hst & Hc & Hr).
  assert (Hsame : forall r evs' s',
            retry_loop config (invoke c answer) (Z.to_nat (max_retries config)) 0 s
            = (r, set_trace (trace s ++ evs') s') -> evs' = evs).
  { intros r evs' s' Heq. rewrite Heq in Hst. simpl in Hst.
    apply (f_equal trace) in Hst. simpl in Hst. by apply app_inv_head in Hst. }
  assert (Hfwd : forall (k : nat) (v : A),
            Z.of_nat k < max_retries config ->
            ((0 < k)%nat -> 0 <= retry_delay config) ->
            (forall h, (calls_to c h < calls_to c (trace s) + k)%nat ->
                       exists e, answer h = Throw e) ->
            (forall h, calls_to c h = (calls_to c (trace s) + k)%nat ->
                       answer h = Return v) ->
            (retry_loop config (invoke c answer) (Z.to_nat (max_retries config)) 0 s).1
            = Ok (Some v) /\ calls_to c evs = S k /\ last evs = Some (Called c None)).
  { intros k v Hk Hd Hfail Hok.
    destruct (retry_loop_after_failures k (Z.to_nat (max_retries config)) 0 s v)
      as (evs' & Heq & Hc' & Hl' & _); [lia|done|lia|done|done|].
    rewrite <- (Hsame _ _ _ Heq). by rewrite Heq. }
  exists evs. split; [exact Hst|]. split; [lia|]. split_and!.
  - intros r Hr'. rewrite Hr' in Hr. destruct r as [a|]; [|lia].
    destruct Hr as (pre & ? & ? & ?). by exists a, pre.
  - exact Hfwd.
  - intros Hd Hfail.
    destruct (retry_loop_all_fail (Z.to_nat (max_retries config)) 0 s)
      as (evs' & e & Heq & Hc' & Hl'); [lia|lia|lia| |].
    { intros h Hh. apply Hfail. lia. }
    rewrite <- (Hsame _ _ _ Heq). exists e. rewrite Heq. split; [done|]. split; [lia|done].
  - intros H3 H0 v Hfail Hok.
    destruct (Hfwd 2%nat v) as (H1 & H2 & _); [lia|lia|done|done|]. by split.
Qed.

End RetryFacts.

(** ** Frame rules *)

Section Keeps.
Context (Rel : relation state) `{!PreOrder Rel}.

Lemma keeps_ret {A} (a : A) : keeps Rel (ret a).
Proof. intros s. simpl. reflexivity. Qed.

Lemma keeps_raise {A} e : keeps Rel (@raise A e).
Proof. intros s. simpl. reflexivity. Qed.

Lemma keeps_gets {A} (f : state -> A) : keeps Rel (gets f).
Proof. intros s. simpl. reflexivity. Qed.

Lemma keeps_modify f : (forall s, Rel s (f s)) -> keeps Rel (modify f).
Proof. intros H s. apply H. Qed.

Lemma keeps_bind {A B} (m : M A) (k : A -> M B) :
  keeps Rel m -> (forall a, keeps Rel (k a)) -> keeps Rel (bind m k).
Proof.
  intros Hm Hk s. unfold bind. specialize (Hm s).
  destruct (m s) as [[a|e|] s1]; simpl in *; try done.
  etrans; [exact Hm|apply Hk].
Qed.

Lemma keeps_try_except {A} (m : M A) (h : exn -> M A) :
  keeps Rel m -> (forall e, keeps Rel (h e)) -> keeps Rel (try_except m h).
Proof.
  intros Hm Hh s. unfold try_except. specialize (Hm s).
  destruct (m s) as [[a|e|] s1]; simpl in *; try done.
  etrans; [exact Hm|apply Hh].
Qed.

Lemma keeps_try_finally {A} (m : M A) (f : M unit) :
  keeps Rel m -> keeps Rel f -> keeps Rel (try_finally m f).
Proof.
  intros Hm Hf s. unfold try_finally. specialize (Hm s).
  destruct (m s) as [[a|e|] s1]; simpl in *; try done.
  - specialize (Hf s1). destruct (f s1) as [[[]|e|] s2]; simpl in *; by etrans.
  - specialize (Hf s1). destruct (f s1) as [[[]|e'|] s2]; simpl in *; by etrans.
Qed.

Section Events.
Context (P : event -> bool) (Hadm : accepts Rel P).

Lemma keeps_emit ev : P ev = true -> keeps Rel (emit ev).
Proof. intros H s. by apply Hadm. Qed.

Lemma keeps_invoke {A} c (answer : list event -> reply A) :
  (forall o, P (Called c o) = true) -> keeps Rel (invoke c answer).
Proof.
  intros H s. unfold invoke. destruct (answer (trace s)); simpl; by apply Hadm.
Qed.

Lemma keeps_sleep secs : P (Slept secs) = true -> keeps Rel (sleep secs).
Proof.
  intros H. unfold sleep. destruct (secs <? 0); [apply keeps_raise|by apply keeps_emit].
Qed.

Lemma keeps_retry_loop config {A} (op : M A) n :
  (forall lv m, P (Logged lv m) = true) -> (forall z, P (Slept z) = true) ->
  keeps Rel op -> forall attempt, keeps Rel (retry_loop config op n attempt).
Proof.
  intros Hlog Hsl Hop. induction n as [|n IH]; intros attempt; simpl.
  - apply keeps_ret.
  - apply keeps_bind.
    + apply keeps_try_except.
      * apply keeps_bind; [done|intros; apply keeps_ret].
      * intros e. destruct (attempt =? _); [apply keeps_raise|].
        apply keeps_bind; [by apply keeps_emit|intros _].
        apply keeps_bind; [by apply keeps_sleep|intros _]. apply keeps_ret.
    + intros [a|]; [apply keeps_ret|apply IH].
Qed.

End Events.
End Keeps.

Section Total.

Lemma total_ret {A} (a : A) : total (ret a).
Proof. by intros s. Qed.
Lemma total_raise {A} e : total (@raise A e).
Proof. by intros s. Qed.
Lemma total_gets {A} (f : state -> A) : total (gets f).
Proof. by intros s. Qed.
Lemma total_modify f : total (modify f).
Proof. by intros s. Qed.
Lemma total_emit ev : total (emit ev).
Proof. by intros s. Qed.
Lemma total_sleep z : total (sleep z).
Proof. intros s. unfold sleep. by destruct (z <? 0). Qed.
Lemma total_invoke {A} c (answer : list event -> reply A) : total (invoke c answer).
Proof. intros s. unfold invoke. by destruct (answer (trace s)). Qed.

Lemma total_bind {A B} (m : M A) (k : A -> M B) :
  total m -> (forall a, total (k a)) -> total (bind m k).
Proof.
  intros Hm Hk s. unfold bind. specialize (Hm s).
  destruct (m s) as [[a|e|] s1]; simpl in *; try done. apply Hk.
Qed.

Lemma total_try_except {A} (m : M A) (h : exn -> M A) :
  total m -> (forall e, total (h e)) -> total (try_except m h).
Proof.
  intros Hm Hh s. unfold try_except. specialize (Hm s).
  destruct (m s) as [[a|e|] s1]; simpl in *; try done. apply Hh.
Qed.

Lemma total_retry_loop config {A} (op : M A) n :
  total op -> forall attempt, total (retry_loop config op n attempt).
Proof.
  intros Hop. induction n as [|n IH]; intros attempt; simpl.
  - apply total_ret.
  - apply total_bind.
    + apply total_try_except.
      * apply total_bind; [done|intros; apply total_ret].
      * intros e. destruct (attempt =? _); [apply total_raise|].
        apply total_bind; [apply total_emit|intros _].
        apply total_bind; [apply total_sleep|intros _]. apply total_ret.
    + intros [a|]; [apply total_ret|apply IH].
Qed.
End Total.

#[global] Instance only_trace_preorder : PreOrder only_trace.
Proof.
  split.
  - intros s. unfold only_trace. by destruct s.
  - intros s1 s2 s3 H12 H23. unfold only_trace in *. rewrite H23, H12. reflexivity.
Qed.

#[global] Instance same_index_preorder : PreOrder same_index.
Proof. split; [by intros s|]. intros s1 s2 s3. unfold same_index. congruence. Qed.

#[global] Instance grows_by_preorder P : PreOrder (grows_by P).
Proof.
  split.
  - intros s. exists []. by rewrite app_nil_r.
  - intros s1 s2 s3 (e1 & H1 & F1) (e2 & H2 & F2). exists (e1 ++ e2).
    rewrite H2, H1, <- app_assoc. split; [done|]. rewrite forallb_app. by rewrite F1, F2.
Qed.

Lemma only_trace_accepts : accepts only_trace (fun _ => true).
Proof. intros s ev _. reflexivity. Qed.

Lemma same_index_accepts : accepts same_index (fun _ => true).
Proof. intros s ev _. reflexivity. Qed.

Lemma grows_by_accepts P : accepts (grows_by P) P.
Proof. intros s ev H. exists [ev]. simpl. by rewrite H. Qed.

Lemma grows_by_same_trace P s s' : trace s' = trace s -> grows_by P s s'.
Proof. intros H. exists []. by rewrite app_nil_r. Qed.

(** ** The loop counts down *)

(** Walk through a computation, one combinator at a time.  [adm] is the
    proof that the relation accepts the events concerned. *)
Ltac preorder := try match goal with |- PreOrder _ => apply _ end.
Ltac kbind := apply keeps_bind; preorder.
Ltac kexcept := apply keeps_try_except; preorder.

Ltac frame_with adm :=
  repeat first
    [ match goal with |- PreOrder _ => apply _ end
    | apply keeps_ret | apply keeps_raise | apply keeps_gets
    | kbind; [|intros ?]
    | kexcept; [|intros ?]
    | match goal with
      | |- keeps _ (emit _) => apply (keeps_emit _ _ adm); reflexivity
      | |- keeps _ (sleep _) => apply (keeps_sleep _ _ adm); reflexivity
      | |- keeps _ (invoke _ _) => apply (keeps_invoke _ _ adm); intros; reflexivity
      | |- keeps _ (retry_loop _ _ _ _) =>
          apply (keeps_retry_loop _ _ adm); [intros; reflexivity|intros; reflexivity|]
      | |- keeps _ (modify _) =>
          apply keeps_modify; intros ?;
          first [reflexivity | apply grows_by_same_trace; reflexivity]
      | |- keeps _ (match ?x with _ => _ end) => destruct x
      end ].

Ltac total_step :=
  repeat first
    [ apply total_ret | apply total_raise | apply total_gets | apply total_modify
    | apply total_emit | apply total_sleep | apply total_invoke
    | apply total_bind; [|intros ?]
    | apply total_try_except; [|intros ?]
    | apply total_retry_loop
    | match goal with
      | |- total (match ?x with _ => _ end) => destruct x
      end ].

Section Frames.
Variable R : remote.
Variable T : datetime.
Variable config : CrawlerConfig.

Lemma process_index_same_index : keeps same_index (process_index R T config).
Proof.
  unfold process_index, fetch_post_date, tally_post, save_daily_count, workbook_save, sheet_append, dict_getitem,
    strptime, retry_operation, ptt_get_post, log.
  frame_with same_index_accepts.
Qed.

Lemma process_index_total : total (process_index R T config).
Proof.
  unfold process_index, fetch_post_date, tally_post, save_daily_count, workbook_save, sheet_append, dict_getitem,
    strptime, retry_operation, ptt_get_post, log.
  total_step.
Qed.

Lemma iteration_steps_down s :
  (iteration R T config s).1 = Ok tt /\
  current_index (iteration R T config s).2 = current_index s - 1.
Proof.
  unfold iteration, bind, try_except.
  pose proof (process_index_same_index s) as Hi.
  pose proof (process_index_total s) as Ht.
  destruct (process_index R T config s) as [[[]|e|] s1]; simpl in *; try done.
  all: unfold same_index in Hi; by rewrite Hi.
Qed.

Lemma while_loop_countdown fuel : forall s,
  0 <= current_index s -> (Z.to_nat (current_index s) <= fuel)%nat ->
  (while_loop R T config fuel s).1 = Ok tt /\
  current_index (while_loop R T config fuel s).2 = 0.
Proof.
  induction fuel as [|fuel IH]; intros s H0 Hf.
  - assert (current_index s = 0) as Hz by lia.
    simpl. rewrite Hz. simpl. done.
  - simpl. destruct (current_index s >? 0) eqn:Hpos.
    + apply Z.gtb_lt in Hpos.
      destruct (iteration_steps_down s) as [Hok Hdec].
      unfold bind. destruct (iteration R T config s) as [r s1]. simpl in *. subst r.
      destruct (IH s1) as (Hr & Hc); [lia|lia|]. done.
    + rewrite Z.gtb_ltb in Hpos. apply Z.ltb_ge in Hpos. simpl. split; [done|lia].
Qed.

(** The loop is the body run once for each index from the start down to
    1: turn number [j] finds the index at the start minus [j]. *)
Lemma while_loop_turns fuel : forall s,
  0 <= current_index s -> (Z.to_nat (current_index s) <= fuel)%nat ->
  while_loop R T config fuel s
  = (Ok tt, Nat.iter (Z.to_nat (current_index s)) (turn R T config) s).
Proof.
  induction fuel as [|fuel IH]; intros s H0 Hf.
  - assert (current_index s = 0) as Hz by lia.
    simpl. rewrite Hz. simpl. done.
  - simpl. destruct (current_index s >? 0) eqn:Hpos.
    + apply Z.gtb_lt in Hpos.
      destruct (iteration_steps_down s) as [Hok Hdec].
      replace (Z.to_nat (current_index s)) with (S (Z.to_nat (current_index s - 1))) by lia.
      rewrite Nat.iter_succ_r. unfold turn at 2.
      unfold bind. destruct (iteration R T config s) as [r s1]. simpl in *. subst r.
      rewrite <- Hdec. apply IH; lia.
    + rewrite Z.gtb_ltb in Hpos. apply Z.ltb_ge in Hpos.
      assert (current_index s = 0) as Hz by lia. rewrite Hz. done.
Qed.

Lemma turns_index (j : nat) s :
  current_index (Nat.iter j (turn R T config) s) = current_index s - Z.of_nat j.
Proof.
  induction j as [|j IH]; [simpl; lia|].
  rewrite Nat.iter_succ. unfold turn at 1.
  destruct (iteration_steps_down (Nat.iter j (turn R T config) s)) as [_ Hdec].
  rewrite Hdec, IH. lia.
Qed.

End Frames.

(** ** Step equations *)

Ltac run :=
  unfold tally_post, final_flush, save_daily_count, workbook_save, sheet_append,
    dict_getitem, log, emit, try_except, bind, gets, modify, ret, raise, invoke; simpl.

Section Steps.
Variable R : remote.
Variable T : datetime.
Variable config : CrawlerConfig.

Local Abbreviation save_call rows := (SaveWorkbook (file_name config) rows).

Lemma save_daily_count_ok d c i s :
  save_reply R (trace s) (file_name config) (sheet s ++ [tally_row T d c i]) = Return tt ->
  save_daily_count R T config d c i s = (Ok tt, flushed T config d c i s).
Proof. intros H. run. rewrite H. simpl. unfold flushed. by rewrite <- app_assoc. Qed.

Lemma save_daily_count_fail d c i e s :
  save_reply R (trace s) (file_name config) (sheet s ++ [tally_row T d c i]) = Throw e ->
  save_daily_count R T config d c i s = (Raise e, unflushed R T config d c i e s).
Proof. intros H. run. rewrite H. reflexivity. Qed.

Lemma tally_post_first d s :
  current_date s = None ->
  tally_post R T config d s = (Ok tt, counted d (set_current_date (Some d) s)).
Proof. intros H. run. rewrite H. simpl. rewrite bool_decide_true by done. reflexivity. Qed.

Lemma tally_post_same d s :
  current_date s = Some d ->
  tally_post R T config d s = (Ok tt, counted d s).
Proof. intros H. run. rewrite H. simpl. rewrite bool_decide_true by done. reflexivity. Qed.

Lemma tally_post_no_count d cur s :
  current_date s = Some cur -> d <> cur -> daily_count s !! cur = None ->
  tally_post R T config d s = (Raise KeyError, s).
Proof.
  intros H Hne Hc. run. rewrite H. simpl. rewrite bool_decide_false by congruence.
  simpl. rewrite H, Hc. reflexivity.
Qed.

Lemma tally_post_change d cur c s :
  current_date s = Some cur -> d <> cur -> daily_count s !! cur = Some c ->
  save_reply R (trace s) (file_name config)
    (sheet s ++ [tally_row T cur c (current_index s + 1)]) = Return tt ->
  tally_post R T config d s
  = (Ok tt, set_daily_count (<[d := 1]> (daily_count s))
              (set_current_date (Some d) (flushed T config cur c (current_index s + 1) s))).
Proof.
  intros H Hne Hc Hs. run. rewrite H. simpl. rewrite bool_decide_false by congruence.
  simpl. rewrite H, Hc. simpl. rewrite Hs. simpl. unfold flushed.
  simpl. rewrite <- app_assoc. reflexivity.
Qed.

Lemma tally_post_change_fail d cur c e s :
  current_date s = Some cur -> d <> cur -> daily_count s !! cur = Some c ->
  save_reply R (trace s) (file_name config)
    (sheet s ++ [tally_row T cur c (current_index s + 1)]) = Throw e ->
  tally_post R T config d s = (Raise e, unflushed R T config cur c (current_index s + 1) e s).
Proof.
  intros H Hne Hc Hs. run. rewrite H. simpl. rewrite bool_decide_false by congruence.
  simpl. rewrite H, Hc. simpl. rewrite Hs. reflexivity.
Qed.

Lemma final_flush_none s :
  current_date s = None -> final_flush R T config s = (Ok tt, s).
Proof. intros H. run. rewrite H. reflexivity. Qed.

Lemma final_flush_ok cur c s :
  current_date s = Some cur -> daily_count s !! cur = Some c ->
  save_reply R (trace s) (file_name config)
    (sheet s ++ [tally_row T cur c (current_index s + 1)]) = Return tt ->
  final_flush R T config s = (Ok tt, flushed T config cur c (current_index s + 1) s).
Proof.
  intros H Hc Hs. unfold final_flush, bind, gets, dict_getitem. rewrite H, Hc. simpl.
  by apply save_daily_count_ok.
Qed.

Lemma final_flush_fail cur c e s :
  current_date s = Some cur -> daily_count s !! cur = Some c ->
  save_reply R (trace s) (file_name config)
    (sheet s ++ [tally_row T cur c (current_index s + 1)]) = Throw e ->
  final_flush R T config s = (Raise e, unflushed R T config cur c (current_index s + 1) e s).
Proof.
  intros H Hc Hs. unfold final_flush, bind, gets, dict_getitem. rewrite H, Hc. simpl.
  by apply save_daily_count_fail.
Qed.

(** Fetching and parsing touch nothing but the history. *)
Lemma fetch_post_date_only_trace : keeps only_trace (fetch_post_date R T config).
Proof.
  unfold fetch_post_date, strptime, retry_operation, ptt_get_post.
  frame_with only_trace_accepts.
Qed.

Lemma fetch_post_date_total : total (fetch_post_date R T config).
Proof.
  unfold fetch_post_date, strptime, retry_operation, ptt_get_post. total_step.
Qed.

End Steps.

(** ** Runs against a steady board *)

Lemma tallies_cons o l act :
  tallies (o :: l) act
  = let '(f1, a1) := step_active o act (Z.of_nat (S (length l))) in
    let '(f2, a2) := tallies l a1 in
    (f1 ++ f2, a2).
Proof. reflexivity. Qed.

Lemma length_countdown n : length (countdown n) = n.
Proof. induction n; simpl; congruence. Qed.

Section Outcomes.
Variable R : remote.
Variable T : datetime.
Variable config : CrawlerConfig.

(** An operation that always throws is never returned from. *)
Lemma retry_loop_never_returns {A} c (answer : list event -> reply A) n :
  (forall h, exists e, answer h = Throw e) ->
  forall attempt s a, (retry_loop config (invoke c answer) n attempt s).1 <> Ok (Some a).
Proof.
  intros Hall. induction n as [|n IH]; intros attempt s a; [done|].
  destruct (Hall (trace s)) as [e He].
  destruct (decide (attempt = max_retries config - 1)) as [Hl|Hl].
  { by rewrite (retry_loop_give_up _ _ _ _ _ _ _ He Hl). }
  destruct (decide (retry_delay config < 0)) as [Hd|Hd].
  { by rewrite (retry_loop_bad_delay _ _ _ _ _ _ _ He Hl Hd). }
  rewrite (retry_loop_again _ _ _ _ _ _ _ He Hl) by lia. apply IH.
Qed.

Lemma fetch_post_date_fails s :
  (forall h, exists e, post_reply R h (board_name config) (current_index s) = Throw e) ->
  exists e, (fetch_post_date R T config s).1 = Raise e.
Proof.
  intros Hall. unfold fetch_post_date, bind, gets, retry_operation, ptt_get_post.
  pose proof (retry_loop_never_returns
                (GetPost (board_name config) (current_index s))
                (fun h => post_reply R h (board_name config) (current_index s))
                (Z.to_nat (max_retries config)) Hall 0 s) as Hn.
  pose proof (total_retry_loop config _ (Z.to_nat (max_retries config))
                (total_invoke (GetPost (board_name config) (current_index s))
                   (fun h => post_reply R h (board_name config) (current_index s))) 0 s) as Ht.
  destruct (retry_loop config _ _ 0 s) as [[[p|]|e|] s1]; simpl in *.
  - by destruct (Hn p).
  - by exists AttributeError.
  - by exists e.
  - done.
Qed.

Lemma fetch_post_date_ok s str d :
  1 <= max_retries config ->
  post_reply R (trace s) (board_name config) (current_index s) = Return (Post (VStr str)) ->
  strptime_post T str = Some d ->
  fetch_post_date R T config s
  = (Ok d, set_trace (trace s ++ [Called (GetPost (board_name config) (current_index s)) None]) s).
Proof.
  intros Hm Hp Hd. unfold fetch_post_date, retry_operation, ptt_get_post.
  unfold bind at 1, gets.
  destruct (Z.to_nat (max_retries config)) as [|n] eqn:Hn; [lia|].
  unfold bind at 1. rewrite retry_loop_return with (a := Post (VStr str)) by done.
  unfold bind, ret, strptime. simpl. by rewrite Hd.
Qed.

(** A failed [try] body costs the index its turn and nothing else. *)
Lemma iteration_skip s e :
  (fetch_post_date R T config s).1 = Raise e ->
  exists evs,
    iteration R T config s
    = (Ok tt, set_current_index (current_index s - 1)
                (set_trace (trace s ++ evs ++
                   [Logged ERROR (MsgIndexFailed (current_index s) e)]) s)) /\
    forallb (fun ev => negb (is_save ev)) evs = true.
Proof.
  intros He. unfold iteration, process_index.
  pose proof (fetch_post_date_only_trace R T config s) as Hot.
  assert (Hg : keeps (grows_by (fun ev => negb (is_save ev))) (fetch_post_date R T config)).
  { unfold fetch_post_date, strptime, retry_operation, ptt_get_post.
    frame_with (grows_by_accepts (fun ev => negb (is_save ev))). }
  destruct (Hg s) as (evs & Htr & Hns). exists evs.
  unfold bind, try_except.
  destruct (fetch_post_date R T config s) as [r s1]. simpl in *. subst r.
  unfold gets, log, emit, modify. simpl. split; [|done].
  rewrite Hot. simpl. rewrite Htr, <- app_assoc. reflexivity.
Qed.

End Outcomes.

Section Steady.
Variable R : remote.
Variable T : datetime.
Variable config : CrawlerConfig.

(** What each index yields, whenever it is asked for: a post of that date,
    or a failure. *)
Variable fetch : Z -> option date.
Variable top : Z.

Hypothesis Hretries : 1 <= max_retries config.
Hypothesis Hpost : forall h i,
  1 <= i <= top ->
  match fetch i with
  | Some d => exists str, post_reply R h (board_name config) i = Return (Post (VStr str)) /\
                          strptime_post T str = Some d
  | None => exists e, post_reply R h (board_name config) i = Throw e
  end.
Hypothesis Hsave : forall h p rows, save_reply R h p rows = Return tt.

Lemma iteration_steady s act :
  1 <= current_index s <= top ->
  agrees s act -> disk s = Some (Workbook (sheet s)) ->
  exists s',
    iteration R T config s = (Ok tt, s') /\
    current_index s' = current_index s - 1 /\
    agrees s' (step_active (fetch (current_index s)) act (current_index s)).2 /\
    sheet s' = sheet s ++ map (row_of T) (step_active (fetch (current_index s)) act (current_index s)).1 /\
    disk s' = Some (Workbook (sheet s')).
Proof.
  intros Hrange Hag Hdisk.
  destruct (fetch (current_index s)) as [d|] eqn:Hf.
  - pose proof (Hpost (trace s) (current_index s) Hrange) as Hp. rewrite Hf in Hp.
    destruct Hp as (str & Hp & Hd).
    unfold iteration, process_index. unfold bind at 1, try_except, bind at 1.
    rewrite (fetch_post_date_ok R T config s str d Hretries Hp Hd).
    set (s1 := set_trace _ s).
    destruct act as [[cur c]|]; simpl in Hag; destruct Hag as [Hcd Hdc].
    + simpl. destruct (decide (d = cur)) as [->|Hne].
      * rewrite (tally_post_same R T config cur s1) by done.
        eexists. split; [reflexivity|]. simpl. rewrite app_nil_r.
        split_and!; try done; rewrite ?Hdc, ?lookup_insert_eq; done.
      * rewrite (tally_post_change R T config d cur c s1) by done.
        eexists. split; [reflexivity|]. simpl.
        split_and!; try done; rewrite ?lookup_insert_eq; done.
    + rewrite (tally_post_first R T config d s1) by done.
      eexists. split; [reflexivity|]. simpl. rewrite app_nil_r.
      split_and!; try done; rewrite ?Hdc, ?lookup_empty, ?lookup_insert_eq; done.
  - pose proof (fetch_post_date_fails R T config s) as [e He].
    { intros h. pose proof (Hpost h (current_index s) Hrange) as Hp. by rewrite Hf in Hp. }
    destruct (iteration_skip R T config s e He) as (evs & -> & _).
    eexists. split; [reflexivity|]. simpl. rewrite app_nil_r.
    split_and!; try done; by destruct act as [[? ?]|].
Qed.

Lemma while_loop_steady n : forall fuel s act,
  current_index s = Z.of_nat n -> Z.of_nat n <= top -> (n <= fuel)%nat ->
  agrees s act -> disk s = Some (Workbook (sheet s)) ->
  exists s',
    while_loop R T config fuel s = (Ok tt, s') /\
    current_index s' = 0 /\
    agrees s' (tallies (map fetch (countdown n)) act).2 /\
    sheet s' = sheet s ++ map (row_of T) (tallies (map fetch (countdown n)) act).1 /\
    disk s' = Some (Workbook (sheet s')).
Proof.
  induction n as [|n IH]; intros fuel s act Hci Htop Hfuel Hag Hdisk.
  - exists s. simpl. rewrite app_nil_r. split_and!; try done.
    destruct fuel; simpl; by rewrite Hci.
  - destruct fuel as [|fuel]; [lia|].
    simpl while_loop. rewrite Hci. change (Z.of_nat (S n) >? 0) with true. cbv iota.
    destruct (iteration_steady s act ltac:(lia) Hag Hdisk)
      as (s1 & Hit & Hc1 & Hag1 & Hsh1 & Hd1).
    unfold bind. rewrite Hit.
    rewrite Hci in Hc1, Hag1, Hsh1.
    destruct (IH fuel s1 _ ltac:(lia) ltac:(lia) ltac:(lia) Hag1 Hd1)
      as (s' & Hw & Hc' & Hag' & Hsh' & Hd').
    exists s'. split; [done|]. split; [done|].
    change (countdown (S n)) with (Z.of_nat (S n) :: countdown n).
    rewrite map_cons, tallies_cons, length_map, length_countdown.
    destruct (step_active (fetch (Z.of_nat (S n))) act (Z.of_nat (S n))) as [f1 a1].
    simpl in *. destruct (tallies (map fetch (countdown n)) a1) as [f2 a2]. simpl in *.
    split; [done|]. split; [|done].
    rewrite Hsh', Hsh1, map_app, app_assoc. reflexivity.
Qed.

Lemma traverse_steady fuel s z :
  0 <= z <= top -> (Z.to_nat z <= fuel)%nat -> disk s = Some (Workbook (sheet s)) ->
  exists s',
    traverse R T config fuel (VInt z) s = (Ok tt, s') /\
    current_index s' = 0 /\
    sheet s' = sheet s ++
      map (row_of T) (all_tallies (map fetch (countdown (Z.to_nat z))) None) /\
    disk s' = Some (Workbook (sheet s')).
Proof.
  intros Hz Hfuel Hdisk. unfold traverse, walk_down.
  unfold bind at 1, bind at 1, bind at 1, bind at 1, modify. simpl.
  set (s0 := set_current_index z _).
  destruct (while_loop_steady (Z.to_nat z) fuel s0 None)
    as (s1 & Hw & Hc1 & Hag1 & Hsh1 & Hd1); try done.
  { subst s0. simpl. lia. }
  { lia. }
  unfold bind at 1. rewrite Hw. unfold all_tallies.
  destruct (tallies (map fetch (countdown (Z.to_nat z))) None) as [fl [[d c]|]];
    simpl in Hag1, Hsh1 |- *; destruct Hag1 as [Hcd Hdc].
  - unfold bind. rewrite (final_flush_ok R T config d c s1 Hcd Hdc) by apply Hsave.
    unfold log, emit, modify. eexists. split; [reflexivity|]. simpl.
    rewrite Hc1, Hsh1, map_app, <- app_assoc. simpl. done.
  - unfold bind. rewrite (final_flush_none R T config s1 Hcd).
    unfold log, emit, modify. eexists. split; [reflexivity|]. simpl.
    rewrite app_nil_r. done.
Qed.

End Steady.

(** ** Dates are totally ordered *)

Lemma date_le_antisym a b : date_le a b -> date_le b a -> a = b.
Proof.
  unfold date_le, date_leb. destruct a as [y1 m1 d1], b as [y2 m2 d2]. simpl.
  repeat case_decide; rewrite ?bool_decide_eq_true; intros; f_equal; lia.
Qed.

Lemma date_le_refl a : date_le a a.
Proof.
  unfold date_le, date_leb. repeat case_decide; try done; apply bool_decide_eq_true; lia.
Qed.

(** ** Counting in lists *)

Lemma count_of_app d l1 l2 : count_of d (l1 ++ l2) = count_of d l1 + count_of d l2.
Proof. unfold count_of. rewrite filter_app, length_app. lia. Qed.

Lemma count_of_absent d l : d ∉ l -> count_of d l = 0.
Proof.
  unfold count_of. induction l as [|x l IH]; intros Hn; [done|].
  apply not_elem_of_cons in Hn as [Hx Hl].
  rewrite filter_cons_False by congruence. by apply IH.
Qed.

Lemma count_of_replicate d n : count_of d (replicate n d) = Z.of_nat n.
Proof.
  unfold count_of. induction n as [|n IH]; [done|].
  simpl. rewrite filter_cons_True by done. simpl. lia.
Qed.

(** ** A walk over a sorted archive writes its histogram *)

Lemma tallies_sorted pre : forall suf (cur : date) (c : nat) a,
  a = pre ++ replicate (S c) cur ++ suf ->
  StronglySorted date_le a ->
  cur ∉ suf ->
  let ts := all_tallies (map Some (rev pre)) (Some (cur, Z.of_nat (S c))) in
  Forall (histogram_row a) ts /\
  NoDup (ts.*1.*1) /\
  forall d, d ∈ ts.*1.*1 <-> d = cur \/ d ∈ pre.
Proof.
  induction pre as [|x pre IH] using rev_ind; intros suf cur c a Ha Hs Hsuf ts.
  - subst ts. unfold all_tallies. simpl. split; [|split].
    + constructor; [|constructor]. split; simpl.
      * subst a. simpl app.
        change (cur :: replicate c cur ++ suf) with (replicate (S c) cur ++ suf).
        rewrite count_of_app, count_of_replicate, count_of_absent by done. lia.
      * split; [lia|]. split; [by subst a|]. intros j _. lia.
    + constructor; [|constructor]. apply not_elem_of_nil.
    + intros d. rewrite list_elem_of_singleton. split; [by left|].
      intros [?|H]; [done|]. by apply elem_of_nil in H.
  - assert (Hx : date_le x cur).
    { eapply (StronglySorted_app_1_elem_of _ (pre ++ [x]) (replicate (S c) cur ++ suf)).
      - by rewrite <- Ha.
      - apply elem_of_app. right. by apply list_elem_of_singleton.
      - simpl. by left. }
    subst ts. unfold all_tallies. rewrite rev_app_distr. simpl rev. simpl map.
    rewrite tallies_cons. rewrite length_map, length_rev.
    unfold step_active.
    destruct (decide (x = cur)) as [->|Hne].
    + (* the same day goes on *)
      assert (Ha' : a = pre ++ replicate (S (S c)) cur ++ suf).
      { rewrite Ha, <- app_assoc. reflexivity. }
      destruct (IH suf cur (S c) a Ha' Hs Hsuf) as (IH1 & IH2 & IH3).
      unfold all_tallies in IH1, IH2, IH3.
      replace (Z.of_nat (S c) + 1) with (Z.of_nat (S (S c))) by lia.
      destruct (tallies (map Some (rev pre)) (Some (cur, Z.of_nat (S (S c))))) as [f2 a2].
      simpl in *. split; [done|]. split; [done|].
      intros d. rewrite IH3, elem_of_app, list_elem_of_singleton. tauto.
    + (* a day ends *)
      assert (Hcur_pre : cur ∉ pre ++ [x]).
      { intros Hin. apply Hne. apply date_le_antisym; [done|].
        apply elem_of_app in Hin as [Hin|Hin].
        - eapply (StronglySorted_app_1_elem_of _ pre ([x] ++ replicate (S c) cur ++ suf)).
          + by rewrite Ha, <- app_assoc in Hs.
          + done.
          + by left.
        - apply list_elem_of_singleton in Hin. subst. apply date_le_refl. }
      assert (Hx_suf : x ∉ replicate (S c) cur ++ suf).
      { intros Hin. apply elem_of_app in Hin as [Hin|Hin].
        - apply elem_of_replicate in Hin as [? _]. done.
        - apply Hne. apply date_le_antisym; [done|].
          eapply (StronglySorted_app_1_elem_of _ ((pre ++ [x]) ++ replicate (S c) cur) suf).
          + by rewrite Ha, app_assoc in Hs.
          + apply elem_of_app. right. simpl. by left.
          + done. }
      assert (Ha' : a = pre ++ replicate 1 x ++ (replicate (S c) cur ++ suf)).
      { rewrite Ha, <- app_assoc. reflexivity. }
      destruct (IH (replicate (S c) cur ++ suf) x 0%nat a Ha' Hs Hx_suf) as (IH1 & IH2 & IH3).
      unfold all_tallies in IH1, IH2, IH3.
      change (Z.of_nat 1) with 1 in *.
      destruct (tallies (map Some (rev pre)) (Some (x, 1))) as [f2 a2].
      simpl in *. split; [|split].
      * constructor; [|done]. split; simpl.
        -- rewrite Ha, count_of_app, (count_of_absent _ _ Hcur_pre).
           change (cur :: replicate c cur ++ suf) with (replicate (S c) cur ++ suf).
           rewrite count_of_app, count_of_replicate, count_of_absent by done. lia.
        -- split; [lia|]. split.
           ++ rewrite Ha. rewrite lookup_app_r; rewrite length_app; simpl; [|lia].
              replace (Z.to_nat (Z.of_nat (S (length pre)) + 1 - 1) - (length pre + 1))%nat
                with 0%nat by lia. done.
           ++ intros j Hj. destruct (decide (j < length (pre ++ [x]))%nat) as [Hlt|Hge].
              ** exfalso. apply Hcur_pre. rewrite Ha, lookup_app_l in Hj by done.
                 by eapply list_elem_of_lookup_2.
              ** rewrite length_app in Hge. simpl in Hge. lia.
      * constructor; [|done]. rewrite IH3. intros [?|Hin]; [congruence|].
        apply Hcur_pre. apply elem_of_app. by left.
      * intros d. rewrite elem_of_cons, IH3, elem_of_app, list_elem_of_singleton. tauto.
Qed.

(** ** A fresh run *)

Lemma all_tallies_histogram archive :
  StronglySorted date_le archive ->
  let ts := all_tallies (map Some (rev archive)) None in
  Forall (histogram_row archive) ts /\
  NoDup (ts.*1.*1) /\
  forall d, d ∈ ts.*1.*1 <-> d ∈ archive.
Proof.
  intros Hs. destruct archive as [|x pre _] using rev_ind.
  - simpl. split; [constructor|]. split; [constructor|]. done.
  - intros ts. subst ts. unfold all_tallies.
    rewrite rev_app_distr. simpl rev. simpl map. rewrite tallies_cons.
    unfold step_active.
    destruct (tallies_sorted pre [] x 0%nat (pre ++ [x]) eq_refl Hs (not_elem_of_nil _))
      as (H1 & H2 & H3).
    unfold all_tallies in H1, H2, H3. change (Z.of_nat 1) with 1 in *.
    destruct (tallies (map Some (rev pre)) (Some (x, 1))) as [f2 a2]. simpl in *.
    split; [done|]. split; [done|].
    intros d. rewrite H3, elem_of_app, list_elem_of_singleton. tauto.
Qed.

Lemma sorted_by_index (a : list date) :
  (forall (i j : nat) di dj,
     a !! i = Some di -> a !! j = Some dj -> (i <= j)%nat -> date_le di dj) ->
  StronglySorted date_le a.
Proof.
  induction a as [|x a IH]; intros H; constructor.
  - apply IH. intros i j di dj Hi Hj Hij. apply (H (S i) (S j)); simpl; auto with lia.
  - apply Forall_forall. intros y Hy. apply list_elem_of_lookup in Hy as [j Hj].
    apply (H 0%nat (S j)); simpl; auto with lia.
Qed.

Lemma visits_of_archive (pre suf : list date) :
  map (fun i => (pre ++ suf) !! Z.to_nat (i - 1)) (countdown (length pre))
  = map Some (rev pre).
Proof.
  revert suf. induction pre as [|x pre IH] using rev_ind; intros suf; [done|].
  rewrite length_app. simpl length. replace (length pre + 1)%nat with (S (length pre)) by lia.
  change (countdown (S (length pre))) with (Z.of_nat (S (length pre)) :: countdown (length pre)).
  rewrite map_cons, rev_app_distr. simpl rev. simpl map. f_equal.
  - rewrite <- app_assoc. rewrite lookup_app_r by lia.
    replace (Z.to_nat (Z.of_nat (S (length pre)) - 1) - length pre)%nat with 0%nat by lia. done.
  - rewrite <- app_assoc. apply IH.
Qed.

Section Runs.
Variable R : remote.
Variable T : datetime.
Variable config : CrawlerConfig.

Lemma retry_operation_first_try {A} c (answer : list event -> reply A) s a :
  1 <= max_retries config ->
  answer (trace s) = Return a ->
  retry_operation config (invoke c answer) s
  = (Ok (Some a), set_trace (trace s ++ [Called c None]) s).
Proof.
  intros Hm Ha. unfold retry_operation.
  destruct (Z.to_nat (max_retries config)) as [|n] eqn:Hn; [lia|].
  by apply retry_loop_return.
Qed.

Lemma close_session_runs s :
  close_session R s
  = (Ok tt, set_trace (trace s ++
              match logout_reply R (trace s) with
              | Return _ => [Called Logout None; Logged INFO MsgLoggedOut]
              | Throw e => [Called Logout (Some e); Logged ERROR (MsgLogoutFailed e)]
              end) s).
Proof.
  unfold close_session, try_except, bind, ptt_logout, invoke, log, emit, modify.
  destruct (logout_reply R (trace s)) as [[]|e]; simpl; by rewrite <- app_assoc.
Qed.

Lemma load_progress_fresh s :
  disk s = None ->
  save_reply R (trace s) (file_name config) [header] = Return tt ->
  exists s',
    load_progress R T config s = (Ok tt, s') /\
    sheet s' = [header] /\ disk s' = Some (Workbook [header]) /\
    start_date s' = start_date s /\ start_index s' = start_index s.
Proof.
  intros Hd Hs. unfold load_progress, bind, gets. rewrite Hd.
  unfold workbook_save, sheet_append, try_except, bind, gets, modify, invoke. simpl.
  rewrite Hs. eexists. split; [reflexivity|]. done.
Qed.

(** C1. On an archive 1..N whose dates do not increase as the index
    decreases, a fresh run (no table yet, every call succeeding) leaves a
    table of the header and one row per distinct date; the row's count is
    the number of indices of that date and its earliest index is the least
    index of that date. *)
Theorem fresh_crawl_writes_histogram (archive : list date) (fuel : nat) :
  1 <= max_retries config ->
  (length archive <= fuel)%nat ->
  (forall (i j : nat) di dj,
     archive !! i = Some di -> archive !! j = Some dj -> (i <= j)%nat ->
     date_le di dj) ->
  (forall h, login_reply R h (ptt_id config) (ptt_pwd config) = Return tt) ->
  (forall h, newest_reply R h (board_name config) = Return (Z.of_nat (length archive))) ->
  (forall h (i : nat) d,
     archive !! i = Some d ->
     exists str,
       post_reply R h (board_name config) (Z.of_nat i + 1) = Return (Post (VStr str)) /\
       strptime_post T str = Some d) ->
  (forall h p rows, save_reply R h p rows = Return tt) ->
  exists s' ts,
    crawl R T config fuel (init_state None) = (Ok tt, s') /\
    disk s' = Some (Workbook (header :: map (row_of T) ts)) /\
    NoDup (ts.*1.*1) /\
    (forall d, d ∈ ts.*1.*1 <-> d ∈ archive) /\
    Forall (histogram_row archive) ts.
Proof.
  intros Hm Hfuel Hsorted Hlogin Hnewest Hposts Hsave.
  set (N := Z.of_nat (length archive)).
  set (fetch := fun i : Z => archive !! Z.to_nat (i - 1)).
  assert (Hpost : forall h i, 1 <= i <= N ->
            match fetch i with
            | Some d => exists str,
                post_reply R h (board_name config) i = Return (Post (VStr str)) /\
                strptime_post T str = Some d
            | None => exists e, post_reply R h (board_name config) i = Throw e
            end).
  { intros h i Hi. subst fetch N. simpl.
    destruct (archive !! Z.to_nat (i - 1)) as [d|] eqn:Hd.
    - destruct (Hposts h _ _ Hd) as (str & Hp & Hs). exists str.
      replace (Z.of_nat (Z.to_nat (i - 1)) + 1) with i in Hp by lia. done.
    - apply lookup_ge_None in Hd. lia. }
  (* setting up *)
  destruct (load_progress_fresh (init_state None) eq_refl (Hsave _ _ _))
    as (s1 & Hload & Hsh1 & Hd1 & _ & Hsi1).
  assert (Hsetup : exists s5, crawl_setup R T config (init_state None) = (Ok (VInt N), s5) /\
                              sheet s5 = [header] /\ disk s5 = Some (Workbook [header])).
  { unfold crawl_setup. unfold bind at 1. rewrite Hload.
    unfold ptt_login. unfold bind at 1.
    rewrite (retry_operation_first_try _ _ s1 tt Hm (Hlogin _)).
    unfold bind at 1, log, emit, modify.
    unfold ptt_get_newest_index. unfold bind at 1.
    rewrite (retry_operation_first_try _ _ _ N Hm (Hnewest _)).
    unfold bind, gets, ret. simpl. rewrite Hsi1. simpl.
    eexists. split; [reflexivity|]. done. }
  destruct Hsetup as (s5 & Hsetup & Hsh5 & Hd5).
  (* walking down *)
  destruct (traverse_steady R T config fetch N Hm Hpost Hsave fuel s5 N)
    as (s6 & Htr & _ & Hsh6 & Hd6); [lia|lia|by rewrite Hsh5|].
  replace (Z.to_nat N) with (length archive) in Hsh6 by lia.
  assert (Hvis : map fetch (countdown (length archive)) = map Some (rev archive)).
  { pose proof (visits_of_archive archive []) as Hv. by rewrite app_nil_r in Hv. }
  rewrite Hvis in Hsh6.
  destruct (all_tallies_histogram archive (sorted_by_index _ Hsorted)) as (H1 & H2 & H3).
  (* closing *)
  eexists. exists (all_tallies (map Some (rev archive)) None).
  split.
  - unfold crawl, try_finally, crawl_guarded, try_except, crawl_body. unfold bind.
    rewrite Hsetup, Htr, close_session_runs. reflexivity.
  - simpl. rewrite Hd6, Hsh6, Hsh5. done.
Qed.

End Runs.

(** ** One unreachable post *)

Section Counts.
Variable T : datetime.
Variable key : string.

Lemma persisted_count_app r1 r2 :
  persisted_count key (r1 ++ r2) = persisted_count key r1 + persisted_count key r2.
Proof. induction r1 as [|r r1 IH]; simpl; lia. Qed.

Lemma persisted_count_last act :
  persisted_count key (map (row_of T) (last_tally act)) = active_count T key act.
Proof.
  destruct act as [[d c]|]; simpl; [|done]. destruct (decide _); lia.
Qed.

Lemma all_tallies_cons o l act :
  all_tallies (o :: l) act
  = (step_active o act (Z.of_nat (S (length l)))).1
    ++ all_tallies l (step_active o act (Z.of_nat (S (length l)))).2.
Proof.
  unfold all_tallies. rewrite tallies_cons.
  destruct (step_active o act _) as [f1 a1]. simpl.
  destruct (tallies l a1) as [f2 a2]. simpl. by rewrite app_assoc.
Qed.

Lemma step_active_count o act i :
  persisted_count key (map (row_of T) (step_active o act i).1)
  + active_count T key (step_active o act i).2
  = active_count T key act + seen T key [o].
Proof.
  destruct o as [d|], act as [[cur c]|]; simpl; try lia.
  - destruct (decide (d = cur)) as [->|Hne]; simpl.
    + destruct (decide _); lia.
    + repeat destruct (decide _); lia.
  - destruct (decide _); lia.
Qed.

(** The rows of a walk add up to the posts that were fetched. *)
Lemma all_tallies_count l : forall act,
  persisted_count key (map (row_of T) (all_tallies l act))
  = active_count T key act + seen T key l.
Proof.
  induction l as [|o l IH]; intros act.
  - unfold all_tallies. simpl. rewrite persisted_count_last. lia.
  - rewrite all_tallies_cons, map_app, persisted_count_app, IH.
    pose proof (step_active_count o act (Z.of_nat (S (length l)))) as Hs.
    simpl in Hs |- *. destruct o as [d|]; [destruct (decide _)|]; lia.
Qed.

End Counts.

(** Leaving out the post at index [k] takes one post off its date. *)
Lemma seen_without T (dates : Z -> date) (k : Z) (n : nat) :
  seen T (strftime_ymd T (dates k))
    (map (fun i => if decide (i = k) then None else Some (dates i)) (countdown n))
  = seen T (strftime_ymd T (dates k)) (map (fun i => Some (dates i)) (countdown n))
    - (if decide (1 <= k <= Z.of_nat n) then 1 else 0).
Proof.
  induction n as [|n IH].
  - simpl. destruct (decide _); lia.
  - change (countdown (S n)) with (Z.of_nat (S n) :: countdown n).
    rewrite !map_cons. simpl seen.
    change (foldr _ 0 ?l) with (seen T (strftime_ymd T (dates k)) l) in *.
    rewrite IH. destruct (decide (Z.of_nat (S n) = k)) as [<-|Hne].
    + simpl. repeat case_decide; first [lia|congruence].
    + simpl. repeat case_decide; first [lia|congruence].
Qed.

(** C4. When the post at one index [k] cannot be fetched, whatever the
    number of attempts, and every other fetch succeeds: the turn of [k]
    ends normally, with the failure logged, the active day and its count
    untouched and the index moved to [k - 1]; the traversal finishes; and
    the rows written for the date of [k] add up to one less than in the run
    where [k] can be fetched too.  A date without a row counts as 0. *)
Theorem unreachable_post_undercounts_its_day
    (R_all R_but : remote) (T : datetime) (config : CrawlerConfig)
    (dates : Z -> date) (k z : Z) (s : state) (fuel : nat) :
  1 <= max_retries config ->
  1 <= k <= z ->
  (Z.to_nat z <= fuel)%nat ->
  disk s = Some (Workbook (sheet s)) ->
  (forall h p rows, save_reply R_all h p rows = Return tt) ->
  (forall h p rows, save_reply R_but h p rows = Return tt) ->
  (forall h i, 1 <= i <= z ->
     exists str,
       post_reply R_all h (board_name config) i = Return (Post (VStr str)) /\
       strptime_post T str = Some (dates i)) ->
  (forall h i, 1 <= i <= z -> i <> k ->
     exists str,
       post_reply R_but h (board_name config) i = Return (Post (VStr str)) /\
       strptime_post T str = Some (dates i)) ->
  (forall h, exists e, post_reply R_but h (board_name config) k = Throw e) ->
  (forall s1, current_index s1 = k ->
     exists e evs,
       iteration R_but T config s1
       = (Ok tt, set_current_index (k - 1)
                   (set_trace (trace s1 ++ evs ++ [Logged ERROR (MsgIndexFailed k e)]) s1))) /\
  exists s_all s_but rows_all rows_but,
    traverse R_all T config fuel (VInt z) s = (Ok tt, s_all) /\
    traverse R_but T config fuel (VInt z) s = (Ok tt, s_but) /\
    disk s_all = Some (Workbook rows_all) /\
    disk s_but = Some (Workbook rows_but) /\
    persisted_count (strftime_ymd T (dates k)) rows_but
    = persisted_count (strftime_ymd T (dates k)) rows_all - 1.
Proof.
  intros Hm Hk Hfuel Hdisk Hsave Hsave' Hall Hbut Hbroken. split.
  - intros s1 Hci.
    destruct (fetch_post_date_fails R_but T config s1) as [e He].
    { by rewrite Hci. }
    destruct (iteration_skip R_but T config s1 e He) as (evs & Hit & _).
    exists e, evs. by rewrite <- Hci.
  - set (fetch_all := fun i : Z => Some (dates i)).
    set (fetch_but := fun i : Z => if decide (i = k) then None else Some (dates i)).
    assert (Hpost_all : forall h i, 1 <= i <= z ->
              match fetch_all i with
              | Some d => exists str,
                  post_reply R_all h (board_name config) i = Return (Post (VStr str)) /\
                  strptime_post T str = Some d
              | None => exists e, post_reply R_all h (board_name config) i = Throw e
              end).
    { intros h i Hi. by apply Hall. }
    assert (Hpost_but : forall h i, 1 <= i <= z ->
              match fetch_but i with
              | Some d => exists str,
                  post_reply R_but h (board_name config) i = Return (Post (VStr str)) /\
                  strptime_post T str = Some d
              | None => exists e, post_reply R_but h (board_name config) i = Throw e
              end).
    { intros h i Hi. unfold fetch_but. destruct (decide (i = k)) as [->|Hne].
      - apply Hbroken.
      - by apply Hbut. }
    destruct (traverse_steady R_all T config fetch_all z Hm Hpost_all Hsave fuel s z)
      as (s_all & Hrun & _ & Hsh & Hd); [lia|lia|done|].
    destruct (traverse_steady R_but T config fetch_but z Hm Hpost_but Hsave' fuel s z)
      as (s_but & Hrun' & _ & Hsh' & Hd'); [lia|lia|done|].
    exists s_all, s_but. eexists. eexists.
    split; [exact Hrun|]. split; [exact Hrun'|].
    split; [exact Hd|]. split; [exact Hd'|].
    rewrite Hsh, Hsh', !persisted_count_app, !all_tallies_count.
    unfold fetch_all, fetch_but. rewrite seen_without.
    rewrite decide_True by lia. simpl. lia.
Qed.

(** ** The traversal *)

Section Traversal.
Variable R : remote.
Variable T : datetime.
Variable config : CrawlerConfig.

(** When no post can be fetched the loop only writes to the history. *)
Lemma while_loop_all_skipped n : forall fuel s,
  (forall h i, exists e, post_reply R h (board_name config) i = Throw e) ->
  current_index s = Z.of_nat n -> (n <= fuel)%nat ->
  exists evs,
    while_loop R T config fuel s
    = (Ok tt, set_current_index 0 (set_trace (trace s ++ evs) s)) /\
    forallb (fun ev => negb (is_save ev)) evs = true.
Proof.
  induction n as [|n IH]; intros fuel s Hall Hci Hfuel.
  - exists []. rewrite app_nil_r. split; [|done].
    destruct fuel; simpl; rewrite Hci; simpl; f_equal; destruct s; simpl in *; by subst.
  - destruct fuel as [|fuel]; [lia|].
    simpl while_loop. rewrite Hci. change (Z.of_nat (S n) >? 0) with true. cbv iota.
    destruct (fetch_post_date_fails R T config s) as [e He]; [by intros h|].
    destruct (iteration_skip R T config s e He) as (evs & Hit & Hns).
    unfold bind. rewrite Hit.
    set (s1 := set_current_index _ _).
    destruct (IH fuel s1 Hall) as (evs' & Hw & Hns'); [subst s1; simpl; lia|lia|].
    rewrite Hw. exists ((evs ++ [Logged ERROR (MsgIndexFailed (current_index s) e)]) ++ evs').
    split.
    + subst s1. simpl. unfold set_current_index, set_trace. simpl.
      by rewrite <- !app_assoc.
    + rewrite !forallb_app, Hns, Hns'. done.
Qed.

(** C10. When no post fetch ever succeeds, the traversal still takes the
    index down to 0, never establishes an active day, appends no row, does
    not call the save at all (the last flush is skipped) and ends
    normally. *)
Theorem traversal_without_posts (s : state) (z : Z) (fuel : nat) :
  (forall h i, exists e, post_reply R h (board_name config) i = Throw e) ->
  0 <= z ->
  (Z.to_nat z <= fuel)%nat ->
  exists s' evs,
    traverse R T config fuel (VInt z) s = (Ok tt, s') /\
    current_index s' = 0 /\
    current_date s' = None /\
    sheet s' = sheet s /\
    disk s' = disk s /\
    trace s' = trace s ++ evs /\
    forallb (fun ev => negb (is_save ev)) evs = true /\
    forall s_pre,
      crawl_setup R T config s_pre = (Ok (VInt z), s) ->
      (crawl R T config fuel s_pre).1 = Ok tt /\
      disk (crawl R T config fuel s_pre).2 = disk s.
Proof.
  intros Hall Hz Hfuel.
  cut (exists s' evs,
         traverse R T config fuel (VInt z) s = (Ok tt, s') /\
         current_index s' = 0 /\ current_date s' = None /\
         sheet s' = sheet s /\ disk s' = disk s /\
         trace s' = trace s ++ evs /\
         forallb (fun ev => negb (is_save ev)) evs = true).
  { intros (s' & evs & Htr & H1 & H2 & H3 & H4 & H5 & H6).
    exists s', evs. split_and!; try done.
    intros s_pre Hpre.
    unfold crawl, try_finally, crawl_guarded, try_except, crawl_body, bind.
    rewrite Hpre, Htr, close_session_runs. done. }
  unfold traverse, walk_down.
  unfold bind at 1, bind at 1, bind at 1, bind at 1, modify. simpl.
  set (s0 := set_current_index z _).
  destruct (while_loop_all_skipped (Z.to_nat z) fuel s0 Hall) as (evs & Hw & Hns);
    [subst s0; simpl; lia|lia|].
  unfold bind at 1. rewrite Hw. unfold bind.
  rewrite final_flush_none by done.
  unfold log, emit, modify. eexists. exists (evs ++ [Logged INFO (MsgAllSaved (file_name config))]).
  split; [reflexivity|]. simpl. rewrite <- app_assoc.
  split_and!; try done. rewrite forallb_app, Hns. done.
Qed.

End Traversal.

(** ** Day rows *)

Section Flushes.
Variable R : remote.
Variable T : datetime.
Variable config : CrawlerConfig.

Local Abbreviation save_call rows := (SaveWorkbook (file_name config) rows).

(** How [tally_post] ends, by cases. *)
Lemma tally_post_cases d s :
  tally_ready s ->
  (exists s', tally_post R T config d s = (Ok tt, s') /\
              current_date s' = Some d /\ is_Some (daily_count s' !! d) /\
              current_index s' = current_index s) \/
  (exists e cur c,
     current_date s = Some cur /\ daily_count s !! cur = Some c /\
     tally_post R T config d s = (Raise e, unflushed R T config cur c (current_index s + 1) e s)).
Proof.
  intros Hready. unfold tally_ready in Hready.
  destruct (current_date s) as [cur|] eqn:Hcd.
  - destruct (decide (d = cur)) as [->|Hne].
    + left. rewrite tally_post_same by done. eexists. split; [reflexivity|].
      simpl. rewrite lookup_insert_eq. by eauto.
    + destruct Hready as [c Hc].
      destruct (save_reply R (trace s) (file_name config)
                  (sheet s ++ [tally_row T cur c (current_index s + 1)])) as [[]|e] eqn:Hs.
      * left. rewrite (tally_post_change R T config d cur c s) by done.
        eexists. split; [reflexivity|]. simpl. rewrite lookup_insert_eq. by eauto.
      * right. exists e, cur, c. split; [done|]. split; [done|].
        by apply tally_post_change_fail.
  - left. rewrite tally_post_first by done. eexists. split; [reflexivity|].
    simpl. rewrite lookup_insert_eq. by eauto.
Qed.

Lemma iteration_ready s : tally_ready s -> tally_ready (iteration R T config s).2.
Proof.
  intros Hready. unfold iteration, process_index, bind, try_except.
  pose proof (fetch_post_date_only_trace R T config s) as Hot.
  pose proof (fetch_post_date_total R T config s) as Htot.
  destruct (fetch_post_date R T config s) as [[d|e|] s1]; simpl in Hot, Htot; [| |done].
  - assert (Hr1 : tally_ready s1) by (rewrite Hot; exact Hready).
    destruct (tally_post_cases d s1 Hr1) as [(s' & -> & Hcd & Hdc & _)|(e & cur & c & Hcd & Hdc & ->)].
    + simpl. unfold tally_ready. simpl. by rewrite Hcd.
    + simpl. unfold tally_ready. simpl. rewrite Hcd, Hdc. by eauto.
  - simpl. rewrite Hot. exact Hready.
Qed.

Lemma while_loop_ready fuel : forall s,
  tally_ready s -> tally_ready (while_loop R T config fuel s).2.
Proof.
  induction fuel as [|fuel IH]; intros s Hready; simpl.
  - by destruct (current_index s >? 0).
  - destruct (current_index s >? 0); [|done].
    unfold bind. pose proof (iteration_ready s Hready) as Hr.
    destruct (iteration_steps_down R T config s) as [Hok _].
    destruct (iteration R T config s) as [r s1]. simpl in *. subst r. by apply IH.
Qed.

Lemma while_loop_idle fuel s :
  current_index s <= 0 -> while_loop R T config fuel s = (Ok tt, s).
Proof.
  intros H. assert ((current_index s >? 0) = false) as Hb by lia.
  destruct fuel; simpl; by rewrite Hb.
Qed.

Lemma while_loop_ends_at_zero fuel : forall s,
  (while_loop R T config fuel s).1 = Ok tt -> 0 <= current_index s ->
  current_index (while_loop R T config fuel s).2 = 0.
Proof.
  induction fuel as [|fuel IH]; intros s; simpl.
  - destruct (current_index s >? 0) eqn:Hb; simpl; [done|]. lia.
  - destruct (current_index s >? 0) eqn:Hb; simpl; [|lia].
    unfold bind. destruct (iteration_steps_down R T config s) as [Hok Hdec].
    destruct (iteration R T config s) as [r s1]. simpl in *. subst r.
    intros Hw _. apply IH; [done|lia].
Qed.

(** After the loop the active day, if there is one, has its count and the
    index is 0. *)
Lemma walk_down_finish fuel index s0 s2 cur :
  walk_down R T config fuel index s0 = (Ok tt, s2) ->
  current_date s2 = Some cur ->
  current_index s2 = 0 /\ exists c, daily_count s2 !! cur = Some c.
Proof.
  unfold walk_down. unfold bind at 1, bind at 1, modify. simpl.
  destruct index as [| |z|]; try done.
  unfold bind at 1. simpl. set (sA := set_current_index z _).
  intros Hw Hcd.
  assert (Hready : tally_ready sA) by done.
  pose proof (while_loop_ready fuel sA Hready) as Hr2.
  destruct (decide (z <= 0)) as [Hz|Hz].
  - rewrite while_loop_idle in Hw by done. inversion Hw; subst s2. done.
  - pose proof (while_loop_ends_at_zero fuel sA) as Hz0.
    rewrite Hw in Hr2, Hz0. simpl in *. split; [apply Hz0; [done|lia]|].
    unfold tally_ready in Hr2. rewrite Hcd in Hr2. destruct Hr2 as [c Hc]. by exists c.
Qed.

(** C9. At a step where the date of the fetched post differs from the
    active day, the row appended for the day that ended carries the count
    held in memory for it and the current index plus one, and that is the
    table handed to the save; once the save has returned, the new date is
    the active day with count 1.  The row of the last flush, after the
    index has reached 0, carries the earliest index 1. *)
Theorem day_boundary_flush (s s1 : state) (d' d : date) (c : Z) :
  fetch_post_date R T config s = (Ok d', s1) ->
  current_date s = Some d ->
  d' <> d ->
  daily_count s !! d = Some c ->
  let rows := sheet s ++ [tally_row T d c (current_index s + 1)] in
  (sheet (iteration R T config s).2 = rows /\
   exists o rest,
     trace (iteration R T config s).2 = trace s1 ++ Called (save_call rows) o :: rest) /\
  (save_reply R (trace s1) (file_name config) rows = Return tt ->
   exists s',
     iteration R T config s = (Ok tt, s') /\
     disk s' = Some (Workbook rows) /\
     current_date s' = Some d' /\
     daily_count s' !! d' = Some 1 /\
     current_index s' = current_index s - 1) /\
  (forall fuel index s0 s2 cur,
     walk_down R T config fuel index s0 = (Ok tt, s2) ->
     current_date s2 = Some cur ->
     exists n o rest,
       daily_count s2 !! cur = Some n /\
       sheet (final_flush R T config s2).2 = sheet s2 ++ [tally_row T cur n 1] /\
       trace (final_flush R T config s2).2
       = trace s2 ++ Called (save_call (sheet s2 ++ [tally_row T cur n 1])) o :: rest).
Proof.
  intros Hf Hcd Hne Hdc rows.
  pose proof (fetch_post_date_only_trace R T config s) as Hot.
  rewrite Hf in Hot. simpl in Hot.
  assert (Hcd1 : current_date s1 = Some d) by (by rewrite Hot).
  assert (Hdc1 : daily_count s1 !! d = Some c) by (by rewrite Hot).
  assert (Hsh1 : sheet s1 = sheet s) by (by rewrite Hot).
  assert (Hci1 : current_index s1 = current_index s) by (by rewrite Hot).
  split; [|split].
  - unfold iteration, process_index, bind, try_except. rewrite Hf.
    destruct (save_reply R (trace s1) (file_name config)
                (sheet s1 ++ [tally_row T d c (current_index s1 + 1)])) as [[]|e] eqn:Hs.
    + rewrite (tally_post_change R T config d' d c s1) by done. simpl.
      rewrite Hsh1, Hci1. split; [done|]. eexists. eexists. reflexivity.
    + rewrite (tally_post_change_fail R T config d' d c e s1) by done. simpl.
      rewrite Hsh1, Hci1, <- app_assoc. split; [done|]. eexists. eexists. reflexivity.
  - intros Hs. subst rows. rewrite <- Hsh1, <- Hci1 in Hs.
    unfold iteration, process_index, bind, try_except. rewrite Hf.
    rewrite (tally_post_change R T config d' d c s1) by done.
    eexists. split; [reflexivity|]. simpl. rewrite Hsh1, Hci1, lookup_insert_eq. done.
  - intros fuel index s0 s2 cur Hw Hcur.
    destruct (walk_down_finish fuel index s0 s2 cur Hw Hcur) as [Hz [n Hn]].
    exists n.
    destruct (save_reply R (trace s2) (file_name config)
                (sheet s2 ++ [tally_row T cur n (current_index s2 + 1)])) as [[]|e] eqn:Hs.
    + rewrite (final_flush_ok R T config cur n s2) by done. simpl. rewrite Hz. simpl.
      eexists. eexists. split_and!; done.
    + rewrite (final_flush_fail R T config cur n e s2) by done. simpl. rewrite Hz. simpl.
      eexists. eexists. split_and!; done.
Qed.

End Flushes.

(** ** Session close and failed saves *)

Lemma no_logout_calls evs :
  forallb (fun ev => negb (is_logout ev)) evs = true -> calls_to Logout evs = 0%nat.
Proof.
  induction evs as [|ev evs IH]; [done|]. simpl. intros [Hev Hevs]%andb_prop.
  rewrite calls_to_cons, IH by done.
  destruct ev as [[] ?| |]; simpl in *; try done.
Qed.

Section Session.
Variable R : remote.
Variable T : datetime.
Variable config : CrawlerConfig.

Local Abbreviation save_call rows := (SaveWorkbook (file_name config) rows).
Local Abbreviation quietly := (grows_by (fun ev => negb (is_logout ev))).

Lemma scan_rows_pure rows : forall dates s,
  (scan_rows rows dates s).2 = s /\ (scan_rows rows dates s).1 <> OutOfFuel.
Proof.
  induction rows as [|r rows IH]; intros dates s; [done|].
  simpl. unfold bind, getitem.
  destruct (r !! 0%nat) as [c0|]; simpl; [|done].
  destruct (truthy c0); [|apply IH].
  destruct (r !! 2%nat) as [c2|]; simpl; [|done].
  destruct (truthy c2); apply IH.
Qed.

Lemma scan_rows_keeps (Rel : relation state) `{!PreOrder Rel} rows dates :
  keeps Rel (scan_rows rows dates).
Proof. intros s. rewrite (proj1 (scan_rows_pure rows dates s)). reflexivity. Qed.

Lemma scan_rows_total rows dates : total (scan_rows rows dates).
Proof. intros s. apply scan_rows_pure. Qed.

Lemma load_progress_quiet : keeps quietly (load_progress R T config).
Proof.
  unfold load_progress, workbook_save, sheet_append, strptime, minus_one, log.
  kbind; [apply keeps_gets; preorder|intros [[rows|]|]].
  - kbind; [|intros _].
    { apply keeps_modify. intros s. by apply grows_by_same_trace. }
    kbind; [apply scan_rows_keeps; preorder|intros dates].
    frame_with (grows_by_accepts (fun ev => negb (is_logout ev))).
  - apply keeps_raise; preorder.
  - frame_with (grows_by_accepts (fun ev => negb (is_logout ev))).
Qed.

Lemma load_progress_total : total (load_progress R T config).
Proof.
  unfold load_progress, workbook_save, sheet_append, strptime, minus_one, log.
  apply total_bind; [apply total_gets|intros [[rows|]|]].
  - apply total_bind; [apply total_modify|intros _].
    apply total_bind; [apply scan_rows_total|intros dates]. total_step.
  - apply total_raise.
  - total_step.
Qed.

Lemma crawl_setup_quiet : keeps quietly (crawl_setup R T config).
Proof.
  unfold crawl_setup.
  kbind; [apply load_progress_quiet|intros _].
  unfold retry_operation, ptt_login, ptt_get_newest_index, log.
  frame_with (grows_by_accepts (fun ev => negb (is_logout ev))).
Qed.

Lemma crawl_setup_total : total (crawl_setup R T config).
Proof.
  unfold crawl_setup.
  apply total_bind; [apply load_progress_total|intros _].
  unfold retry_operation, ptt_login, ptt_get_newest_index, log. total_step.
Qed.

Lemma iteration_quiet : keeps quietly (iteration R T config).
Proof.
  unfold iteration, process_index, fetch_post_date, tally_post, save_daily_count,
    workbook_save, sheet_append, dict_getitem, strptime, retry_operation,
    ptt_get_post, log.
  frame_with (grows_by_accepts (fun ev => negb (is_logout ev))).
Qed.

Lemma while_loop_keeps (Rel : relation state) `{!PreOrder Rel} fuel :
  keeps Rel (iteration R T config) -> keeps Rel (while_loop R T config fuel).
Proof.
  intros Hit. induction fuel as [|fuel IH]; intros s; simpl.
  - destruct (current_index s >? 0); simpl; reflexivity.
  - destruct (current_index s >? 0); simpl; [|reflexivity].
    by apply keeps_bind.
Qed.

Lemma final_flush_quiet : keeps quietly (final_flush R T config).
Proof.
  unfold final_flush, save_daily_count, workbook_save, sheet_append, dict_getitem, log.
  frame_with (grows_by_accepts (fun ev => negb (is_logout ev))).
Qed.

Lemma final_flush_total : total (final_flush R T config).
Proof.
  unfold final_flush, save_daily_count, workbook_save, sheet_append, dict_getitem, log.
  total_step.
Qed.

Lemma traverse_quiet fuel index : keeps quietly (traverse R T config fuel index).
Proof.
  unfold traverse, walk_down, log.
  kbind; [|intros _].
  - kbind; [|intros _].
    { apply keeps_modify. intros s. by apply grows_by_same_trace. }
    kbind; [|intros _].
    { apply keeps_modify. intros s. by apply grows_by_same_trace. }
    destruct index; try (apply keeps_raise; preorder).
    kbind; [|intros _].
    { apply keeps_modify. intros s. by apply grows_by_same_trace. }
    apply while_loop_keeps; preorder; apply iteration_quiet.
  - kbind; [apply final_flush_quiet|intros _].
    frame_with (grows_by_accepts (fun ev => negb (is_logout ev))).
Qed.

(** Fuel for the loop: the starting index. *)
Lemma traverse_total fuel index s :
  (match index with VInt z => Z.to_nat z | _ => 0%nat end <= fuel)%nat ->
  (traverse R T config fuel index s).1 <> OutOfFuel.
Proof.
  intros Hfuel. unfold traverse, walk_down.
  unfold bind at 1, bind at 1, bind at 1, modify. simpl.
  destruct index as [| |z|]; try done.
  unfold bind at 1. simpl. set (sA := set_current_index z _).
  assert (Hw : (while_loop R T config fuel sA).1 = Ok tt).
  { destruct (decide (z <= 0)) as [Hz|Hz].
    - by rewrite while_loop_idle.
    - apply while_loop_countdown; subst sA; simpl; lia. }
  destruct (while_loop R T config fuel sA) as [r s1]. simpl in Hw. subst r.
  unfold bind, log, emit, modify.
  pose proof (final_flush_total s1) as Hf.
  by destruct (final_flush R T config s1) as [[[]|e|] s2].
Qed.

Lemma crawl_guarded_quiet fuel : keeps quietly (crawl_guarded R T config fuel).
Proof.
  unfold crawl_guarded, crawl_body, log.
  kexcept; [|intros e].
  - kbind; [apply crawl_setup_quiet|intros index].
    apply traverse_quiet.
  - frame_with (grows_by_accepts (fun ev => negb (is_logout ev))).
Qed.

(** C8. With fuel for the loop, [crawl] always returns, and whatever path
    the guarded part took -- normal end, a failed login or newest-index
    lookup, an exception from the traversal -- the session close is called
    exactly once, after it; a failing close is logged and not raised, and
    the outcome of [crawl] is the outcome of the guarded part. *)
Theorem crawl_closes_session_once (s : state) :
  exists fuel0 : nat, forall fuel : nat, (fuel0 <= fuel)%nat ->
    let g := crawl_guarded R T config fuel s in
    let out := crawl R T config fuel s in
    out.1 <> OutOfFuel /\
    out.1 = g.1 /\
    g.1 = (crawl_body R T config fuel s).1 /\
    (exists evs, trace g.2 = trace s ++ evs /\ calls_to Logout evs = 0%nat) /\
    (exists evs, trace out.2 = trace s ++ evs /\ calls_to Logout evs = 1%nat) /\
    trace out.2
    = trace g.2 ++
      match logout_reply R (trace g.2) with
      | Return _ => [Called Logout None; Logged INFO MsgLoggedOut]
      | Throw e => [Called Logout (Some e); Logged ERROR (MsgLogoutFailed e)]
      end.
Proof.
  pose proof (crawl_setup_total s) as Hst.
  destruct (crawl_setup R T config s) as [r0 s0] eqn:Hsetup. simpl in Hst.
  exists (match r0 with Ok (VInt z) => Z.to_nat z | _ => 0%nat end).
  intros fuel Hfuel. cbv zeta.
  assert (Hbody : (crawl_body R T config fuel s).1 <> OutOfFuel).
  { unfold crawl_body, bind. rewrite Hsetup. destruct r0 as [index|e|]; [|done|done].
    apply traverse_total. by destruct index. }
  assert (Hg : (crawl_guarded R T config fuel s).1 = (crawl_body R T config fuel s).1).
  { unfold crawl_guarded, try_except.
    destruct (crawl_body R T config fuel s) as [[[]|e|] s1]; done. }
  destruct (crawl_guarded_quiet fuel s) as (evs & Htr & Hq).
  rewrite <- Hg in Hbody. unfold crawl, try_finally.
  destruct (crawl_guarded R T config fuel s) as [rg sg]. simpl in *.
  assert (Hcalls : calls_to Logout
            (evs ++ match logout_reply R (trace sg) with
                    | Return _ => [Called Logout None; Logged INFO MsgLoggedOut]
                    | Throw e => [Called Logout (Some e); Logged ERROR (MsgLogoutFailed e)]
                    end) = 1%nat).
  { rewrite calls_to_app, (no_logout_calls _ Hq).
    destruct (logout_reply R (trace sg)); by rewrite calls_to_cons. }
  destruct rg as [[]|e|]; [| |done]; rewrite close_session_runs; simpl.
  - split_and!; try done.
    + exists evs. split; [done|]. by apply no_logout_calls.
    + eexists. rewrite Htr, <- app_assoc. split; [reflexivity|by rewrite <- Htr].
  - split_and!; try done.
    + exists evs. split; [done|]. by apply no_logout_calls.
    + eexists. rewrite Htr, <- app_assoc. split; [reflexivity|by rewrite <- Htr].
Qed.

(** X19. The site of [save_daily_count] after the loop.  When the save of
    the last flush fails, the failure leaves [crawl]: the run ends raising it;
    after the failed save come only the error log line and the session
    close -- one logout and its log line -- so no post is fetched; the row
    stays in the sheet and the file is left as the failed save left it. *)
Theorem final_flush_failure_aborts
    (fuel : nat) (s s0 s2 : state) (index : pyval) (cur : date) (c : Z) (e : exn) :
  crawl_setup R T config s = (Ok index, s0) ->
  walk_down R T config fuel index s0 = (Ok tt, s2) ->
  current_date s2 = Some cur ->
  daily_count s2 !! cur = Some c ->
  save_reply R (trace s2) (file_name config)
    (sheet s2 ++ [tally_row T cur c (current_index s2 + 1)]) = Throw e ->
  exists s',
    crawl R T config fuel s = (Raise e, s') /\
    sheet s' = sheet s2 ++ [tally_row T cur c (current_index s2 + 1)] /\
    disk s'
    = save_leaves R (trace s2) (file_name config)
        (sheet s2 ++ [tally_row T cur c (current_index s2 + 1)]) (disk s2) /\
    trace s'
    = trace s2
      ++ [Called (save_call (sheet s2 ++ [tally_row T cur c (current_index s2 + 1)])) (Some e);
          Logged ERROR (MsgCrawlFailed e)]
      ++ match logout_reply R
                 (trace s2
                  ++ [Called (save_call
                                (sheet s2 ++ [tally_row T cur c (current_index s2 + 1)]))
                             (Some e);
                      Logged ERROR (MsgCrawlFailed e)]) with
         | Return _ => [Called Logout None; Logged INFO MsgLoggedOut]
         | Throw e' => [Called Logout (Some e'); Logged ERROR (MsgLogoutFailed e')]
         end.
Proof.
  intros Hsetup Hwalk Hcd Hdc Hsave.
  assert (Hbody : crawl_body R T config fuel s
                  = (Raise e, unflushed R T config cur c (current_index s2 + 1) e s2)).
  { unfold crawl_body, bind. rewrite Hsetup. unfold traverse, bind. rewrite Hwalk.
    by rewrite (final_flush_fail R T config cur c e s2). }
  unfold crawl, try_finally, crawl_guarded, try_except. rewrite Hbody.
  unfold bind, log, emit, modify, raise. simpl. rewrite close_session_runs.
  eexists. split; [reflexivity|]. simpl. split; [done|]. split; [done|].
  rewrite <- !app_assoc. simpl. reflexivity.
Qed.

(** With a turn to retry in, fetching begins with the call for the post at
    the current index. *)
Lemma fetch_post_date_starts s :
  1 <= max_retries config ->
  exists o evs,
    trace (fetch_post_date R T config s).2
    = trace s ++ Called (GetPost (board_name config) (current_index s)) o :: evs.
Proof.
  intros Hm. unfold fetch_post_date, retry_operation, ptt_get_post. unfold bind at 1, gets.
  destruct (Z.to_nat (max_retries config)) as [|n] eqn:Hn; [lia|].
  destruct (retry_loop_starts config (GetPost (board_name config) (current_index s))
              (fun h => post_reply R h (board_name config) (current_index s))
              n 0 s ltac:(lia)) as (o & evs & Hst).
  exists o, evs. unfold bind at 1.
  destruct (retry_loop config _ (S n) 0 s) as [[[p|]|e|] s1]; simpl in Hst; subst s1;
    try done.
  unfold bind, ret, strptime, raise.
  destruct (post_get_date p) as [|str| |]; simpl; try done.
  by destruct (strptime_post T str).
Qed.

Lemma iteration_starts s :
  1 <= max_retries config ->
  exists o evs,
    trace (iteration R T config s).2
    = trace s ++ Called (GetPost (board_name config) (current_index s)) o :: evs.
Proof.
  intros Hm. destruct (fetch_post_date_starts s Hm) as (o & evs & Hf). exists o.
  assert (Ht : forall d, keeps quietly (tally_post R T config d)).
  { intros d. unfold tally_post, save_daily_count, workbook_save, sheet_append,
      dict_getitem, log.
    frame_with (grows_by_accepts (fun ev => negb (is_logout ev))). }
  unfold iteration, process_index, bind, try_except.
  destruct (fetch_post_date R T config s) as [[d|e|] s1]; simpl in Hf.
  - destruct (Ht d s1) as (evs2 & Ht2 & _).
    destruct (tally_post R T config d s1) as [[[]|e|] s2]; simpl in *.
    + exists (evs ++ evs2). by rewrite Ht2, Hf, <- app_assoc.
    + unfold gets, log, emit, modify. simpl.
      exists (evs ++ evs2 ++ [Logged ERROR (MsgIndexFailed (current_index s2) e)]).
      by rewrite Ht2, Hf, <- !app_assoc.
    + exists (evs ++ evs2). by rewrite Ht2, Hf, <- app_assoc.
  - unfold gets, log, emit, modify. simpl.
    exists (evs ++ [Logged ERROR (MsgIndexFailed (current_index s1) e)]).
    by rewrite Hf, <- app_assoc.
  - by exists evs.
Qed.

(** C2.  The site of [save_daily_count] inside the loop does not do what
    the claim says.  At a day boundary -- the post fetched at the current
    index has a date [d'] other than the active day [d] -- a save that fails
    raises inside the [try] of the loop body, and the handler meant for a
    failed fetch catches it: the turn ends normally with the failure logged
    as a failure of the index; the row is in the sheet but the old day is
    still active with its count, so the post just fetched is not counted;
    the loop goes on, and what follows the error line is the fetch of the
    next index. *)
Theorem boundary_save_failure_is_swallowed
    (fuel : nat) (s s1 : state) (d' d : date) (c : Z) (e : exn) :
  1 <= max_retries config ->
  1 < current_index s ->
  fetch_post_date R T config s = (Ok d', s1) ->
  current_date s = Some d ->
  d' <> d ->
  daily_count s !! d = Some c ->
  save_reply R (trace s1) (file_name config)
    (sheet s ++ [tally_row T d c (current_index s + 1)]) = Throw e ->
  exists s',
    iteration R T config s = (Ok tt, s') /\
    trace s'
    = trace s1
      ++ [Called (save_call (sheet s ++ [tally_row T d c (current_index s + 1)])) (Some e);
          Logged ERROR (MsgIndexFailed (current_index s) e)] /\
    current_date s' = Some d /\
    daily_count s' = daily_count s /\
    current_index s' = current_index s - 1 /\
    sheet s' = sheet s ++ [tally_row T d c (current_index s + 1)] /\
    while_loop R T config (S fuel) s = while_loop R T config fuel s' /\
    exists o evs,
      trace (while_loop R T config (S (S fuel)) s).2
      = trace s' ++ Called (GetPost (board_name config) (current_index s - 1)) o :: evs.
Proof.
  intros Hm Hci Hf Hcd Hne Hdc Hs.
  pose proof (fetch_post_date_only_trace R T config s) as Hot.
  rewrite Hf in Hot. simpl in Hot.
  assert (Hcd1 : current_date s1 = Some d) by (by rewrite Hot).
  assert (Hdc1 : daily_count s1 !! d = Some c) by (by rewrite Hot).
  assert (Hsh1 : sheet s1 = sheet s) by (by rewrite Hot).
  assert (Hci1 : current_index s1 = current_index s) by (by rewrite Hot).
  rewrite <- Hsh1, <- Hci1 in Hs.
  assert (Hit : exists s',
            iteration R T config s = (Ok tt, s') /\
            trace s'
            = trace s1
              ++ [Called (save_call (sheet s ++ [tally_row T d c (current_index s + 1)]))
                         (Some e);
                  Logged ERROR (MsgIndexFailed (current_index s) e)] /\
            current_date s' = Some d /\
            daily_count s' = daily_count s /\
            current_index s' = current_index s - 1 /\
            sheet s' = sheet s ++ [tally_row T d c (current_index s + 1)]).
  { unfold iteration, process_index, bind, try_except. rewrite Hf.
    rewrite (tally_post_change_fail R T config d' d c e s1) by done.
    eexists. split; [reflexivity|]. simpl.
    rewrite Hcd1, Hsh1, Hci1, <- app_assoc. split_and!; try done.
    by rewrite Hot. }
  destruct Hit as (s' & Hit & Htr & Hcd' & Hdc' & Hci' & Hsh').
  exists s'. split_and!; try done.
  - simpl. assert ((current_index s >? 0) = true) as -> by lia.
    unfold bind. by rewrite Hit.
  - assert (Hstep : while_loop R T config (S (S fuel)) s = while_loop R T config (S fuel) s').
    { simpl. assert ((current_index s >? 0) = true) as -> by lia.
      unfold bind. by rewrite Hit. }
    rewrite Hstep. simpl. assert ((current_index s' >? 0) = true) as -> by lia.
    destruct (iteration_starts s' Hm) as (o & evs & Hstart). rewrite Hci' in Hstart.
    pose proof (while_loop_keeps quietly fuel iteration_quiet) as Hrest.
    unfold bind.
    destruct (iteration R T config s') as [[[]|e'|] s3]; simpl in Hstart.
    + destruct (Hrest s3) as (evs3 & Htr3 & _).
      exists o, (evs ++ evs3). by rewrite Htr3, Hstart, <- app_assoc.
    + by exists o, evs.
    + by exists o, evs.
Qed.

End Session.

(** ** The resumption cursor *)

Lemma last_map_some {A B} (f : A -> B) (l : list A) (x : A) :
  last l = Some x -> last (map f l) = Some (f x).
Proof.
  induction l as [|a [|b l] IH]; simpl; intros H; [done|by inversion H|].
  by apply IH.
Qed.

Section Progress.
Variable R : remote.
Variable T : datetime.
Variable config : CrawlerConfig.

Lemma scan_rows_collects rows : forall dates s,
  Forall (fun r : row => (3 <= length r)%nat) rows ->
  scan_rows rows dates s = (Ok (dates ++ map cells (List.filter valid_row rows)), s).
Proof.
  induction rows as [|r rows IH]; intros dates s Hall.
  - simpl. by rewrite app_nil_r.
  - apply Forall_cons in Hall as [Hr Hall].
    destruct r as [|c0 [|c1 [|c2 r]]]; simpl in Hr; try lia.
    simpl scan_rows. unfold bind, getitem. simpl.
    unfold valid_row. simpl.
    destruct (truthy c0); simpl; [|by apply IH].
    destruct (truthy c2); simpl; [|by apply IH].
    rewrite IH by done. by rewrite <- app_assoc.
Qed.

Lemma load_progress_resumes (s : state) table r str d e :
  disk s = Some (Workbook table) ->
  Forall (fun r : row => (3 <= length r)%nat) (drop 1 table) ->
  last (List.filter valid_row (drop 1 table)) = Some r ->
  r !! 0%nat = Some (VStr str) ->
  strptime_ymd T str = Some d ->
  r !! 2%nat = Some (VInt e) ->
  exists s',
    load_progress R T config s = (Ok tt, s') /\
    start_date s' = VDate d /\ start_index s' = VInt (e - 1) /\
    sheet s' = table /\ disk s' = Some (Workbook table).
Proof.
  intros Hd Hall Hlast H0 Hparse H2.
  unfold load_progress. unfold bind at 1, gets. rewrite Hd.
  unfold bind at 1, modify. unfold bind at 1.
  rewrite scan_rows_collects by done. rewrite app_nil_l.
  rewrite (last_map_some cells _ r Hlast). unfold cells. rewrite H0, H2. simpl.
  unfold bind, modify, strptime, minus_one, log, emit, ret. simpl. rewrite Hparse.
  eexists. split; [reflexivity|]. done.
Qed.

(** After a successful [load_progress] the sheet in memory is the table on
    disk. *)
Lemma load_progress_syncs (s s' : state) :
  load_progress R T config s = (Ok tt, s') -> disk s' = Some (Workbook (sheet s')).
Proof.
  unfold load_progress. unfold bind at 1, gets.
  destruct (disk s) as [[rows|]|] eqn:Hd; [|done|].
  - unfold bind at 1, modify. unfold bind at 1.
    destruct (scan_rows_pure (drop 1 rows) [] (set_sheet rows s)) as [Hp _].
    destruct (scan_rows (drop 1 rows) [] (set_sheet rows s)) as [[dates| |] s1];
      simpl in Hp; subst s1; try done.
    destruct (last dates) as [[c0 c2]|].
    + unfold bind, modify, strptime, minus_one, log, emit, ret, raise. simpl.
      destruct c0 as [|str| |]; try done.
      destruct (strptime_ymd T str); try done.
      destruct c2; try done.
      intros [= <-]. simpl. by rewrite Hd.
    + unfold bind, modify. simpl. intros [= <-]. simpl. by rewrite Hd.
  - unfold workbook_save, sheet_append, try_except, bind, gets, modify, invoke. simpl.
    destruct (save_reply R (trace s) (file_name config) [header]); [|done].
    by intros [= <-].
Qed.

(** C6. Without a table, [load_progress] creates one holding the header
    row only and leaves the cursor empty.  With a table, the cursor comes
    from the last data row that has a date and an index: the resume date is
    that row's date and the resume index is its earliest index minus one. *)
Theorem load_progress_cursor (s : state) :
  (disk s = None ->
   start_date s = VNone -> start_index s = VNone ->
   save_reply R (trace s) (file_name config) [header] = Return tt ->
   exists s',
     load_progress R T config s = (Ok tt, s') /\
     disk s' = Some (Workbook [header]) /\ sheet s' = [header] /\
     start_date s' = VNone /\ start_index s' = VNone) /\
  (forall table r str d e,
     disk s = Some (Workbook table) ->
     Forall (fun r : row => (3 <= length r)%nat) (drop 1 table) ->
     last (List.filter valid_row (drop 1 table)) = Some r ->
     r !! 0%nat = Some (VStr str) ->
     strptime_ymd T str = Some d ->
     r !! 2%nat = Some (VInt e) ->
     exists s',
       load_progress R T config s = (Ok tt, s') /\
       start_date s' = VDate d /\ start_index s' = VInt (e - 1) /\
       sheet s' = table /\ disk s' = Some (Workbook table)).
Proof.
  split.
  - intros Hd Hsd Hsi Hsave.
    destruct (load_progress_fresh R T config s Hd Hsave) as (s' & Hl & Hsh & Hdk & Hsd' & Hsi').
    exists s'. rewrite Hsd', Hsi'. done.
  - apply load_progress_resumes.
Qed.

(** C3, at the input where the code leaves the claim.  A table whose last
    row has the earliest index 1 gives the cursor the resume index 0, and
    [self.start_index or latest_index] then takes the newest index: the
    traversal starts from the newest post again. *)
Theorem resume_index_zero_is_ignored (s : state) table r str d latest :
  1 <= max_retries config ->
  disk s = Some (Workbook table) ->
  Forall (fun r : row => (3 <= length r)%nat) (drop 1 table) ->
  last (List.filter valid_row (drop 1 table)) = Some r ->
  r !! 0%nat = Some (VStr str) ->
  strptime_ymd T str = Some d ->
  r !! 2%nat = Some (VInt 1) ->
  (forall h, login_reply R h (ptt_id config) (ptt_pwd config) = Return tt) ->
  (forall h, newest_reply R h (board_name config) = Return latest) ->
  exists s0,
    crawl_setup R T config s = (Ok (VInt latest), s0) /\
    start_index s0 = VInt 0.
Proof.
  intros Hm Hd Hall Hlast H0 Hparse H2 Hlogin Hnewest.
  destruct (load_progress_resumes s table r str d 1 Hd Hall Hlast H0 Hparse H2)
    as (s1 & Hload & _ & Hsi & _).
  unfold crawl_setup. unfold bind at 1. rewrite Hload.
  unfold ptt_login. unfold bind at 1.
  rewrite (retry_operation_first_try config _ _ s1 tt Hm (Hlogin _)).
  unfold bind at 1, log, emit, modify.
  unfold ptt_get_newest_index. unfold bind at 1.
  rewrite (retry_operation_first_try config _ _ _ latest Hm (Hnewest _)).
  unfold bind, gets, ret. simpl. rewrite Hsi. simpl.
  eexists. split; [reflexivity|]. done.
Qed.

End Progress.

(** ** The theorems at work on the paper board *)

Lemma fresh_crawl_writes_histogram_witness :
  exists s' ts,
    crawl (paper_board three_posts never never) (paper_datetime january)
          (paper_config 3 5) 3 (init_state None) = (Ok tt, s') /\
    disk s' = Some (Workbook (header :: map (row_of (paper_datetime january)) ts)) /\
    NoDup (ts.*1.*1) /\
    (forall d, d ∈ ts.*1.*1 <-> d ∈ three_posts) /\
    Forall (histogram_row three_posts) ts.
Proof.
  apply (fresh_crawl_writes_histogram (paper_board three_posts never never)
           (paper_datetime january) (paper_config 3 5) three_posts 3).
  - simpl. lia.
  - simpl. lia.
  - intros i j di dj Hi Hj Hij.
    destruct i as [|[|[|i]]]; destruct j as [|[|[|j]]]; simpl in Hi, Hj;
      first [discriminate | lia | (inversion Hi; inversion Hj; reflexivity)].
  - intros h. reflexivity.
  - intros h. reflexivity.
  - intros h i d Hi.
    destruct i as [|[|[|i]]]; simpl in Hi; first [discriminate | inversion Hi];
      eexists; (split; [reflexivity|reflexivity]).
  - intros h p rows. reflexivity.
Defined.

Lemma unreachable_post_undercounts_its_day_witness :
  exists s_all s_but rows_all rows_but,
    traverse (paper_board three_posts never never) (paper_datetime january)
             (paper_config 3 5) 3 (VInt 3) loaded = (Ok tt, s_all) /\
    traverse (paper_board three_posts (Z.eqb 2) never) (paper_datetime january)
             (paper_config 3 5) 3 (VInt 3) loaded = (Ok tt, s_but) /\
    disk s_all = Some (Workbook rows_all) /\
    disk s_but = Some (Workbook rows_but) /\
    persisted_count (iso jan1) rows_but = persisted_count (iso jan1) rows_all - 1.
Proof.
  refine (proj2 (unreachable_post_undercounts_its_day
           (paper_board three_posts never never)
           (paper_board three_posts (Z.eqb 2) never)
           (paper_datetime january) (paper_config 3 5)
           (fun i => default jan1 (three_posts !! Z.to_nat (i - 1)))
           2 3 loaded 3 _ _ _ _ _ _ _ _ _)).
  - simpl. lia.
  - lia.
  - simpl. lia.
  - reflexivity.
  - intros h p rows. reflexivity.
  - intros h p rows. reflexivity.
  - intros h i Hi. assert (i = 1 \/ i = 2 \/ i = 3) as [->|[->| ->]] by lia;
      eexists; (split; [reflexivity|reflexivity]).
  - intros h i Hi Hne. assert (i = 1 \/ i = 3) as [->| ->] by lia;
      eexists; (split; [reflexivity|reflexivity]).
  - intros h. eexists. reflexivity.
Defined.

Lemma retry_operation_attempts_witness :
  1 <= max_retries (paper_config 3 0) /\
  (retry_operation (paper_config 3 0) (invoke flaky_call flaky) (init_state None)).1
  = Ok (Some 42).
Proof.
  assert (H1 : 1 <= max_retries (paper_config 3 0)) by (simpl; lia).
  split; [exact H1|].
  destruct (retry_operation_attempts (paper_config 3 0) flaky_call flaky (init_state None) H1)
    as (evs & _ & _ & _ & _ & _ & Hflaky).
  refine (proj1 (Hflaky eq_refl eq_refl 42 _ _)).
  - intros h Hh. exists (Failure "timeout"). unfold flaky.
    destruct (calls_to flaky_call h <? 2)%nat eqn:Hlt; [reflexivity|].
    apply Nat.ltb_ge in Hlt. simpl in Hh. lia.
  - intros h Hh. unfold flaky. rewrite Hh. reflexivity.
Defined.

Lemma traversal_without_posts_witness :
  exists s' evs,
    traverse (paper_board three_posts (fun _ => true) never) (paper_datetime january)
             (paper_config 3 5) 3 (VInt 3) loaded = (Ok tt, s') /\
    current_index s' = 0 /\
    current_date s' = None /\
    sheet s' = [header] /\
    disk s' = Some (Workbook [header]) /\
    trace s' = evs /\
    forallb (fun ev => negb (is_save ev)) evs = true.
Proof.
  destruct (traversal_without_posts (paper_board three_posts (fun _ => true) never)
              (paper_datetime january) (paper_config 3 5) loaded 3 3)
    as (s' & evs & H1 & H2 & H3 & H4 & H5 & H6 & H7 & _).
  - intros h i. eexists. reflexivity.
  - lia.
  - simpl. lia.
  - exists s', evs. split_and!; done.
Defined.

Lemma day_boundary_flush_witness :
  current_date midway = Some jan2 /\
  daily_count midway !! jan2 = Some 1 /\
  sheet (iteration (paper_board three_posts never never) (paper_datetime january)
                   (paper_config 3 5) midway).2
  = [header; [VStr "2024-1-2"; VInt 1; VInt 3]].
Proof.
  assert (Hcd : current_date midway = Some jan2) by reflexivity.
  assert (Hdc : daily_count midway !! jan2 = Some 1) by (vm_compute; reflexivity).
  split; [exact Hcd|]. split; [exact Hdc|].
  refine (proj1 (proj1 (day_boundary_flush (paper_board three_posts never never)
            (paper_datetime january) (paper_config 3 5) midway
            (set_trace [Called (GetPost "Stock" 2) None] midway) jan1 jan2 1
            _ Hcd _ Hdc))).
  - vm_compute. reflexivity.
  - discriminate.
Defined.

Lemma crawl_closes_session_once_witness :
  exists fuel0 : nat,
    (crawl (paper_board three_posts never never) (paper_datetime january)
           (paper_config 3 5) fuel0 (init_state None)).1 <> OutOfFuel /\
    exists evs,
      trace (crawl (paper_board three_posts never never) (paper_datetime january)
                   (paper_config 3 5) fuel0 (init_state None)).2 = evs /\
      calls_to Logout evs = 1%nat.
Proof.
  destruct (crawl_closes_session_once (paper_board three_posts never never)
              (paper_datetime january) (paper_config 3 5) (init_state None))
    as [fuel0 H].
  exists fuel0. destruct (H fuel0 (le_n fuel0)) as (H1 & _ & _ & _ & (evs & H5 & H6) & _).
  split; [exact H1|]. exists evs. split; [exact H5|exact H6].
Defined.

Lemma boundary_save_failure_is_swallowed_witness :
  exists s',
    iteration (paper_board three_posts never (Nat.eqb 0)) (paper_datetime january)
              (paper_config 3 5) midway = (Ok tt, s') /\
    current_date s' = Some jan2 /\
    daily_count s' = daily_count midway /\
    current_index s' = current_index midway - 1 /\
    sheet s' = sheet midway ++ [[VStr "2024-1-2"; VInt 1; VInt 3]] /\
    exists o evs,
      trace (while_loop (paper_board three_posts never (Nat.eqb 0)) (paper_datetime january)
                        (paper_config 3 5) 2 midway).2
      = trace s' ++ Called (GetPost "Stock" 1) o :: evs.
Proof.
  pose (R := paper_board three_posts never (Nat.eqb 0)).
  pose (T := paper_datetime january).
  pose (cfg := paper_config 3 5).
  destruct (boundary_save_failure_is_swallowed R T cfg 0 midway
              (fetch_post_date R T cfg midway).2 jan1 jan2 1 (Failure "disk full"))
    as (s' & H1 & _ & H3 & H4 & H5 & H6 & _ & H8).
  - simpl. lia.
  - simpl. lia.
  - vm_compute. reflexivity.
  - reflexivity.
  - discriminate.
  - vm_compute. reflexivity.
  - vm_compute. reflexivity.
  - exists s'. split_and!; [exact H1|exact H3|exact H4|exact H5|exact H6|exact H8].
Defined.

(** The run as a whole: three posts, the first two of one day; the save of
    the first finished day fails at the day boundary.  The run ends
    normally; the file has two rows for the day whose save failed and
    counts one post, not two, for the other day. *)
Example boundary_append_failure_goes_on :
  let out := crawl (paper_board three_posts never (Nat.eqb 1)) (paper_datetime january)
                   (paper_config 3 5) 3 (init_state None) in
  out.1 = Ok tt /\
  fetch_after_failed_save (trace out.2) = true /\
  disk out.2
  = Some (Workbook [header;
                    [VStr "2024-1-2"; VInt 1; VInt 3];
                    [VStr "2024-1-2"; VInt 1; VInt 2];
                    [VStr "2024-1-1"; VInt 1; VInt 1]]).
Proof. vm_compute. split_and!; reflexivity. Qed.

Lemma load_progress_cursor_witness :
  (exists s',
     load_progress (paper_board three_posts never never) (paper_datetime january)
                   (paper_config 3 5) (init_state None) = (Ok tt, s') /\
     disk s' = Some (Workbook [header]) /\ sheet s' = [header] /\
     start_date s' = VNone /\ start_index s' = VNone) /\
  (exists s',
     load_progress (paper_board three_posts never never) (paper_datetime january)
                   (paper_config 3 5) (init_state (Some finished_table)) = (Ok tt, s') /\
     start_date s' = VDate jan1 /\ start_index s' = VInt (1 - 1) /\
     sheet s' = finished_table /\ disk s' = Some (Workbook finished_table)).
Proof.
  split.
  - apply (proj1 (load_progress_cursor (paper_board three_posts never never)
                    (paper_datetime january) (paper_config 3 5) (init_state None)));
      reflexivity.
  - apply (proj2 (load_progress_cursor (paper_board three_posts never never)
                    (paper_datetime january) (paper_config 3 5)
                    (init_state (Some finished_table)))
             finished_table [VStr "2024-1-1"; VInt 2; VInt 1] "2024-1-1" jan1 1).
    + reflexivity.
    + repeat constructor; simpl; lia.
    + reflexivity.
    + reflexivity.
    + reflexivity.
    + reflexivity.
Defined.

Lemma resume_index_zero_is_ignored_witness :
  exists s0,
    crawl_setup (paper_board three_posts never never) (paper_datetime january)
                (paper_config 3 5) (init_state (Some finished_table))
    = (Ok (VInt 3), s0) /\
    start_index s0 = VInt 0.
Proof.
  apply (resume_index_zero_is_ignored (paper_board three_posts never never)
           (paper_datetime january) (paper_config 3 5)
           (init_state (Some finished_table)) finished_table
           [VStr "2024-1-1"; VInt 2; VInt 1] "2024-1-1" jan1 3).
  - simpl. lia.
  - reflexivity.
  - repeat constructor; simpl; lia.
  - reflexivity.
  - reflexivity.
  - reflexivity.
  - reflexivity.
  - intros h. reflexivity.
  - intros h. reflexivity.
Defined.

(** The run that follows: the finished table gets the same days again. *)
Example crawl_after_finished_run_starts_over :
  let out := crawl (paper_board three_posts never never) (paper_datetime january)
                   (paper_config 3 5) 3 (init_state (Some finished_table)) in
  out.1 = Ok tt /\
  start_index out.2 = VInt 0 /\
  calls_to (GetPost "Stock" 3) (trace out.2) = 1%nat /\
  disk out.2 = Some (Workbook (finished_table ++ drop 1 finished_table)).
Proof. vm_compute. split_and!; reflexivity. Qed.

(** * Further facts

    ** The retry loop *)

Section RetryShape.
Variable config : CrawlerConfig.
Context {A : Type} (c : call) (answer : list event -> reply A).

Lemma retry_loop_shape n : forall attempt s,
  attempt + Z.of_nat n = max_retries config ->
  0 <= retry_delay config ->
  (1 <= n)%nat ->
  exists es o,
    (retry_loop config (invoke c answer) n attempt s).2
    = set_trace (trace s ++ concat (map (retry_events config c) es) ++ [Called c o]) s /\
    (length es < n)%nat /\
    (forall (j : nat) e, es !! j = Some e ->
       answer (trace s ++ concat (map (retry_events config c) (take j es))) = Throw e) /\
    match o with
    | None =>
        exists a,
          answer (trace s ++ concat (map (retry_events config c) es)) = Return a /\
          (retry_loop config (invoke c answer) n attempt s).1 = Ok (Some a)
    | Some e =>
        answer (trace s ++ concat (map (retry_events config c) es)) = Throw e /\
        (retry_loop config (invoke c answer) n attempt s).1 = Raise e /\
        length es = (n - 1)%nat
    end.
Proof.
  induction n as [|n IH]; intros attempt s Hm Hd Hn; [lia|].
  destruct (answer (trace s)) as [a|e] eqn:Ha.
  { rewrite (retry_loop_return config c answer _ _ _ _ Ha). simpl.
    exists [], None. simpl. rewrite app_nil_r. split; [done|]. split; [lia|].
    split; [done|]. by exists a. }
  destruct (decide (attempt = max_retries config - 1)) as [Hl|Hl].
  { rewrite (retry_loop_give_up config c answer _ _ _ _ Ha Hl). simpl.
    exists [], (Some e). simpl. rewrite app_nil_r. split; [done|]. split; [lia|].
    split; [done|]. split; [done|]. split; [done|lia]. }
  rewrite (retry_loop_again config c answer _ _ _ _ Ha Hl Hd).
  set (s1 := set_trace _ s).
  destruct (IH (attempt + 1) s1) as (es & o & Hst & Hlen & Hes & Hr); [lia|done|lia|].
  assert (Htr : forall l, trace s1 ++ l = trace s ++ retry_events config c e ++ l).
  { intros l. subst s1. simpl. by rewrite <- app_assoc. }
  exists (e :: es), o. rewrite Hst. split.
  { subst s1. simpl. by rewrite <- !app_assoc. }
  split; [simpl; lia|]. split.
  { intros [|j] e' He'; simpl in He'.
    - injection He' as <-. simpl. by rewrite app_nil_r.
    - cbn [firstn map concat]. rewrite <- Htr. by apply Hes. }
  destruct o as [e'|].
  - destruct Hr as (Ha' & Hr & Hl'). cbn [map concat]. rewrite <- Htr.
    split; [done|]. split; [done|]. simpl. lia.
  - destruct Hr as (a & Ha' & Hr). exists a. cbn [map concat]. by rewrite <- Htr.
Qed.

(** X1. With [max_retries >= 1] and [retry_delay >= 0], what
    [retry_operation] does is: for every failed attempt but the last made,
    the call, one warning carrying the exception the call threw and one
    sleep of [retry_delay]; then one last call.  Fewer than [max_retries]
    attempts are slept on, and nothing is logged or slept after the last
    call.  When the last call returned, the value it returned is the result;
    when it failed, the exception it threw is raised and exactly
    [max_retries - 1] sleeps were made. *)
Theorem retry_operation_shape (s : state) :
  1 <= max_retries config ->
  0 <= retry_delay config ->
  exists es o,
    (retry_operation config (invoke c answer) s).2
    = set_trace (trace s ++ concat (map (retry_events config c) es) ++ [Called c o]) s /\
    Z.of_nat (length es) < max_retries config /\
    (forall (j : nat) e, es !! j = Some e ->
       answer (trace s ++ concat (map (retry_events config c) (take j es))) = Throw e) /\
    match o with
    | None =>
        exists a,
          answer (trace s ++ concat (map (retry_events config c) es)) = Return a /\
          (retry_operation config (invoke c answer) s).1 = Ok (Some a)
    | Some e =>
        answer (trace s ++ concat (map (retry_events config c) es)) = Throw e /\
        (retry_operation config (invoke c answer) s).1 = Raise e /\
        Z.of_nat (length es) = max_retries config - 1
    end.
Proof.
  intros Hm Hd. unfold retry_operation.
  destruct (retry_loop_shape (Z.to_nat (max_retries config)) 0 s)
    as (es & o & Hst & Hlen & Hes & Hr); [lia|done|lia|].
  exists es, o. split; [done|]. split; [lia|]. split; [done|].
  destruct o as [e|]; [|done]. destruct Hr as (Ha & Hr & Hl).
  split; [done|]. split; [done|lia].
Qed.

(** X2. An operation that fails [k] times and then succeeds, with
    [k < max_retries] and [retry_delay >= 0], is invoked exactly [k + 1]
    times by [retry_operation], which sleeps [k] times and returns the
    value of the successful call. *)
Theorem retry_operation_after_failures (k : nat) (s : state) (v : A) :
  Z.of_nat k < max_retries config ->
  0 <= retry_delay config ->
  (forall h, (calls_to c h < calls_to c (trace s) + k)%nat -> exists e, answer h = Throw e) ->
  (forall h, calls_to c h = (calls_to c (trace s) + k)%nat -> answer h = Return v) ->
  exists evs,
    retry_operation config (invoke c answer) s
    = (Ok (Some v), set_trace (trace s ++ evs) s) /\
    calls_to c evs = S k /\
    length (List.filter is_sleep evs) = k.
Proof.
  intros Hk Hd Hfail Hok. unfold retry_operation.
  destruct (retry_loop_after_failures config c answer k (Z.to_nat (max_retries config)) 0 s v)
    as (evs & Hr & Hc & _ & Hs); try done; try lia.
  by exists evs.
Qed.

End RetryShape.

Section BadDelay.
Variable config : CrawlerConfig.
Context {A : Type} (c : call) (answer : list event -> reply A).

(** X3. A negative [retry_delay] turns the first failure into a
    [ValueError]: when another attempt is due, the warning is logged,
    [time.sleep] refuses the negative length, and [retry_operation] raises
    that [ValueError] in place of the operation's own exception, without
    a second attempt. *)
Theorem retry_operation_negative_delay (s : state) (e : exn) :
  2 <= max_retries config ->
  retry_delay config < 0 ->
  answer (trace s) = Throw e ->
  retry_operation config (invoke c answer) s
  = (Raise ValueError,
     set_trace (trace s ++ [Called c (Some e);
                            Logged WARNING (MsgRetry (retry_delay config) e)]) s).
Proof.
  intros Hm Hd Ha. unfold retry_operation.
  destruct (Z.to_nat (max_retries config)) as [|n] eqn:Hn; [lia|].
  apply retry_loop_bad_delay; [done|lia|done].
Qed.

End BadDelay.

(** ** Reading the table *)

Section Reading.
Variable R : remote.
Variable T : datetime.
Variable config : CrawlerConfig.

(** X4. When the table exists, [load_progress] only reads it: whatever the
    rows hold and whether it returns or raises, the file is left as it was,
    the sheet is the table, no call is made to the outside, and the history
    gains at most the one line that reports the resume point. *)
Theorem load_progress_reads_only (s : state) (table : list row) :
  disk s = Some (Workbook table) ->
  disk (load_progress R T config s).2 = Some (Workbook table) /\
  sheet (load_progress R T config s).2 = table /\
  (trace (load_progress R T config s).2 = trace s \/
   exists d i,
     (load_progress R T config s).1 = Ok tt /\
     trace (load_progress R T config s).2 = trace s ++ [Logged INFO (MsgResume d i)]).
Proof.
  intros Hd. destruct (load_progress R T config s) as [r s'] eqn:Hlp. revert Hlp.
  unfold load_progress. unfold bind at 1, gets. rewrite Hd.
  unfold bind at 1, modify. unfold bind at 1.
  destruct (scan_rows_pure (drop 1 table) [] (set_sheet table s)) as [Hp _].
  destruct (scan_rows (drop 1 table) [] (set_sheet table s)) as [[dates|e|] s1];
    simpl in Hp; subst s1;
    try (intros [= <- <-]; simpl; split_and!; [done|done|by left]).
  destruct (last dates) as [[c0 c2]|].
  - unfold bind, modify, strptime, minus_one, log, emit, ret, raise. simpl.
    destruct c0 as [|str| |];
      try (intros [= <- <-]; simpl; split_and!; [done|done|by left]).
    destruct (strptime_ymd T str) as [d|];
      try (intros [= <- <-]; simpl; split_and!; [done|done|by left]).
    destruct c2 as [| |z|];
      try (intros [= <- <-]; simpl; split_and!; [done|done|by left]).
    intros [= <- <-]. simpl. split_and!; [done|done|].
    right. by exists d, (VInt (z - 1)).
  - unfold bind, modify. simpl. intros [= <- <-]. simpl. split_and!; [done|done|by left].
Qed.

Lemma load_progress_scanned (s : state) (table : list row) :
  disk s = Some (Workbook table) ->
  Forall (fun r : row => (3 <= length r)%nat) (drop 1 table) ->
  load_progress R T config s
  = (match last (map cells (List.filter valid_row (drop 1 table))) with
     | Some (c0, c2) =>
         modify (set_start_date c0) ;;
         modify (set_start_index c2) ;;
         sd <- strptime (strptime_ymd T) c0 ;;
         modify (set_start_date (VDate sd)) ;;
         si <- minus_one c2 ;;
         modify (set_start_index si) ;;
         log INFO (MsgResume sd si)
     | None =>
         modify (set_start_date VNone) ;;
         modify (set_start_index VNone)
     end) (set_sheet table s).
Proof.
  intros Hd Hall. unfold load_progress. unfold bind at 1, gets. rewrite Hd.
  unfold bind at 1, modify. unfold bind at 1.
  rewrite scan_rows_collects by done. by rewrite app_nil_l.
Qed.

(** X5. A table without any data row that has both a date and an index
    gives no resume point: [load_progress] returns normally with
    [start_date] and [start_index] reset to [None], logs nothing and
    changes nothing else. *)
Theorem load_progress_without_valid_row (s : state) (table : list row) :
  disk s = Some (Workbook table) ->
  Forall (fun r : row => (3 <= length r)%nat) (drop 1 table) ->
  List.filter valid_row (drop 1 table) = [] ->
  load_progress R T config s
  = (Ok tt, set_start_index VNone (set_start_date VNone (set_sheet table s))).
Proof.
  intros Hd Hall Hnone. rewrite (load_progress_scanned s table Hd Hall), Hnone. reflexivity.
Qed.

(** X6. The cursor row is not checked before it is used.  When the last
    data row with a date and an index has a date cell that is not a string
    (a date typed into the sheet, a number), [load_progress] raises
    [TypeError]; when the string does not parse, [ValueError]; when the
    date is good and the index cell holds a string or a date, [TypeError]
    from [start_index -= 1]. *)
Theorem load_progress_bad_cursor_row (s : state) (table : list row) (r : row) :
  disk s = Some (Workbook table) ->
  Forall (fun r : row => (3 <= length r)%nat) (drop 1 table) ->
  last (List.filter valid_row (drop 1 table)) = Some r ->
  (forall v, r !! 0%nat = Some v -> (forall str, v <> VStr str) ->
     (load_progress R T config s).1 = Raise TypeError) /\
  (forall str, r !! 0%nat = Some (VStr str) -> strptime_ymd T str = None ->
     (load_progress R T config s).1 = Raise ValueError) /\
  (forall str d v,
     r !! 0%nat = Some (VStr str) -> strptime_ymd T str = Some d ->
     r !! 2%nat = Some v ->
     (exists text, v = VStr text) \/ (exists day, v = VDate day) ->
     (load_progress R T config s).1 = Raise TypeError).
Proof.
  intros Hd Hall Hlast.
  rewrite (load_progress_scanned s table Hd Hall), (last_map_some cells _ r Hlast).
  unfold cells. split_and!.
  - intros v H0 Hv. rewrite H0. simpl.
    unfold bind, modify, strptime, raise. simpl.
    destruct v as [|str| |]; try done. by destruct (Hv str).
  - intros str H0 Hp. rewrite H0. simpl.
    unfold bind, modify, strptime, raise. simpl. by rewrite Hp.
  - intros str d v H0 Hp H2 Hv. rewrite H0, H2. simpl.
    unfold bind, modify, strptime, minus_one, ret, raise. simpl. rewrite Hp. simpl.
    by destruct Hv as [[text ->]|[day ->]].
Qed.

(** X7. When [load_progress] raises, [crawl] raises the same exception:
    after it come only the error line and the session close, so no login,
    no newest-index lookup and no fetch is made, while logout is still
    called once, on a session that was never opened. *)
Theorem crawl_stops_at_unreadable_progress (fuel : nat) (s s1 : state) (e : exn) :
  load_progress R T config s = (Raise e, s1) ->
  exists s',
    crawl R T config fuel s = (Raise e, s') /\
    disk s' = disk s1 /\
    trace s'
    = trace s1 ++ Logged ERROR (MsgCrawlFailed e) ::
      match logout_reply R (trace s1 ++ [Logged ERROR (MsgCrawlFailed e)]) with
      | Return _ => [Called Logout None; Logged INFO MsgLoggedOut]
      | Throw e' => [Called Logout (Some e'); Logged ERROR (MsgLogoutFailed e')]
      end.
Proof.
  intros Hl.
  assert (Hbody : crawl_body R T config fuel s = (Raise e, s1)).
  { unfold crawl_body, crawl_setup. unfold bind at 1, bind at 1. by rewrite Hl. }
  unfold crawl, try_finally, crawl_guarded, try_except. rewrite Hbody.
  unfold bind, log, emit, modify, raise. simpl. rewrite close_session_runs.
  eexists. split; [reflexivity|]. simpl. split; [done|].
  by rewrite <- app_assoc.
Qed.

End Reading.

(** ** Which posts are fetched *)

Lemma grows_by_weaken (P Q : event -> bool) s s' :
  (forall ev, P ev = true -> Q ev = true) -> grows_by P s s' -> grows_by Q s s'.
Proof.
  intros HPQ (evs & Htr & HP). exists evs. split; [done|].
  clear Htr. induction evs as [|ev evs IH]; [done|]. simpl in *.
  apply andb_prop in HP as [H1 H2]. by rewrite (HPQ _ H1), IH.
Qed.

Lemma fetch_within_weaken lo hi lo' hi' ev :
  lo' <= lo -> hi <= hi' -> fetch_within lo hi ev = true -> fetch_within lo' hi' ev = true.
Proof.
  intros Hlo Hhi. destruct ev as [[] ?| |]; simpl; try done.
  rewrite !andb_true_iff, !Z.leb_le. lia.
Qed.

Section Fetches.
Variable R : remote.
Variable T : datetime.
Variable config : CrawlerConfig.

Lemma fetch_post_date_fetches_here s :
  grows_by (fetch_within (current_index s) (current_index s)) s
           (fetch_post_date R T config s).2.
Proof.
  set (i := current_index s).
  assert (Hk : keeps (grows_by (fetch_within i i))
                 (fetched <- retry_operation config (ptt_get_post R config i) ;;
                  post_date_str <- match fetched with
                                   | Some p => ret (post_get_date p)
                                   | None => raise AttributeError
                                   end ;;
                  strptime (strptime_post T) post_date_str)).
  { unfold retry_operation, ptt_get_post, strptime.
    kbind; [|intros ?].
    - apply (keeps_retry_loop _ _ (grows_by_accepts _)); [done|done|].
      apply (keeps_invoke _ _ (grows_by_accepts _)). intros o. simpl.
      by rewrite Z.leb_refl.
    - frame_with (grows_by_accepts (fetch_within i i)). }
  exact (Hk s).
Qed.

Lemma tally_post_fetches_nothing lo hi d :
  keeps (grows_by (fetch_within lo hi)) (tally_post R T config d).
Proof.
  unfold tally_post, save_daily_count, workbook_save, sheet_append, dict_getitem, log.
  frame_with (grows_by_accepts (fetch_within lo hi)).
Qed.

Lemma iteration_fetches_here s :
  grows_by (fetch_within (current_index s) (current_index s)) s
           (iteration R T config s).2.
Proof.
  set (i := current_index s).
  pose proof (fetch_post_date_fetches_here s) as Hf. fold i in Hf.
  unfold iteration, process_index, bind, try_except.
  destruct (fetch_post_date R T config s) as [[d|e|] s1]; simpl in Hf.
  - pose proof (tally_post_fetches_nothing i i d s1) as Ht.
    destruct (tally_post R T config d s1) as [[[]|e|] s2]; simpl in *.
    + etrans; [exact Hf|]. etrans; [exact Ht|]. by apply grows_by_same_trace.
    + etrans; [exact Hf|]. etrans; [exact Ht|].
      unfold gets, log, emit, modify. simpl.
      exists [Logged ERROR (MsgIndexFailed (current_index s2) e)]. done.
    + by etrans.
  - unfold gets, log, emit, modify. simpl. etrans; [exact Hf|].
    exists [Logged ERROR (MsgIndexFailed (current_index s1) e)]. done.
  - done.
Qed.

Lemma while_loop_fetches_within z fuel : forall s,
  current_index s <= z ->
  grows_by (fetch_within 1 z) s (while_loop R T config fuel s).2.
Proof.
  induction fuel as [|fuel IH]; intros s Hz; simpl.
  - destruct (current_index s >? 0); simpl; reflexivity.
  - destruct (current_index s >? 0) eqn:Hpos; simpl; [|reflexivity].
    apply Z.gtb_lt in Hpos.
    pose proof (iteration_fetches_here s) as Hit.
    destruct (iteration_steps_down R T config s) as [Hok Hdec].
    unfold bind. destruct (iteration R T config s) as [r s1]. simpl in *. subst r.
    etrans; [|apply IH; lia].
    eapply grows_by_weaken; [|exact Hit].
    intros ev. apply fetch_within_weaken; lia.
Qed.

Lemma traverse_keeps_fetch_within (fuel : nat) (z : Z) :
  keeps (grows_by (fetch_within 1 z)) (traverse R T config fuel (VInt z)).
Proof.
  unfold traverse, walk_down, log.
  kbind; [|intros _].
  - kbind; [|intros _]. { apply keeps_modify. intros s0. by apply grows_by_same_trace. }
    kbind; [|intros _]. { apply keeps_modify. intros s0. by apply grows_by_same_trace. }
    intros s0. unfold bind, modify. simpl.
    apply (while_loop_fetches_within z fuel (set_current_index z s0)). simpl. lia.
  - kbind; [|intros _].
    + unfold final_flush, save_daily_count, workbook_save, sheet_append, dict_getitem, log.
      frame_with (grows_by_accepts (fetch_within 1 z)).
    + frame_with (grows_by_accepts (fetch_within 1 z)).
Qed.

(** X8. Whatever the board and the file system do, a traversal that
    starts at index [z] only fetches posts whose index lies between 1 and
    [z]: never index 0, never a negative index, never one above the
    start. *)
Theorem traverse_fetches_within (fuel : nat) (z : Z) (s : state) :
  exists evs,
    trace (traverse R T config fuel (VInt z) s).2 = trace s ++ evs /\
    forallb (fetch_within 1 z) evs = true.
Proof. exact (traverse_keeps_fetch_within fuel z s). Qed.

End Fetches.

(** ** The order of the visits *)

Lemma squash_run (x : Z) (l r : list Z) :
  Forall (eq x) l -> head (squash r) <> Some x ->
  squash (x :: l ++ r) = x :: squash r.
Proof.
  intros Hl Hr. induction Hl as [|y l <- _ IH].
  - simpl. destruct (squash r) as [|y t]; [done|].
    destruct (decide (x = y)) as [->|]; [by destruct Hr|done].
  - change (squash (x :: (x :: l) ++ r))
      with (match squash (x :: l ++ r) with
            | [] => [x]
            | y :: t => if decide (x = y) then y :: t else x :: y :: t
            end).
    rewrite IH. by destruct (decide (x = x)).
Qed.

Lemma fetched_at_app a b : fetched_at (a ++ b) = fetched_at a ++ fetched_at b.
Proof. unfold fetched_at. by rewrite omap_app. Qed.

Lemma fetched_at_here i evs :
  forallb (fetch_within i i) evs = true -> Forall (eq i) (fetched_at evs).
Proof.
  induction evs as [|ev evs IH]; [constructor|].
  simpl. intros [H1 H2]%andb_prop. specialize (IH H2).
  destruct ev as [[] ?| |]; simpl; try done.
  apply andb_prop in H1 as [Ha Hb]. apply Z.leb_le in Ha, Hb.
  constructor; [lia|done].
Qed.

Lemma head_countdown n : head (countdown n) <> Some (Z.of_nat (S n)).
Proof. destruct n; simpl; [done|]. intros [= H]. lia. Qed.

Section Visits.
Variable R : remote.
Variable T : datetime.
Variable config : CrawlerConfig.

(** The posts asked for by the loop, retries apart, are those of the
    indices from the start down to 1, in this order. *)
Lemma while_loop_fetch_order fuel : forall s,
  1 <= max_retries config ->
  0 <= current_index s -> (Z.to_nat (current_index s) <= fuel)%nat ->
  exists evs,
    trace (while_loop R T config fuel s).2 = trace s ++ evs /\
    squash (fetched_at evs) = countdown (Z.to_nat (current_index s)).
Proof.
  induction fuel as [|fuel IH]; intros s Hm H0 Hf.
  - assert (current_index s = 0) as Hz by lia.
    exists []. simpl. rewrite Hz. simpl. by rewrite app_nil_r.
  - simpl. destruct (current_index s >? 0) eqn:Hpos.
    + apply Z.gtb_lt in Hpos.
      destruct (iteration_steps_down R T config s) as [Hok Hdec].
      destruct (iteration_starts R T config s Hm) as (o & evs1 & Hstart).
      destruct (iteration_fetches_here R T config s) as (evs1' & Htr1 & Hall).
      rewrite Hstart in Htr1. apply app_inv_head in Htr1. subst evs1'.
      simpl in Hall. apply andb_prop in Hall as [_ Hall].
      unfold bind. destruct (iteration R T config s) as [r s1]. simpl in *. subst r.
      destruct (IH s1 Hm) as (evs2 & Htr2 & Hsq); [lia|lia|].
      exists ((Called (GetPost (board_name config) (current_index s)) o :: evs1) ++ evs2).
      split; [by rewrite Htr2, Hstart, <- app_assoc|].
      rewrite fetched_at_app.
      change (fetched_at (Called (GetPost (board_name config) (current_index s)) o :: evs1))
        with (current_index s :: fetched_at evs1).
      rewrite <- app_comm_cons, squash_run.
      * rewrite Hsq, Hdec.
        replace (Z.to_nat (current_index s)) with (S (Z.to_nat (current_index s - 1))) by lia.
        simpl. f_equal. lia.
      * by apply fetched_at_here.
      * rewrite Hsq, Hdec.
        replace (current_index s) with (Z.of_nat (S (Z.to_nat (current_index s - 1)))) at 2
          by lia.
        apply head_countdown.
    + exists []. simpl. rewrite app_nil_r. split; [done|].
      rewrite Z.gtb_ltb in Hpos. apply Z.ltb_ge in Hpos.
      by replace (Z.to_nat (current_index s)) with 0%nat by lia.
Qed.

(** C7. From a starting index [S >= 0] and with fuel [S], the loop is the
    loop body run [S] times: it returns normally in the state that [S]
    turns of the body leave; turn number [j], counted from 0, finds the
    index at [S - j], so the body runs at [S, S-1, ..., 1] and at no other
    index; every turn ends normally and lowers the index by exactly one,
    whether the [try] body succeeded or raised; the loop stops with the
    index at 0.  In the history, when a turn can fetch at all
    ([max_retries >= 1]), the posts asked for are those of the indices
    [S, S-1, ..., 1] in this order, the retries of one index counted
    once. *)
Theorem traversal_counts_down (s : state) (fuel : nat) :
  0 <= current_index s ->
  (Z.to_nat (current_index s) <= fuel)%nat ->
  (forall s1,
     (process_index R T config s1).1 <> OutOfFuel /\
     (iteration R T config s1).1 = Ok tt /\
     current_index (iteration R T config s1).2 = current_index s1 - 1) /\
  while_loop R T config fuel s
  = (Ok tt, Nat.iter (Z.to_nat (current_index s)) (turn R T config) s) /\
  (forall j : nat, (j < Z.to_nat (current_index s))%nat ->
     current_index (Nat.iter j (turn R T config) s) = current_index s - Z.of_nat j /\
     1 <= current_index (Nat.iter j (turn R T config) s)) /\
  current_index (while_loop R T config fuel s).2 = 0 /\
  (1 <= max_retries config ->
   exists evs,
     trace (while_loop R T config fuel s).2 = trace s ++ evs /\
     squash (fetched_at evs) = countdown (Z.to_nat (current_index s))).
Proof.
  intros H0 Hfuel. split_and!.
  - intros s1. split; [apply process_index_total|apply iteration_steps_down].
  - by apply while_loop_turns.
  - intros j Hj. rewrite turns_index. lia.
  - by apply while_loop_countdown.
  - intros Hm. by apply while_loop_fetch_order.
Qed.

End Visits.

(** ** Before the traversal *)

#[global] Instance same_table_preorder : PreOrder same_table.
Proof.
  split; [by intros s|]. intros s1 s2 s3 [H1 H2] [H3 H4]. split; congruence.
Qed.

Lemma same_table_accepts : accepts same_table (fun _ => true).
Proof. intros s ev _. by split. Qed.

Lemma no_fetch_in_empty_range evs :
  forallb (fetch_within 1 0) evs = true ->
  forallb (fun ev => negb (is_fetch ev)) evs = true.
Proof.
  induction evs as [|ev evs IH]; [done|]. simpl. intros [H1 H2]%andb_prop.
  rewrite IH by done. destruct ev as [[] ?| |]; simpl in *; try done.
  apply andb_prop in H1 as [Ha Hb]. apply Z.leb_le in Ha, Hb. lia.
Qed.

Section Setup.
Variable R : remote.
Variable T : datetime.
Variable config : CrawlerConfig.

(** What follows [load_progress] in [crawl_setup]. *)
Local Abbreviation after_load :=
  (retry_operation config (ptt_login R config) ;;
   log INFO MsgLoggedIn ;;
   latest_index <- retry_operation config (ptt_get_newest_index R config) ;;
   log INFO (MsgLatest latest_index) ;;
   si <- gets start_index ;;
   ret (choose_start si latest_index)).

Lemma after_load_fetches_nothing lo hi : keeps (grows_by (fetch_within lo hi)) after_load.
Proof.
  unfold retry_operation, ptt_login, ptt_get_newest_index, log.
  frame_with (grows_by_accepts (fetch_within lo hi)).
Qed.

Lemma after_load_same_table : keeps same_table after_load.
Proof.
  unfold retry_operation, ptt_login, ptt_get_newest_index, log.
  frame_with same_table_accepts.
Qed.

Lemma load_progress_fetches_nothing lo hi :
  keeps (grows_by (fetch_within lo hi)) (load_progress R T config).
Proof.
  unfold load_progress, workbook_save, sheet_append, strptime, minus_one, log.
  kbind; [apply keeps_gets; preorder|intros [[rows|]|]].
  - kbind; [|intros _].
    { apply keeps_modify. intros s. by apply grows_by_same_trace. }
    kbind; [apply scan_rows_keeps; preorder|intros dates].
    frame_with (grows_by_accepts (fetch_within lo hi)).
  - apply keeps_raise; preorder.
  - frame_with (grows_by_accepts (fetch_within lo hi)).
Qed.

Lemma crawl_setup_fetches_nothing lo hi :
  keeps (grows_by (fetch_within lo hi)) (crawl_setup R T config).
Proof.
  unfold crawl_setup. kbind; [apply load_progress_fetches_nothing|intros _].
  apply after_load_fetches_nothing.
Qed.

(** The guarded part and the close, once the start index is known. *)
Lemma crawl_after_setup fuel s index s0 :
  crawl_setup R T config s = (Ok index, s0) ->
  crawl R T config fuel s
  = try_finally
      (try_except (traverse R T config fuel index)
                  (fun e => log ERROR (MsgCrawlFailed e) ;; raise e))
      (close_session R) s0.
Proof.
  intros H. unfold crawl, crawl_guarded, crawl_body, try_finally, try_except.
  unfold bind at 1 3. by rewrite H.
Qed.

Lemma crawl_without_setup fuel s e s0 :
  crawl_setup R T config s = (Raise e, s0) ->
  crawl R T config fuel s
  = (Raise e,
     set_trace (trace s0 ++ Logged ERROR (MsgCrawlFailed e) ::
                match logout_reply R (trace s0 ++ [Logged ERROR (MsgCrawlFailed e)]) with
                | Return _ => [Called Logout None; Logged INFO MsgLoggedOut]
                | Throw e' => [Called Logout (Some e'); Logged ERROR (MsgLogoutFailed e')]
                end) s0).
Proof.
  intros H. unfold crawl, crawl_guarded, crawl_body, try_finally, try_except.
  unfold bind at 1. rewrite H.
  unfold bind, log, emit, modify, raise. simpl. rewrite close_session_runs. simpl.
  by rewrite <- app_assoc.
Qed.

Lemma close_session_fetches_nothing lo hi :
  keeps (grows_by (fetch_within lo hi)) (close_session R).
Proof.
  unfold close_session, ptt_logout, log.
  frame_with (grows_by_accepts (fetch_within lo hi)).
Qed.

Lemma crawl_tail_fetches_within fuel z :
  keeps (grows_by (fetch_within 1 z))
    (try_finally
       (try_except (traverse R T config fuel (VInt z))
                   (fun e => log ERROR (MsgCrawlFailed e) ;; raise e))
       (close_session R)).
Proof.
  apply keeps_try_finally; preorder.
  - kexcept; [apply traverse_keeps_fetch_within|intros e].
    unfold log. frame_with (grows_by_accepts (fetch_within 1 z)).
  - apply close_session_fetches_nothing.
Qed.

(** X9. Resuming.  When the last data row with a date and an index has an
    earliest index [e] other than 1, the run starts at [e - 1] whatever
    the newest index of the board is, and from start to end it fetches
    only posts with an index between 1 and [e - 1]: no post at or above
    the recorded index is fetched again. *)
Theorem resumed_crawl_stays_below (fuel : nat) (s : state) table r str d e latest :
  1 <= max_retries config ->
  disk s = Some (Workbook table) ->
  Forall (fun r : row => (3 <= length r)%nat) (drop 1 table) ->
  last (List.filter valid_row (drop 1 table)) = Some r ->
  r !! 0%nat = Some (VStr str) ->
  strptime_ymd T str = Some d ->
  r !! 2%nat = Some (VInt e) ->
  e <> 1 ->
  (forall h, login_reply R h (ptt_id config) (ptt_pwd config) = Return tt) ->
  (forall h, newest_reply R h (board_name config) = Return latest) ->
  (exists s0, crawl_setup R T config s = (Ok (VInt (e - 1)), s0)) /\
  exists evs,
    trace (crawl R T config fuel s).2 = trace s ++ evs /\
    forallb (fetch_within 1 (e - 1)) evs = true.
Proof.
  intros Hm Hd Hall Hlast H0 Hparse H2 He Hlogin Hnewest.
  destruct (load_progress_resumes R T config s table r str d e Hd Hall Hlast H0 Hparse H2)
    as (s1 & Hload & _ & Hsi & _).
  assert (Hsetup : exists s0, crawl_setup R T config s = (Ok (VInt (e - 1)), s0)).
  { unfold crawl_setup. unfold bind at 1. rewrite Hload.
    unfold ptt_login. unfold bind at 1.
    rewrite (retry_operation_first_try config _ _ s1 tt Hm (Hlogin _)).
    unfold bind at 1, log, emit, modify.
    unfold ptt_get_newest_index. unfold bind at 1.
    rewrite (retry_operation_first_try config _ _ _ latest Hm (Hnewest _)).
    unfold bind, gets, ret. simpl. rewrite Hsi. unfold choose_start, py_or. simpl.
    destruct (e - 1 =? 0) eqn:Hz; [lia|]. simpl. by eexists. }
  split; [exact Hsetup|]. destruct Hsetup as [s0 Hsetup].
  pose proof (crawl_setup_fetches_nothing 1 (e - 1) s) as Hg. rewrite Hsetup in Hg.
  rewrite (crawl_after_setup fuel s _ s0 Hsetup).
  pose proof (crawl_tail_fetches_within fuel (e - 1) s0) as Hg'.
  exact (transitivity Hg Hg').
Qed.

(** An operation that throws at every call makes [retry_operation] raise. *)
Lemma retry_operation_gives_up {A} c (answer : list event -> reply A) s :
  1 <= max_retries config ->
  (forall h, exists e, answer h = Throw e) ->
  exists e, (retry_operation config (invoke c answer) s).1 = Raise e.
Proof.
  intros Hm Hall. unfold retry_operation.
  pose proof (retry_loop_never_returns config c answer (Z.to_nat (max_retries config)) Hall 0 s)
    as Hn.
  destruct (retry_loop_spec config c answer (Z.to_nat (max_retries config)) 0 s)
    as (evs & _ & _ & Hr); [lia|].
  destruct (retry_loop config (invoke c answer) _ 0 s).1 as [[a|]|e|].
  - by destruct (Hn a).
  - lia.
  - by exists e.
  - done.
Qed.

Lemma crawl_setup_refused s :
  1 <= max_retries config ->
  (forall h, exists e, login_reply R h (ptt_id config) (ptt_pwd config) = Throw e) \/
  (forall h, exists e, newest_reply R h (board_name config) = Throw e) ->
  exists e, (crawl_setup R T config s).1 = Raise e.
Proof.
  intros Hm Hfail. unfold crawl_setup. unfold bind at 1.
  pose proof (load_progress_total R T config s) as Htl.
  destruct (load_progress R T config s) as [[[]|e|] s1]; simpl in Htl; [|by exists e|done].
  unfold bind at 1.
  pose proof (total_retry_loop config (ptt_login R config) (Z.to_nat (max_retries config))
                (total_invoke _ _) 0 s1) as Htot.
  destruct Hfail as [Hlogin|Hnewest].
  - destruct (retry_operation_gives_up (Login (ptt_id config) (ptt_pwd config))
                (fun h => login_reply R h (ptt_id config) (ptt_pwd config)) s1 Hm Hlogin)
      as [e He].
    unfold ptt_login.
    destruct (retry_operation config (invoke _ _) s1) as [r s2]. simpl in He. subst r.
    by exists e.
  - unfold retry_operation at 1.
    destruct (retry_loop config (ptt_login R config) _ 0 s1) as [[o|e|] s2];
      simpl in Htot; [|by exists e|done].
    unfold bind at 1, log, emit, modify. unfold bind at 1.
    destruct (retry_operation_gives_up (GetNewestIndex (board_name config))
                (fun h => newest_reply R h (board_name config))
                (set_trace (trace s2 ++ [Logged INFO MsgLoggedIn]) s2) Hm Hnewest)
      as [e He].
    unfold ptt_get_newest_index.
    destruct (retry_operation config (invoke _ _) _) as [r s3]. simpl in He. subst r.
    by exists e.
Qed.

(** X10. When the login, or the lookup of the newest index, fails at every
    attempt, [crawl] ends by raising: no post is fetched, and the sheet and
    the file stay as [load_progress] left them, so no row is appended. *)
Theorem crawl_refused_by_board (fuel : nat) (s : state) :
  1 <= max_retries config ->
  (forall h, exists e, login_reply R h (ptt_id config) (ptt_pwd config) = Throw e) \/
  (forall h, exists e, newest_reply R h (board_name config) = Throw e) ->
  (exists e, (crawl R T config fuel s).1 = Raise e) /\
  sheet (crawl R T config fuel s).2 = sheet (load_progress R T config s).2 /\
  disk (crawl R T config fuel s).2 = disk (load_progress R T config s).2 /\
  exists evs,
    trace (crawl R T config fuel s).2 = trace s ++ evs /\
    forallb (fun ev => negb (is_fetch ev)) evs = true.
Proof.
  intros Hm Hfail.
  destruct (crawl_setup_refused s Hm Hfail) as [e He].
  pose proof (crawl_setup_fetches_nothing 1 0 s) as Hg.
  assert (Hst : same_table (load_progress R T config s).2 (crawl_setup R T config s).2).
  { unfold crawl_setup, bind at 1.
    pose proof (after_load_same_table) as Hk.
    destruct (load_progress R T config s) as [[[]|e'|] s1]; simpl; try done;
      try apply (Hk s1). }
  destruct (crawl_setup R T config s) as [r s0] eqn:Hsetup. simpl in *. subst r.
  rewrite (crawl_without_setup fuel s e s0 Hsetup). simpl.
  destruct Hst as [Hsh Hdk]. split_and!; eauto.
  destruct Hg as (evs & Htr & Hev). eexists. rewrite Htr, <- app_assoc.
  split; [reflexivity|]. apply no_fetch_in_empty_range.
  rewrite forallb_app, Hev. simpl. by destruct (logout_reply R _).
Qed.

(** X11. With [max_retries <= 0] the retry loop has no turn, so no call
    is ever made and [None] comes back in place of a result.  A fresh
    [crawl] then writes the header, logs a login that did not take place,
    and raises [TypeError] at the loop test, since the newest index is
    [None]; the board is contacted only by the closing logout. *)
Theorem crawl_without_attempts (fuel : nat) (s : state) :
  max_retries config <= 0 ->
  disk s = None ->
  start_index s = VNone ->
  save_reply R (trace s) (file_name config) [header] = Return tt ->
  exists s',
    crawl R T config fuel s = (Raise TypeError, s') /\
    disk s' = Some (Workbook [header]) /\
    trace s'
    = trace s
      ++ [Called (SaveWorkbook (file_name config) [header]) None;
          Logged INFO MsgLoggedIn;
          Logged INFO (MsgLatest None);
          Logged ERROR (MsgCrawlFailed TypeError)]
      ++ match logout_reply R
                 (trace s
                  ++ [Called (SaveWorkbook (file_name config) [header]) None;
                      Logged INFO MsgLoggedIn;
                      Logged INFO (MsgLatest None);
                      Logged ERROR (MsgCrawlFailed TypeError)]) with
         | Return _ => [Called Logout None; Logged INFO MsgLoggedOut]
         | Throw e' => [Called Logout (Some e'); Logged ERROR (MsgLogoutFailed e')]
         end.
Proof.
  intros Hm Hd Hsi Hsave.
  assert (Hn : Z.to_nat (max_retries config) = 0%nat) by lia.
  assert (Hbody : exists s1,
            crawl_body R T config fuel s = (Raise TypeError, s1) /\
            disk s1 = Some (Workbook [header]) /\
            trace s1 = trace s ++ [Called (SaveWorkbook (file_name config) [header]) None;
                                   Logged INFO MsgLoggedIn; Logged INFO (MsgLatest None)]).
  { unfold crawl_body, crawl_setup, load_progress, retry_operation. rewrite Hn.
    unfold workbook_save, sheet_append, try_except, bind, gets, modify, invoke, log, emit,
      ret. simpl.
    rewrite Hd. simpl. rewrite Hsave. simpl. rewrite Hsi. simpl.
    eexists. split; [reflexivity|]. simpl. by rewrite <- !app_assoc. }
  destruct Hbody as (s1 & Hbody & Hdk & Htr).
  unfold crawl, try_finally, crawl_guarded, try_except. rewrite Hbody.
  unfold bind, log, emit, modify, raise. simpl. rewrite close_session_runs. simpl.
  eexists. split; [reflexivity|]. simpl. split; [done|].
  rewrite Htr, <- !app_assoc. reflexivity.
Qed.

Lemma traverse_idle fuel z s :
  z <= 0 ->
  traverse R T config fuel (VInt z) s
  = (Ok tt,
     set_trace (trace s ++ [Logged INFO (MsgAllSaved (file_name config))])
       (set_current_index z (set_current_date None (set_daily_count ∅ s)))).
Proof.
  intros Hz. unfold traverse, walk_down.
  unfold bind, modify. simpl.
  rewrite while_loop_idle by (simpl; lia).
  rewrite final_flush_none by done. reflexivity.
Qed.

(** X12. A board without posts.  When the newest index is 0 or below, a
    fresh run fetches nothing, whatever the fuel: it writes the header
    only and ends normally. *)
Theorem crawl_of_empty_board (fuel : nat) (s : state) (z : Z) :
  1 <= max_retries config ->
  z <= 0 ->
  disk s = None ->
  start_index s = VNone ->
  (forall h p rows, save_reply R h p rows = Return tt) ->
  (forall h, login_reply R h (ptt_id config) (ptt_pwd config) = Return tt) ->
  (forall h, newest_reply R h (board_name config) = Return z) ->
  exists s' evs,
    crawl R T config fuel s = (Ok tt, s') /\
    disk s' = Some (Workbook [header]) /\
    sheet s' = [header] /\
    trace s' = trace s ++ evs /\
    forallb (fun ev => negb (is_fetch ev)) evs = true.
Proof.
  intros Hm Hz Hd Hsi Hsave Hlogin Hnewest.
  destruct (load_progress_fresh R T config s Hd (Hsave _ _ _))
    as (s1 & Hload & Hsh1 & Hd1 & _ & Hsi1).
  assert (Hsetup : exists s5, crawl_setup R T config s = (Ok (VInt z), s5) /\
                              sheet s5 = [header] /\ disk s5 = Some (Workbook [header])).
  { unfold crawl_setup. unfold bind at 1. rewrite Hload.
    unfold ptt_login. unfold bind at 1.
    rewrite (retry_operation_first_try config _ _ s1 tt Hm (Hlogin _)).
    unfold bind at 1, log, emit, modify.
    unfold ptt_get_newest_index. unfold bind at 1.
    rewrite (retry_operation_first_try config _ _ _ z Hm (Hnewest _)).
    unfold bind, gets, ret. simpl. rewrite Hsi1, Hsi. simpl.
    eexists. split; [reflexivity|]. done. }
  destruct Hsetup as (s5 & Hsetup & Hsh5 & Hd5).
  pose proof (crawl_setup_fetches_nothing 1 0 s) as Hg. rewrite Hsetup in Hg.
  destruct Hg as (evs & Htr & Hev). simpl in Htr.
  rewrite (crawl_after_setup fuel s _ s5 Hsetup).
  unfold try_finally, try_except. rewrite (traverse_idle fuel z s5 Hz).
  rewrite close_session_runs. simpl.
  eexists. eexists. split; [reflexivity|]. simpl.
  rewrite Hd5, Hsh5, Htr, <- !app_assoc. split_and!; try done.
  apply no_fetch_in_empty_range. rewrite forallb_app, Hev. simpl.
  by destruct (logout_reply R _).
Qed.

End Setup.

(** ** The rows already saved *)

Section Saved.
Variable R : remote.
Variable T : datetime.
Variable config : CrawlerConfig.

(** With a table on disk, [load_progress] leaves the file alone and makes
    the sheet a copy of it. *)
Lemma load_progress_table s table :
  disk s = Some (Workbook table) ->
  disk (load_progress R T config s).2 = Some (Workbook table) /\
  sheet (load_progress R T config s).2 = table.
Proof.
  intros Hd.
  pose (rest := dates <- scan_rows (drop 1 table) [] ;;
                match last dates with
                | Some (c0, c2) =>
                    modify (set_start_date c0) ;;
                    modify (set_start_index c2) ;;
                    sd <- strptime (strptime_ymd T) c0 ;;
                    modify (set_start_date (VDate sd)) ;;
                    si <- minus_one c2 ;;
                    modify (set_start_index si) ;;
                    log INFO (MsgResume sd si)
                | None =>
                    modify (set_start_date VNone) ;;
                    modify (set_start_index VNone)
                end).
  assert (Hk : keeps same_table rest).
  { unfold rest, strptime, minus_one, log.
    kbind; [apply scan_rows_keeps; preorder|intros dates].
    frame_with same_table_accepts; apply keeps_modify; intros ?; by split. }
  assert (Heq : load_progress R T config s = rest (set_sheet table s)).
  { unfold load_progress. unfold bind at 1, gets. by rewrite Hd. }
  rewrite Heq. destruct (Hk (set_sheet table s)) as [H1 H2].
  split; [rewrite <- Hd; exact H2|exact H1].
Qed.

(** X13. A row whose save failed is not lost while the run goes on.  The
    failed [save_daily_count] raises and leaves in the file what the failed
    save left there -- the old table or a torn file -- but the row stays in
    the sheet, and the next [save_daily_count] that succeeds writes it to
    the file together with its own row. *)
Theorem failed_save_is_written_later (s : state) d c i e d' c' i' :
  save_reply R (trace s) (file_name config) (sheet s ++ [tally_row T d c i]) = Throw e ->
  save_reply R
    (trace s ++ [Called (SaveWorkbook (file_name config) (sheet s ++ [tally_row T d c i]))
                        (Some e)])
    (file_name config)
    (sheet s ++ [tally_row T d c i; tally_row T d' c' i']) = Return tt ->
  (save_daily_count R T config d c i s).1 = Raise e /\
  sheet (save_daily_count R T config d c i s).2 = sheet s ++ [tally_row T d c i] /\
  disk (save_daily_count R T config d c i s).2
  = save_leaves R (trace s) (file_name config) (sheet s ++ [tally_row T d c i]) (disk s) /\
  (save_daily_count R T config d' c' i' (save_daily_count R T config d c i s).2).1 = Ok tt /\
  disk (save_daily_count R T config d' c' i' (save_daily_count R T config d c i s).2).2
  = Some (Workbook (sheet s ++ [tally_row T d c i; tally_row T d' c' i'])).
Proof.
  intros H1 H2. rewrite (save_daily_count_fail R T config d c i e s H1).
  split; [done|]. split; [done|]. split; [done|].
  rewrite (save_daily_count_ok R T config d' c' i').
  - simpl. by rewrite <- app_assoc.
  - simpl. by rewrite <- app_assoc.
Qed.

End Saved.

(** ** The rows a run writes *)

Lemma sound_rows_nil lo hi : sound_rows lo hi [].
Proof. split; constructor. Qed.

Lemma sound_rows_weaken lo lo' hi ts :
  lo' <= lo -> sound_rows lo hi ts -> sound_rows lo' hi ts.
Proof.
  intros Hlo [HF HS]. split; [|done].
  eapply Forall_impl; [exact HF|]. simpl. intros t [? ?]. lia.
Qed.

Lemma sound_rows_snoc i hi ts d c :
  sound_rows (i + 1) hi ts -> 1 <= c -> i <= hi ->
  sound_rows i hi (ts ++ [(d, c, i)]).
Proof.
  intros [HF HS] Hc Hi. split.
  - apply Forall_app. split.
    + eapply Forall_impl; [exact HF|]. simpl. intros t [? ?]. lia.
    + constructor; [simpl; lia|constructor].
  - apply StronglySorted_app_2; [|done|repeat constructor].
    intros t1 t2 H1 ->%list_elem_of_singleton. simpl.
    rewrite Forall_forall in HF. destruct (HF t1 H1) as [_ ?]. lia.
Qed.

Lemma walk_sound_same T hi base n s s' :
  sheet s' = sheet s -> daily_count s' = daily_count s -> current_date s' = current_date s ->
  walk_sound T hi base n s -> walk_sound T hi base n s'.
Proof. intros H1 H2 H3. unfold walk_sound. by rewrite H1, H2, H3. Qed.

Lemma walk_sound_down T hi base n s :
  1 <= n -> walk_sound T hi base n s -> walk_sound T hi base (n - 1) s.
Proof.
  intros Hn ((ts & Hsh & Hts) & Hdc & Hle & Hcd). split_and!.
  - exists ts. split; [done|]. eapply sound_rows_weaken; [|exact Hts]. lia.
  - done.
  - lia.
  - intros H. specialize (Hcd H). lia.
Qed.

(** A flush at the visit of [ci] adds a sound row. *)
Lemma walk_sound_flush hi ci ts cur c (dc : gmap date Z) :
  0 <= ci < hi ->
  map_Forall (fun (_ : date) (c : Z) => 1 <= c) dc ->
  dc !! cur = Some c ->
  sound_rows (Z.max 1 (ci + 2)) hi ts ->
  sound_rows (Z.max 1 (ci + 1)) hi (ts ++ [(cur, c, ci + 1)]).
Proof.
  intros Hci Hdc Hc Hts.
  replace (Z.max 1 (ci + 1)) with (ci + 1) by lia.
  apply sound_rows_snoc; [|by apply (Hdc cur c)|lia].
  eapply sound_rows_weaken; [|exact Hts]. lia.
Qed.

Section Rows.
Variable R : remote.
Variable T : datetime.
Variable config : CrawlerConfig.

Lemma tally_post_walk_sound hi base d s :
  1 <= current_index s ->
  walk_sound T hi base (current_index s) s ->
  walk_sound T hi base (current_index s - 1) (tally_post R T config d s).2.
Proof.
  intros Hci Hw. pose proof Hw as ((ts & Hsh & Hts) & Hdc & Hle & Hcd).
  assert (Hcount : map_Forall (fun (_ : date) (c : Z) => 1 <= c)
                     (<[d := default 0 (daily_count s !! d) + 1]> (daily_count s))).
  { apply map_Forall_insert_2; [|done].
    destruct (daily_count s !! d) as [c|] eqn:Hl; simpl; [|lia].
    pose proof (Hdc d c Hl). simpl in *. lia. }
  destruct (current_date s) as [cur|] eqn:Hc.
  - destruct (Hcd ltac:(eauto)) as [_ Hlt].
    destruct (decide (d = cur)) as [->|Hne].
    + rewrite tally_post_same by done.
      destruct (walk_sound_down T hi base _ s Hci Hw) as (Hr & _ & Hl' & Hcd').
      split_and!; try done.
    + destruct (daily_count s !! cur) as [c|] eqn:Hl.
      * assert (Hnew : sound_rows (Z.max 1 (current_index s - 1 + 2)) hi
                         (ts ++ [(cur, c, current_index s + 1)])).
        { replace (current_index s - 1 + 2) with (current_index s + 1) by lia.
          apply (walk_sound_flush hi (current_index s) ts cur c (daily_count s));
            try done. lia. }
        destruct (save_reply R (trace s) (file_name config)
                    (sheet s ++ [tally_row T cur c (current_index s + 1)])) as [[]|e] eqn:Hs.
        -- rewrite (tally_post_change R T config d cur c s) by done. unfold flushed, unflushed. simpl. split_and!.
           ++ exists (ts ++ [(cur, c, current_index s + 1)]).
              split; [|done]. rewrite Hsh, map_app, <- app_assoc. reflexivity.
           ++ apply map_Forall_insert_2; [lia|done].
           ++ lia.
           ++ intros _. lia.
        -- rewrite (tally_post_change_fail R T config d cur c e s) by done. unfold flushed, unflushed. simpl. split_and!.
           ++ exists (ts ++ [(cur, c, current_index s + 1)]).
              split; [|done]. rewrite Hsh, map_app, <- app_assoc. reflexivity.
           ++ done.
           ++ lia.
           ++ intros _. lia.
      * rewrite (tally_post_no_count R T config d cur s) by done. simpl.
        by apply walk_sound_down.
  - rewrite tally_post_first by done.
    destruct (walk_sound_down T hi base _ s Hci Hw) as (Hr & _ & Hl' & _).
    split_and!; try done. intros _. lia.
Qed.

Lemma iteration_walk_sound hi base s :
  1 <= current_index s ->
  walk_sound T hi base (current_index s) s ->
  walk_sound T hi base (current_index s - 1) (iteration R T config s).2.
Proof.
  intros Hci Hw. unfold iteration, process_index. unfold bind, try_except.
  pose proof (fetch_post_date_only_trace R T config s) as Hot.
  destruct (fetch_post_date R T config s) as [[d|e|] s1]; simpl in Hot.
  - assert (Hci1 : current_index s1 = current_index s) by (by rewrite Hot).
    assert (Hw1 : walk_sound T hi base (current_index s1) s1).
    { rewrite Hci1. eapply walk_sound_same; [..|exact Hw]; by rewrite Hot. }
    pose proof (tally_post_walk_sound hi base d s1 ltac:(lia) Hw1) as Hw2.
    rewrite Hci1 in Hw2.
    destruct (tally_post R T config d s1) as [[[]|e|] s2]; simpl in *;
      (eapply walk_sound_same; [..|exact Hw2]; reflexivity).
  - simpl. apply walk_sound_down; [done|].
    eapply walk_sound_same; [..|exact Hw]; by rewrite Hot.
  - simpl. apply walk_sound_down; [done|].
    eapply walk_sound_same; [..|exact Hw]; by rewrite Hot.
Qed.

Lemma while_loop_walk_sound hi base fuel : forall s,
  walk_sound T hi base (current_index s) s ->
  walk_sound T hi base (current_index (while_loop R T config fuel s).2)
    (while_loop R T config fuel s).2.
Proof.
  induction fuel as [|fuel IH]; intros s Hw; simpl.
  - by destruct (current_index s >? 0).
  - destruct (current_index s >? 0) eqn:Hpos; [|done].
    apply Z.gtb_lt in Hpos.
    pose proof (iteration_walk_sound hi base s ltac:(lia) Hw) as Hw1.
    destruct (iteration_steps_down R T config s) as [Hok Hdec].
    unfold bind. destruct (iteration R T config s) as [r s1]. simpl in *. subst r.
    rewrite <- Hdec in Hw1. by apply IH.
Qed.

Lemma final_flush_walk_sound hi base s :
  walk_sound T hi base (current_index s) s ->
  exists ts, sheet (final_flush R T config s).2 = base ++ map (row_of T) ts /\
             sound_rows 1 hi ts.
Proof.
  intros ((ts & Hsh & Hts) & Hdc & Hle & Hcd).
  assert (Hold : sound_rows 1 hi ts) by (eapply sound_rows_weaken; [|exact Hts]; lia).
  destruct (current_date s) as [cur|] eqn:Hc.
  - destruct (Hcd ltac:(eauto)) as [H0 Hlt].
    destruct (daily_count s !! cur) as [c|] eqn:Hl.
    + assert (Hnew : sound_rows 1 hi (ts ++ [(cur, c, current_index s + 1)])).
      { eapply sound_rows_weaken;
          [|apply (walk_sound_flush hi (current_index s) ts cur c (daily_count s))];
          try done; lia. }
      exists (ts ++ [(cur, c, current_index s + 1)]). split; [|done].
      destruct (save_reply R (trace s) (file_name config)
                  (sheet s ++ [tally_row T cur c (current_index s + 1)])) as [[]|e] eqn:Hs.
      * rewrite (final_flush_ok R T config cur c s) by done. unfold flushed. simpl.
        rewrite Hsh, map_app, <- app_assoc. reflexivity.
      * rewrite (final_flush_fail R T config cur c e s) by done. unfold unflushed. simpl.
        rewrite Hsh, map_app, <- app_assoc. reflexivity.
    + exists ts. split; [|done].
      unfold final_flush, bind, gets, dict_getitem, raise. rewrite Hc. simpl. by rewrite Hl.
  - exists ts. split; [|done]. by rewrite final_flush_none.
Qed.

Lemma traverse_sound_rows fuel z s :
  exists ts,
    sheet (traverse R T config fuel (VInt z) s).2 = sheet s ++ map (row_of T) ts /\
    sound_rows 1 z ts.
Proof.
  unfold traverse, walk_down.
  unfold bind at 1, bind at 1, bind at 1, bind at 1, modify. simpl.
  set (s0 := set_current_index z _).
  assert (Hw0 : walk_sound T z (sheet s) (current_index s0) s0).
  { subst s0. simpl. split_and!.
    - exists []. simpl. rewrite app_nil_r. split; [done|apply sound_rows_nil].
    - apply map_Forall_empty.
    - lia.
    - by intros [? ?]. }
  pose proof (while_loop_walk_sound z (sheet s) fuel s0 Hw0) as Hw1.
  destruct (while_loop R T config fuel s0) as [[[]|e|] s1]; simpl in Hw1.
  - destruct (final_flush_walk_sound z (sheet s) s1 Hw1) as (ts & Hsh & Hts).
    exists ts. split; [|done].
    unfold bind, log, emit, modify.
    destruct (final_flush R T config s1) as [[[]|e|] s2]; simpl in *; done.
  - destruct Hw1 as ((ts & Hsh & Hts) & _). exists ts. split; [done|].
    eapply sound_rows_weaken; [|exact Hts]. lia.
  - destruct Hw1 as ((ts & Hsh & Hts) & _). exists ts. split; [done|].
    eapply sound_rows_weaken; [|exact Hts]. lia.
Qed.

(** X14. The rows of a traversal.  Whatever the board and the file system
    do, a traversal that starts at index [z] only appends rows of the form
    [date string, count, index] to the sheet, each with a count of at
    least 1 and an index between 1 and [z], and the indices go strictly
    down from one row to the next. *)
Theorem traverse_appends_sound_rows (fuel : nat) (z : Z) (s : state) :
  exists ts,
    sheet (traverse R T config fuel (VInt z) s).2 = sheet s ++ map (row_of T) ts /\
    Forall (fun t : tally => 1 <= t.1.2 /\ 1 <= t.2 <= z) ts /\
    StronglySorted (fun t t' : tally => t'.2 < t.2) ts.
Proof. exact (traverse_sound_rows fuel z s). Qed.

End Rows.

(** ** The rows in the file *)

Lemma bind_ok {A B} (m : M A) (k : A -> M B) s a s1 :
  m s = (Ok a, s1) -> (x <- m ;; k x) s = k a s1.
Proof. intros H. unfold bind. by rewrite H. Qed.

Lemma bind_raise {A B} (m : M A) (k : A -> M B) s e s1 :
  m s = (Raise e, s1) -> (x <- m ;; k x) s = (Raise e, s1).
Proof. intros H. unfold bind. by rewrite H. Qed.

Section FileRows.
Variable R : remote.
Variable T : datetime.
Variable config : CrawlerConfig.

Lemma close_session_same_table : keeps same_table (close_session R).
Proof. unfold close_session, ptt_logout, log. frame_with same_table_accepts. Qed.

Lemma try_tail_same_table {A} (m : M A) s :
  same_table (m s).2
    (try_finally
       (try_except m (fun e => log ERROR (MsgCrawlFailed e) ;; raise e))
       (close_session R) s).2.
Proof.
  pose proof close_session_same_table as Hc.
  unfold try_finally, try_except.
  destruct (m s) as [[a|e|] s1]; simpl.
  - specialize (Hc s1). by destruct (close_session R s1) as [[[]|e|] s2].
  - unfold bind, log, emit, modify, raise. simpl.
    specialize (Hc (set_trace (trace s1 ++ [Logged ERROR (MsgCrawlFailed e)]) s1)).
    by destruct (close_session R _) as [[[]|e'|] s2].
  - done.
Qed.

Lemma traverse_sheet_rows fuel index s :
  exists hi ts,
    sound_rows 1 hi ts /\
    sheet (traverse R T config fuel index s).2 = sheet s ++ map (row_of T) ts.
Proof.
  destruct index as [| |z|];
    try (exists 0, []; split; [apply sound_rows_nil|]; simpl; by rewrite app_nil_r).
  destruct (traverse_sound_rows R T config fuel z s) as (ts & Hsh & Hts).
  by exists z, ts.
Qed.

(** When [crawl_setup] returns, file and sheet hold the opening table: the
    table that was found, or the header of a table just made. *)
Lemma crawl_setup_opens s index s0 :
  crawl_setup R T config s = (Ok index, s0) ->
  disk s0 = Some (Workbook (sheet s0)) /\
  match disk s with
  | Some (Workbook table) => sheet s0 = table
  | Some (Torn _) => False
  | None => sheet s0 = [header]
  end.
Proof.
  intros Hsetup. pose proof (after_load_same_table R config) as Hk.
  unfold crawl_setup in Hsetup.
  destruct (load_progress R T config s) as [[[]|e|] s1] eqn:Hl.
  - rewrite (bind_ok _ _ s tt s1 Hl) in Hsetup.
    specialize (Hk s1). rewrite Hsetup in Hk. destruct Hk as [H3 H4]. simpl in H3, H4.
    rewrite H3, H4. split; [by apply (load_progress_syncs R T config s)|].
    destruct (disk s) as [[table|]|] eqn:Hd.
    + destruct (load_progress_table R T config s table Hd) as [_ H2].
      by rewrite Hl in H2.
    + unfold load_progress, bind, gets in Hl. by rewrite Hd in Hl.
    + destruct (save_reply R (trace s) (file_name config) [header]) as [[]|e] eqn:Hs.
      * destruct (load_progress_fresh R T config s Hd Hs) as (s1' & Hl' & H1 & _).
        rewrite Hl in Hl'. by injection Hl' as <-.
      * exfalso. revert Hl. unfold load_progress, workbook_save, sheet_append.
        unfold try_except, bind, gets, modify, invoke. rewrite Hd. simpl. by rewrite Hs.
  - by rewrite (bind_raise _ _ s e s1 Hl) in Hsetup.
  - unfold bind in Hsetup. by rewrite Hl in Hsetup.
Qed.

End FileRows.

(** ** Every post is counted once *)

Lemma total_count_app r1 r2 : total_count (r1 ++ r2) = total_count r1 + total_count r2.
Proof.
  induction r1 as [|r r1 IH]; simpl; [lia|].
  destruct r as [|? [|[] ?]]; lia.
Qed.

Lemma all_tallies_total T l : forall act,
  total_count (map (row_of T) (all_tallies l act))
  = match act with Some (_, c) => c | None => 0 end + fetched l.
Proof.
  induction l as [|o l IH]; intros act.
  - unfold all_tallies, fetched. simpl. destruct act as [[d c]|]; simpl; lia.
  - rewrite all_tallies_cons, map_app, total_count_app, IH.
    assert (Hf : fetched (o :: l)
                 = match o with Some _ => 1 | None => 0 end + fetched l).
    { unfold fetched. simpl. destruct o; simpl length; lia. }
    rewrite Hf. destruct o as [d|]; simpl; [|lia].
    destruct act as [[cur c]|]; simpl; [|lia].
    destruct (decide (d = cur)); simpl; lia.
Qed.

Section Conservation.
Variable R : remote.
Variable T : datetime.
Variable config : CrawlerConfig.

(** X16. No post is lost or counted twice.  On a board where each index
    either always yields a post of a fixed date or always fails, and every
    save succeeds, the counts in the rows a traversal from [z] writes add
    up to the number of indices from [z] down to 1 that yield a post,
    whatever the order of the dates. *)
Theorem traverse_counts_every_post (fetch : Z -> option date) (top : Z)
    (fuel : nat) (s : state) (z : Z) :
  1 <= max_retries config ->
  (forall h i, 1 <= i <= top ->
     match fetch i with
     | Some d => exists str,
         post_reply R h (board_name config) i = Return (Post (VStr str)) /\
         strptime_post T str = Some d
     | None => exists e, post_reply R h (board_name config) i = Throw e
     end) ->
  (forall h p rows, save_reply R h p rows = Return tt) ->
  0 <= z <= top -> (Z.to_nat z <= fuel)%nat -> disk s = Some (Workbook (sheet s)) ->
  exists s' new,
    traverse R T config fuel (VInt z) s = (Ok tt, s') /\
    disk s' = Some (Workbook (sheet s ++ new)) /\
    total_count new = fetched (map fetch (countdown (Z.to_nat z))).
Proof.
  intros Hm Hpost Hsave Hz Hfuel Hdisk.
  destruct (traverse_steady R T config fetch top Hm Hpost Hsave fuel s z Hz Hfuel Hdisk)
    as (s' & Htr & _ & Hsh & Hd).
  exists s', (map (row_of T) (all_tallies (map fetch (countdown (Z.to_nat z))) None)).
  split; [done|]. split; [by rewrite Hd, Hsh|].
  by rewrite all_tallies_total.
Qed.

End Conservation.

(** ** A normal return *)

Section Returned.
Variable R : remote.
Variable T : datetime.
Variable config : CrawlerConfig.

(** Once a post has been counted there is a current day. *)
Lemma tally_post_opens_day d s : is_Some (current_date (tally_post R T config d s).2).
Proof.
  destruct (current_date s) as [cur|] eqn:Hc.
  - destruct (decide (d = cur)) as [->|Hne].
    + rewrite tally_post_same by done. simpl. by rewrite Hc.
    + destruct (daily_count s !! cur) as [c|] eqn:Hl.
      * destruct (save_reply R (trace s) (file_name config)
                    (sheet s ++ [tally_row T cur c (current_index s + 1)])) as [[]|e] eqn:Hs.
        -- rewrite (tally_post_change R T config d cur c s) by done. simpl. by eauto.
        -- rewrite (tally_post_change_fail R T config d cur c e s) by done.
           unfold unflushed. simpl. by rewrite Hc.
      * rewrite (tally_post_no_count R T config d cur s) by done. simpl. by rewrite Hc.
  - rewrite tally_post_first by done. simpl. by eauto.
Qed.

Lemma iteration_in_step s :
  in_step s -> in_step (iteration R T config s).2.
Proof.
  intros Hj. unfold iteration, process_index. unfold bind, try_except.
  pose proof (fetch_post_date_only_trace R T config s) as Hot.
  destruct (fetch_post_date R T config s) as [[d|e|] s1]; simpl in Hot.
  - pose proof (tally_post_opens_day d s1) as [cur Hcur].
    destruct (tally_post R T config d s1) as [[[]|e|] s2]; simpl in *;
      unfold in_step; simpl; intros Hn; congruence.
  - simpl. unfold in_step in *. rewrite Hot. simpl. exact Hj.
  - simpl. unfold in_step in *. rewrite Hot. simpl. exact Hj.
Qed.

Lemma while_loop_in_step fuel : forall s,
  in_step s -> in_step (while_loop R T config fuel s).2.
Proof.
  induction fuel as [|fuel IH]; intros s Hj; simpl.
  - by destruct (current_index s >? 0).
  - destruct (current_index s >? 0); [|done].
    pose proof (iteration_in_step s Hj) as Hj1.
    unfold bind. destruct (iteration R T config s) as [[[]|e|] s1]; simpl in *; try done.
    by apply IH.
Qed.

Lemma final_flush_in_step s :
  in_step s -> (final_flush R T config s).1 = Ok tt ->
  disk (final_flush R T config s).2 = Some (Workbook (sheet (final_flush R T config s).2)).
Proof.
  intros Hj. destruct (current_date s) as [cur|] eqn:Hc.
  - destruct (daily_count s !! cur) as [c|] eqn:Hl.
    + destruct (save_reply R (trace s) (file_name config)
                  (sheet s ++ [tally_row T cur c (current_index s + 1)])) as [[]|e] eqn:Hs.
      * by rewrite (final_flush_ok R T config cur c s).
      * by rewrite (final_flush_fail R T config cur c e s).
    + unfold final_flush, bind, gets, dict_getitem, raise. rewrite Hc. simpl. by rewrite Hl.
  - rewrite final_flush_none by done. intros _. by apply Hj.
Qed.

Lemma traverse_in_step fuel index s :
  disk s = Some (Workbook (sheet s)) ->
  (traverse R T config fuel index s).1 = Ok tt ->
  disk (traverse R T config fuel index s).2
  = Some (Workbook (sheet (traverse R T config fuel index s).2)).
Proof.
  intros Hd. destruct (traverse R T config fuel index s) as [r s'] eqn:Htr.
  simpl. intros ->. revert Htr. unfold traverse, walk_down.
  unfold bind at 1, bind at 1, bind at 1, modify. simpl.
  destruct index as [| |z|]; try done.
  unfold bind at 1. simpl. set (s0 := set_current_index z _).
  assert (Hj0 : in_step s0) by (intros _; exact Hd).
  pose proof (while_loop_in_step fuel s0 Hj0) as Hj1.
  destruct (while_loop R T config fuel s0) as [[[]|e|] s1]; simpl in *; try done.
  pose proof (final_flush_in_step s1 Hj1) as Hf.
  unfold bind, log, emit, modify.
  destruct (final_flush R T config s1) as [[[]|e|] s2]; simpl in *; try done.
  intros [= <-]. simpl. by apply Hf.
Qed.

(** A normal return of [crawl] comes from a set-up and a traversal that
    returned, and the close leaves the table alone. *)
Lemma crawl_returned fuel s :
  (crawl R T config fuel s).1 = Ok tt ->
  exists index s0,
    crawl_setup R T config s = (Ok index, s0) /\
    (traverse R T config fuel index s0).1 = Ok tt /\
    same_table (traverse R T config fuel index s0).2 (crawl R T config fuel s).2.
Proof.
  destruct (crawl_setup R T config s) as [[index|e|] s0] eqn:Hsetup.
  - rewrite (crawl_after_setup R T config fuel s index s0 Hsetup).
    pose proof (try_tail_same_table R (traverse R T config fuel index) s0) as Hsame.
    intros Hok. exists index, s0. split; [done|]. split; [|done].
    revert Hok. unfold try_finally, try_except.
    destruct (traverse R T config fuel index s0) as [[[]|e|] s1]; simpl; [done| |done].
    unfold bind, log, emit, modify, raise. simpl.
    by destruct (close_session R _) as [[[]|e'|] s2].
  - by rewrite (crawl_without_setup R T config fuel s e s0 Hsetup).
  - unfold crawl, crawl_guarded, crawl_body, try_finally, try_except.
    unfold bind at 1. by rewrite Hsetup.
Qed.

(** X17. A normal return means everything is on disk.  Whatever the board
    and the file system did on the way, when [crawl] returns without an
    exception the file holds exactly the rows of the sheet: a row whose
    save failed in the loop has been written by a later save. *)
Theorem crawl_return_means_saved (fuel : nat) (s : state) :
  (crawl R T config fuel s).1 = Ok tt ->
  disk (crawl R T config fuel s).2 = Some (Workbook (sheet (crawl R T config fuel s).2)).
Proof.
  intros Hok. destruct (crawl_returned fuel s Hok) as (index & s0 & Hsetup & Htr & Hs & Hd).
  destruct (crawl_setup_opens R T config s index s0 Hsetup) as [Hd0 _].
  rewrite Hs, Hd. by apply traverse_in_step.
Qed.

(** X15. The rows in the file.  Whatever the board and the file system did
    on the way -- failed fetches, failed saves -- when [crawl] returns
    without an exception the file holds the table that was there, unchanged,
    followed by well-formed rows: date string, count of at least 1, index of
    at least 1, indices strictly decreasing.  When there was no file, it
    holds the header followed by such rows; and [crawl] does not return
    normally from a file that is no workbook. *)
Theorem crawl_writes_sound_rows (fuel : nat) (s : state) :
  (crawl R T config fuel s).1 = Ok tt ->
  exists hi ts,
    sound_rows 1 hi ts /\
    match disk s with
    | Some (Workbook table) =>
        disk (crawl R T config fuel s).2 = Some (Workbook (table ++ map (row_of T) ts))
    | Some (Torn _) => False
    | None =>
        disk (crawl R T config fuel s).2 = Some (Workbook (header :: map (row_of T) ts))
    end.
Proof.
  intros Hok. destruct (crawl_returned fuel s Hok) as (index & s0 & Hsetup & Htr & Hs & Hd).
  destruct (crawl_setup_opens R T config s index s0 Hsetup) as [Hd0 Hbase].
  destruct (traverse_sheet_rows R T config fuel index s0) as (hi & ts & Hts & Hsheet).
  exists hi, ts. split; [done|].
  rewrite Hd, (traverse_in_step fuel index s0 Hd0 Htr), Hsheet.
  destruct (disk s) as [[table|]|]; [|done|]; by rewrite Hbase.
Qed.

End Returned.

(** ** How often a post is asked for *)

Lemma grows_counting_trans c n m s1 s2 s3 :
  grows_counting c n s1 s2 -> grows_counting c m s2 s3 ->
  grows_counting c (n + m) s1 s3.
Proof.
  intros (e1 & H1 & C1) (e2 & H2 & C2). exists (e1 ++ e2).
  rewrite H2, H1, <- app_assoc. split; [done|]. rewrite calls_to_app. lia.
Qed.

Lemma grows_counting_weaken c n m s s' :
  (n <= m)%nat -> grows_counting c n s s' -> grows_counting c m s s'.
Proof. intros Hnm (evs & H & C). exists evs. split; [done|lia]. Qed.

Lemma grows_counting_same c s s' : trace s' = trace s -> grows_counting c 0 s s'.
Proof.
  intros H. exists []. rewrite app_nil_r. split; [done|]. unfold calls_to. simpl. lia.
Qed.

(** Events that do not invoke [c] do not count. *)
Lemma grows_by_counting (P : event -> bool) c s s' :
  (forall ev, P ev = true -> is_call c ev = false) ->
  grows_by P s s' -> grows_counting c 0 s s'.
Proof.
  intros HP (evs & Htr & Hall). exists evs. split; [done|]. clear Htr.
  induction evs as [|ev evs IH]; [unfold calls_to; simpl; lia|].
  simpl in Hall. apply andb_prop in Hall as [H1 H2].
  rewrite calls_to_cons, (HP ev H1). simpl. by apply IH.
Qed.

Lemma fetch_elsewhere b i lo hi ev :
  ~ lo <= i <= hi -> fetch_within lo hi ev = true -> is_call (GetPost b i) ev = false.
Proof.
  intros Hi. destruct ev as [c o| |]; simpl; try done.
  intros H. apply bool_decide_eq_false_2. intros ->. simpl in H.
  apply andb_prop in H as [H1 H2]. apply Z.leb_le in H1, H2. lia.
Qed.

Section Asked.
Variable R : remote.
Variable T : datetime.
Variable config : CrawlerConfig.
Hypothesis Hretries : 0 <= max_retries config.

Local Abbreviation fetch_of i := (GetPost (board_name config) i).
Local Abbreviation budget := (Z.to_nat (max_retries config)).

Lemma fetch_post_date_counts s :
  grows_counting (fetch_of (current_index s)) budget s (fetch_post_date R T config s).2.
Proof.
  unfold fetch_post_date, retry_operation, ptt_get_post. unfold bind at 1, gets.
  destruct (retry_loop_spec config (fetch_of (current_index s))
              (fun h => post_reply R h (board_name config) (current_index s))
              budget 0 s ltac:(lia)) as (evs & Hst & Hc & _).
  unfold bind at 1.
  destruct (retry_loop config _ budget 0 s) as [[[p|]|e|] s1]; simpl in Hst; subst s1.
  - unfold bind, ret, strptime, raise.
    exists evs. split; [|done].
    destruct (post_get_date p) as [|str| |]; simpl; try done.
    by destruct (strptime_post T str).
  - by exists evs.
  - by exists evs.
  - by exists evs.
Qed.

Lemma iteration_counts i s :
  grows_counting (fetch_of i)
    (if decide (i = current_index s) then budget else 0%nat) s (iteration R T config s).2.
Proof.
  assert (Hfetch : grows_counting (fetch_of i)
                     (if decide (i = current_index s) then budget else 0%nat) s
                     (fetch_post_date R T config s).2).
  { destruct (decide (i = current_index s)) as [->|Hne].
    - apply fetch_post_date_counts.
    - eapply grows_by_counting; [|apply (fetch_post_date_fetches_here R T config s)].
      intros ev. apply fetch_elsewhere. lia. }
  assert (Hnone : forall d s1, grows_counting (fetch_of i) 0 s1 (tally_post R T config d s1).2).
  { intros d s1.
    eapply grows_by_counting; [|apply (tally_post_fetches_nothing R T config 1 0 d s1)].
    intros ev. apply fetch_elsewhere. lia. }
  unfold iteration, process_index, bind, try_except.
  destruct (fetch_post_date R T config s) as [[d|e|] s1]; simpl in Hfetch.
  - specialize (Hnone d s1).
    pose proof (grows_counting_trans _ _ _ _ _ _ Hfetch Hnone) as Hboth.
    rewrite Nat.add_0_r in Hboth.
    destruct (tally_post R T config d s1) as [[[]|e|] s2]; simpl in *.
    + destruct Hboth as (evs & Htr & Hc). by exists evs.
    + unfold gets, log, emit, modify. simpl.
      destruct Hboth as (evs & Htr & Hc).
      exists (evs ++ [Logged ERROR (MsgIndexFailed (current_index s2) e)]).
      rewrite Htr, <- app_assoc. split; [done|].
      rewrite calls_to_app. simpl. unfold calls_to at 2. simpl. lia.
    + done.
  - unfold gets, log, emit, modify. simpl.
    destruct Hfetch as (evs & Htr & Hc).
    exists (evs ++ [Logged ERROR (MsgIndexFailed (current_index s1) e)]).
    rewrite Htr, <- app_assoc. split; [done|].
    rewrite calls_to_app. simpl. unfold calls_to at 2. simpl. lia.
  - done.
Qed.

Lemma while_loop_counts i fuel : forall s,
  grows_counting (fetch_of i)
    (if decide (i <= current_index s) then budget else 0%nat) s
    (while_loop R T config fuel s).2.
Proof.
  induction fuel as [|fuel IH]; intros s; simpl.
  - destruct (current_index s >? 0); simpl;
      (eapply grows_counting_weaken; [|by apply grows_counting_same]); lia.
  - destruct (current_index s >? 0) eqn:Hpos; simpl;
      [|eapply grows_counting_weaken; [|by apply grows_counting_same]; lia].
    pose proof (iteration_counts i s) as Hit.
    destruct (iteration_steps_down R T config s) as [Hok Hdec].
    unfold bind. destruct (iteration R T config s) as [r s1]. simpl in *. subst r.
    specialize (IH s1). rewrite Hdec in IH.
    pose proof (grows_counting_trans _ _ _ _ _ _ Hit IH) as Hboth.
    eapply grows_counting_weaken; [|exact Hboth].
    repeat case_decide; lia.
Qed.

Lemma traverse_counts i fuel z s :
  grows_counting (fetch_of i) budget s (traverse R T config fuel (VInt z) s).2.
Proof.
  assert (Hrest : keeps (grows_by (fetch_within 1 0))
                    (final_flush R T config ;;
                     log INFO (MsgAllSaved (file_name config)))).
  { unfold final_flush, save_daily_count, workbook_save, sheet_append, dict_getitem, log.
    frame_with (grows_by_accepts (fetch_within 1 0)). }
  unfold traverse, walk_down.
  unfold bind at 1, bind at 1, bind at 1, bind at 1, modify. simpl.
  set (s0 := set_current_index z _).
  pose proof (while_loop_counts i fuel s0) as Hw.
  assert (Hw' : grows_counting (fetch_of i) budget s (while_loop R T config fuel s0).2).
  { destruct Hw as (evs & Htr & Hc). exists evs. split; [exact Htr|].
    case_decide; lia. }
  destruct (while_loop R T config fuel s0) as [[[]|e|] s1]; simpl in *; try done.
  assert (Hz : grows_counting (fetch_of i) 0 s1
                 ((final_flush R T config ;;
                   log INFO (MsgAllSaved (file_name config))) s1).2).
  { eapply grows_by_counting; [|apply Hrest]. intros ev. apply fetch_elsewhere. lia. }
  pose proof (grows_counting_trans _ _ _ _ _ _ Hw' Hz) as Hboth.
  by rewrite Nat.add_0_r in Hboth.
Qed.

(** X18. No post is asked for more than [max_retries] times.  Whatever
    the board and the file system do, during a traversal every index is
    fetched at most [max_retries] times in all: the loop comes to an index
    once, and [retry_operation] stops after [max_retries] attempts. *)
Theorem traverse_fetches_each_post_at_most (fuel : nat) (z : Z) (s : state) :
  exists evs,
    trace (traverse R T config fuel (VInt z) s).2 = trace s ++ evs /\
    forall i, Z.of_nat (calls_to (fetch_of i) evs) <= max_retries config.
Proof.
  destruct (traverse_keeps_fetch_within R T config fuel z s) as (evs & Htr & _).
  exists evs. split; [exact Htr|]. intros i.
  destruct (traverse_counts i fuel z s) as (evs' & Htr' & Hc).
  rewrite Htr in Htr'. apply app_inv_head in Htr'. subst evs'. lia.
Qed.

End Asked.

(** ** Further runs on the paper board *)

Lemma traversal_counts_down_witness :
  while_loop (paper_board three_posts never never) (paper_datetime january)
             (paper_config 3 5) 2 midway
  = (Ok tt, turn (paper_board three_posts never never) (paper_datetime january)
              (paper_config 3 5)
              (turn (paper_board three_posts never never) (paper_datetime january)
                 (paper_config 3 5) midway)) /\
  exists evs,
    trace (while_loop (paper_board three_posts never never) (paper_datetime january)
                      (paper_config 3 5) 2 midway).2
    = trace midway ++ evs /\
    squash (fetched_at evs) = [2; 1].
Proof.
  assert (H0 : 0 <= current_index midway) by (simpl; lia).
  assert (Hf : (Z.to_nat (current_index midway) <= 2)%nat) by (simpl; lia).
  assert (Hm : 1 <= max_retries (paper_config 3 5)) by (simpl; lia).
  destruct (traversal_counts_down (paper_board three_posts never never)
              (paper_datetime january) (paper_config 3 5) midway 2 H0 Hf)
    as (_ & Heq & _ & _ & Hv).
  split; [exact Heq|exact (Hv Hm)].
Defined.

Lemma retry_operation_shape_witness :
  exists es o,
    (retry_operation (paper_config 3 0) (invoke flaky_call flaky) (init_state None)).2
    = set_trace (trace (init_state None)
                 ++ concat (map (retry_events (paper_config 3 0) flaky_call) es)
                 ++ [Called flaky_call o]) (init_state None) /\
    Z.of_nat (length es) < max_retries (paper_config 3 0) /\
    (forall (j : nat) e, es !! j = Some e ->
       flaky (trace (init_state None)
              ++ concat (map (retry_events (paper_config 3 0) flaky_call) (take j es)))
       = Throw e) /\
    match o with
    | None => exists a,
        flaky (trace (init_state None)
               ++ concat (map (retry_events (paper_config 3 0) flaky_call) es))
        = Return a /\
        (retry_operation (paper_config 3 0) (invoke flaky_call flaky) (init_state None)).1
        = Ok (Some a)
    | Some e =>
        flaky (trace (init_state None)
               ++ concat (map (retry_events (paper_config 3 0) flaky_call) es))
        = Throw e /\
        (retry_operation (paper_config 3 0) (invoke flaky_call flaky) (init_state None)).1
        = Raise e /\
        Z.of_nat (length es) = max_retries (paper_config 3 0) - 1
    end.
Proof.
  apply (retry_operation_shape (paper_config 3 0) flaky_call flaky (init_state None));
    simpl; lia.
Defined.

Lemma retry_operation_after_failures_witness :
  exists evs,
    retry_operation (paper_config 3 0) (invoke flaky_call flaky) (init_state None)
    = (Ok (Some 42), set_trace (trace (init_state None) ++ evs) (init_state None)) /\
    calls_to flaky_call evs = 3%nat /\
    length (List.filter is_sleep evs) = 2%nat.
Proof.
  apply (retry_operation_after_failures (paper_config 3 0) flaky_call flaky 2
           (init_state None) 42).
  - simpl. lia.
  - simpl. lia.
  - intros h Hh. exists (Failure "timeout"). unfold flaky.
    destruct (calls_to flaky_call h <? 2)%nat eqn:Hlt; [reflexivity|].
    apply Nat.ltb_ge in Hlt. simpl in Hh. lia.
  - intros h Hh. unfold flaky. rewrite Hh. reflexivity.
Defined.

Lemma retry_operation_negative_delay_witness :
  retry_operation (paper_config 3 (-1)) (invoke flaky_call flaky) (init_state None)
  = (Raise ValueError,
     set_trace (trace (init_state None)
                ++ [Called flaky_call (Some (Failure "timeout"));
                    Logged WARNING (MsgRetry (retry_delay (paper_config 3 (-1)))
                                      (Failure "timeout"))])
       (init_state None)).
Proof.
  apply (retry_operation_negative_delay (paper_config 3 (-1)) flaky_call flaky
           (init_state None) (Failure "timeout")).
  - simpl. lia.
  - simpl. lia.
  - reflexivity.
Defined.

Lemma load_progress_reads_only_witness :
  let out := load_progress (paper_board three_posts never never) (paper_datetime january)
               (paper_config 3 5) (init_state (Some finished_table)) in
  disk out.2 = Some (Workbook finished_table) /\
  sheet out.2 = finished_table /\
  (trace out.2 = trace (init_state (Some finished_table)) \/
   exists d i,
     out.1 = Ok tt /\
     trace out.2 = trace (init_state (Some finished_table)) ++ [Logged INFO (MsgResume d i)]).
Proof.
  apply (load_progress_reads_only (paper_board three_posts never never)
           (paper_datetime january) (paper_config 3 5)
           (init_state (Some finished_table)) finished_table).
  reflexivity.
Defined.

Lemma load_progress_without_valid_row_witness :
  load_progress (paper_board three_posts never never) (paper_datetime january)
    (paper_config 3 5) (init_state (Some [header]))
  = (Ok tt, set_start_index VNone
              (set_start_date VNone (set_sheet [header] (init_state (Some [header]))))).
Proof.
  apply (load_progress_without_valid_row (paper_board three_posts never never)
           (paper_datetime january) (paper_config 3 5)
           (init_state (Some [header])) [header]).
  - reflexivity.
  - simpl. constructor.
  - reflexivity.
Defined.

Lemma load_progress_bad_cursor_row_witness :
  (load_progress (paper_board three_posts never never) (paper_datetime january)
     (paper_config 3 5) (init_state (Some garbled_table))).1
  = Raise ValueError.
Proof.
  refine (proj1 (proj2 (load_progress_bad_cursor_row (paper_board three_posts never never)
                          (paper_datetime january) (paper_config 3 5)
                          (init_state (Some garbled_table)) garbled_table
                          [VStr "yesterday"; VInt 1; VInt 3] _ _ _))
            "yesterday" _ _).
  - reflexivity.
  - repeat constructor; simpl; lia.
  - reflexivity.
  - reflexivity.
  - reflexivity.
Defined.

Lemma crawl_stops_at_unreadable_progress_witness :
  exists s',
    crawl (paper_board three_posts never never) (paper_datetime january)
          (paper_config 3 5) 3 (init_state (Some garbled_table))
    = (Raise ValueError, s') /\
    disk s' = Some (Workbook garbled_table) /\
    trace s' = [Logged ERROR (MsgCrawlFailed ValueError);
                Called Logout None; Logged INFO MsgLoggedOut].
Proof.
  apply (crawl_stops_at_unreadable_progress (paper_board three_posts never never)
           (paper_datetime january) (paper_config 3 5) 3
           (init_state (Some garbled_table))
           (load_progress (paper_board three_posts never never) (paper_datetime january)
              (paper_config 3 5) (init_state (Some garbled_table))).2
           ValueError).
  reflexivity.
Defined.

Lemma resumed_crawl_stays_below_witness :
  (exists s0,
     crawl_setup (paper_board three_posts never never) (paper_datetime january)
                 (paper_config 3 5) (init_state (Some interrupted_table))
     = (Ok (VInt (3 - 1)), s0)) /\
  exists evs,
    trace (crawl (paper_board three_posts never never) (paper_datetime january)
                 (paper_config 3 5) 3 (init_state (Some interrupted_table))).2
    = trace (init_state (Some interrupted_table)) ++ evs /\
    forallb (fetch_within 1 (3 - 1)) evs = true.
Proof.
  apply (resumed_crawl_stays_below (paper_board three_posts never never)
           (paper_datetime january) (paper_config 3 5) 3
           (init_state (Some interrupted_table)) interrupted_table
           [VStr "2024-1-2"; VInt 1; VInt 3] "2024-1-2" jan2 3 3).
  - simpl. lia.
  - reflexivity.
  - repeat constructor; simpl; lia.
  - reflexivity.
  - reflexivity.
  - reflexivity.
  - reflexivity.
  - lia.
  - intros h. reflexivity.
  - intros h. reflexivity.
Defined.

Lemma crawl_refused_by_board_witness :
  let out := crawl closed_board (paper_datetime january) (paper_config 3 5) 3
               (init_state None) in
  (exists e, out.1 = Raise e) /\
  sheet out.2
  = sheet (load_progress closed_board (paper_datetime january) (paper_config 3 5)
             (init_state None)).2 /\
  disk out.2
  = disk (load_progress closed_board (paper_datetime january) (paper_config 3 5)
            (init_state None)).2 /\
  exists evs,
    trace out.2 = trace (init_state None) ++ evs /\
    forallb (fun ev => negb (is_fetch ev)) evs = true.
Proof.
  apply (crawl_refused_by_board closed_board (paper_datetime january) (paper_config 3 5) 3
           (init_state None)).
  - simpl. lia.
  - left. intros h. exists (Failure "no route"). reflexivity.
Defined.

Lemma crawl_without_attempts_witness :
  exists s',
    crawl (paper_board three_posts never never) (paper_datetime january)
          (paper_config 0 5) 3 (init_state None)
    = (Raise TypeError, s') /\
    disk s' = Some (Workbook [header]) /\
    trace s'
    = [Called (SaveWorkbook "ptt_data.xlsx" [header]) None;
       Logged INFO MsgLoggedIn;
       Logged INFO (MsgLatest None);
       Logged ERROR (MsgCrawlFailed TypeError);
       Called Logout None;
       Logged INFO MsgLoggedOut].
Proof.
  apply (crawl_without_attempts (paper_board three_posts never never)
           (paper_datetime january) (paper_config 0 5) 3 (init_state None)).
  - simpl. lia.
  - reflexivity.
  - reflexivity.
  - reflexivity.
Defined.

Lemma crawl_of_empty_board_witness :
  exists s' evs,
    crawl (paper_board [] never never) (paper_datetime january) (paper_config 3 5) 0
          (init_state None)
    = (Ok tt, s') /\
    disk s' = Some (Workbook [header]) /\
    sheet s' = [header] /\
    trace s' = trace (init_state None) ++ evs /\
    forallb (fun ev => negb (is_fetch ev)) evs = true.
Proof.
  apply (crawl_of_empty_board (paper_board [] never never) (paper_datetime january)
           (paper_config 3 5) 0 (init_state None) 0).
  - simpl. lia.
  - lia.
  - reflexivity.
  - reflexivity.
  - intros h p rows. reflexivity.
  - intros h. reflexivity.
  - intros h. reflexivity.
Defined.

Lemma failed_save_is_written_later_witness :
  let R := paper_board three_posts never (Nat.eqb 0) in
  let T := paper_datetime january in
  let cfg := paper_config 3 5 in
  (save_daily_count R T cfg jan2 1 3 loaded).1 = Raise (Failure "disk full") /\
  sheet (save_daily_count R T cfg jan2 1 3 loaded).2 = sheet loaded ++ [tally_row T jan2 1 3] /\
  disk (save_daily_count R T cfg jan2 1 3 loaded).2
  = Some (Torn (Failure "BadZipFile")) /\
  (save_daily_count R T cfg jan1 2 1 (save_daily_count R T cfg jan2 1 3 loaded).2).1
  = Ok tt /\
  disk (save_daily_count R T cfg jan1 2 1 (save_daily_count R T cfg jan2 1 3 loaded).2).2
  = Some (Workbook (sheet loaded ++ [tally_row T jan2 1 3; tally_row T jan1 2 1])).
Proof.
  apply (failed_save_is_written_later (paper_board three_posts never (Nat.eqb 0))
           (paper_datetime january) (paper_config 3 5) loaded
           jan2 1 3 (Failure "disk full") jan1 2 1).
  - reflexivity.
  - reflexivity.
Defined.

Lemma final_flush_failure_aborts_witness :
  exists s',
    crawl (paper_board three_posts never (Nat.eqb 2)) (paper_datetime january)
          (paper_config 3 5) 3 (init_state None)
    = (Raise (Failure "disk full"), s') /\
    disk s' = Some (Torn (Failure "BadZipFile")) /\
    last (trace s') = Some (Logged INFO MsgLoggedOut) /\
    calls_to Logout (trace s') = 1%nat.
Proof.
  pose (R := paper_board three_posts never (Nat.eqb 2)).
  pose (T := paper_datetime january).
  pose (cfg := paper_config 3 5).
  pose (s0 := (crawl_setup R T cfg (init_state None)).2).
  pose (s2 := (walk_down R T cfg 3 (VInt 3) s0).2).
  destruct (final_flush_failure_aborts R T cfg 3 (init_state None) s0 s2 (VInt 3)
              jan1 2 (Failure "disk full"))
    as (s' & Hc & _ & Hd & Htr).
  - vm_compute. reflexivity.
  - vm_compute. reflexivity.
  - vm_compute. reflexivity.
  - vm_compute. reflexivity.
  - vm_compute. reflexivity.
  - exists s'. split; [exact Hc|]. split; [exact Hd|].
    rewrite Htr. split; vm_compute; reflexivity.
Defined.

Lemma crawl_writes_sound_rows_witness :
  exists hi ts,
    sound_rows 1 hi ts /\
    disk (crawl (paper_board three_posts never (Nat.eqb 1)) (paper_datetime january)
                (paper_config 3 5) 3 (init_state None)).2
    = Some (Workbook (header :: map (row_of (paper_datetime january)) ts)).
Proof.
  assert (H : (crawl (paper_board three_posts never (Nat.eqb 1)) (paper_datetime january)
                     (paper_config 3 5) 3 (init_state None)).1 = Ok tt)
    by (vm_compute; reflexivity).
  destruct (crawl_writes_sound_rows (paper_board three_posts never (Nat.eqb 1))
              (paper_datetime january) (paper_config 3 5) 3 (init_state None) H)
    as (hi & ts & Hts & Hd).
  exists hi, ts. split; [exact Hts|exact Hd].
Defined.

Lemma traverse_counts_every_post_witness :
  exists s' new,
    traverse (paper_board three_posts (Z.eqb 2) never) (paper_datetime january)
             (paper_config 3 5) 3 (VInt 3) loaded = (Ok tt, s') /\
    disk s' = Some (Workbook (sheet loaded ++ new)) /\
    total_count new = fetched (map without_second (countdown (Z.to_nat 3))).
Proof.
  apply (traverse_counts_every_post (paper_board three_posts (Z.eqb 2) never)
           (paper_datetime january) (paper_config 3 5) without_second 3 3 loaded 3).
  - simpl. lia.
  - intros h i Hi. assert (i = 1 \/ i = 2 \/ i = 3) as [->|[->| ->]] by lia.
    + eexists. split; reflexivity.
    + eexists. reflexivity.
    + eexists. split; reflexivity.
  - intros h p rows. reflexivity.
  - lia.
  - simpl. lia.
  - reflexivity.
Defined.

Lemma crawl_return_means_saved_witness :
  let out := crawl (paper_board three_posts never (Nat.eqb 1)) (paper_datetime january)
                   (paper_config 3 5) 3 (init_state None) in
  out.1 = Ok tt /\ disk out.2 = Some (Workbook (sheet out.2)).
Proof.
  assert (H : (crawl (paper_board three_posts never (Nat.eqb 1)) (paper_datetime january)
                     (paper_config 3 5) 3 (init_state None)).1 = Ok tt)
    by (vm_compute; reflexivity).
  split; [exact H|].
  exact (crawl_return_means_saved (paper_board three_posts never (Nat.eqb 1))
           (paper_datetime january) (paper_config 3 5) 3 (init_state None) H).
Defined.

Lemma traverse_fetches_each_post_at_most_witness :
  exists evs,
    trace (traverse (paper_board three_posts (Z.eqb 2) never) (paper_datetime january)
                    (paper_config 3 5) 3 (VInt 3) loaded).2
    = trace loaded ++ evs /\
    forall i, Z.of_nat (calls_to (GetPost (board_name (paper_config 3 5)) i) evs)
              <= max_retries (paper_config 3 5).
Proof.
  apply (traverse_fetches_each_post_at_most (paper_board three_posts (Z.eqb 2) never)
           (paper_datetime january) (paper_config 3 5)).
  simpl. lia.
Defined.
